(** * Professional Trading Terminal: indicator engine and sector scorer

    A shallow embedding of the numeric core of the repository and the
    properties its specification states about it.

    - [Py]: the Python values a fundamentals dictionary holds, the
      exceptions and the operators of the embedded code;
    - [StockAnalyzer]: [stock_analyzer.py], the sector scorer (the five
      [_analyze_*] functions, [_get_recommendation], [analyze]) and the
      insights [analyze] returns with the scores ([_find_*],
      [_sector_comparison], [_generate_summary]);
    - [Pandas]: the pandas operations the indicator code calls ([shift],
      [diff], [where], [rolling], [ewm], [cumsum], [pct_change], column
      access);
    - [Frame]: statements that read and assign the columns of one frame;
    - [EnhancedFinanceData]: [_add_technical_indicators], the volume and
      support stages, the [_calculate_*] helpers, the cache,
      [get_enhanced_stock_data] and [_get_enhanced_financial_metrics] of
      [enhanced_finance_data.py];
    - [OpenbbApp]: [add_technical_indicators],
      [calculate_technical_indicators], [generate_trade_signals],
      [calculate_portfolio_metrics] and [get_enhanced_stock_info] of
      [openbb_app.py].

    What the functions read from outside (yfinance, the clock) is a
    parameter of their embedding; the texts of formatted numbers are
    parameters as well.

    Numbers.  Python floats are embedded as exact rationals ([Q]).  The
    indicator code divides without guarding the denominator, so its
    columns hold rationals extended with the IEEE special values ([xnum]:
    finite, [PInf], [NInf], [NaN]).  Rounding and the sign of zero are not
    part of the embedding: the statements are about exact arithmetic.  The
    worked examples of the scorer are evaluated on binary64 floats as well,
    at the end. *)

From Stdlib Require Import Ascii String QArith Qabs Lqa Floats.
From stdpp Require Import gmap strings list.

#[local] Set Warnings "-inexact-float".

Local Open Scope Q_scope.

(** * Python values, exceptions, operators *)

Module Py.

(** The exceptions the embedded code can raise. *)
Inductive exn :=
| TypeError
| AttributeError
| ZeroDivisionError
| IndexError
| KeyError (key : string).

Inductive result (A : Type) :=
| Ok (a : A)
| Raise (e : exn).
Global Arguments Ok {A} a.
Global Arguments Raise {A} e.

Global Instance result_ret : MRet result := @Ok.
Global Instance result_bind : MBind result :=
  λ A B f m, match m with Ok a => f a | Raise e => Raise e end.

(** The values a fundamentals dictionary holds: [None], a number, a
    string. *)
Inductive value :=
| VNone
| VNum (q : Q)
| VStr (s : string).

(** [d.get(k)] and [d.get(k, dflt)]. *)
Definition get (d : gmap string value) (k : string) : value :=
  default VNone (d !! k).
Definition get_default (d : gmap string value) (k : string) (dflt : value) : value :=
  default dflt (d !! k).

Definition Qltb (a b : Q) : bool :=
  match a ?= b with Lt => true | _ => false end.
Definition Qgeb (a b : Q) : bool := Qle_bool b a.

(** [bool(v)], the test of [if v:]. *)
Definition truthy (v : value) : bool :=
  match v with
  | VNone => false
  | VNum q => negb (Qeq_bool q 0)
  | VStr s => negb (String.eqb s "")
  end.

(** [v is not None] *)
Definition is_not_None (v : value) : bool :=
  match v with VNone => false | _ => true end.

(** [a < b] and [a > b]: numbers with numbers, strings with strings
    (code-point order, which is byte order on UTF-8), anything else is a
    [TypeError]. *)
Definition lt (a b : value) : result bool :=
  match a, b with
  | VNum x, VNum y => Ok (Qltb x y)
  | VStr s, VStr t => Ok (String.ltb s t)
  | _, _ => Raise TypeError
  end.
Definition gt (a b : value) : result bool := lt b a.

Fixpoint repeat_string (n : nat) (s : string) : string :=
  match n with O => EmptyString | S n' => String.append s (repeat_string n' s) end.

(** [v * n] for an [int] literal [n]: a number is scaled, a string is
    repeated. *)
Definition mul_int (v : value) (n : Z) : result value :=
  match v with
  | VNum x => Ok (VNum (x * inject_Z n))
  | VStr s => Ok (VStr (repeat_string (Z.to_nat n) s))
  | VNone => Raise TypeError
  end.

(** [v * c] for a [float] literal [c]. *)
Definition mul_float (v : value) (c : Q) : result value :=
  match v with
  | VNum x => Ok (VNum (x * c))
  | _ => Raise TypeError
  end.

Definition sub (a b : value) : result value :=
  match a, b with
  | VNum x, VNum y => Ok (VNum (x - y))
  | _, _ => Raise TypeError
  end.

Definition div (a b : value) : result value :=
  match a, b with
  | VNum x, VNum y =>
      if Qeq_bool y 0 then Raise ZeroDivisionError else Ok (VNum (x / y))
  | _, _ => Raise TypeError
  end.

Definition lower_ascii (c : ascii) : ascii :=
  let n := nat_of_ascii c in
  if (65 <=? n)%nat && (n <=? 90)%nat then ascii_of_nat (n + 32) else c.

(** [s.lower()] on the ASCII letters.  No character outside ASCII
    lowers to a letter of [strong_buy], [buy], [hold], [sell] or
    [strong_sell], so the look-up in [rec_map] below is not affected. *)
Fixpoint lower_string (s : string) : string :=
  match s with
  | EmptyString => EmptyString
  | String c s' => String (lower_ascii c) (lower_string s')
  end.

(** [v.lower()] *)
Definition lower (v : value) : result string :=
  match v with
  | VStr s => Ok (lower_string s)
  | _ => Raise AttributeError
  end.

(** [sum(points)]: the additions run from the left, starting at 0. *)
Definition sum (points : list Q) : Q := fold_left Qplus points 0.

End Py.

Import Py.

(** * stock_analyzer.py *)

Module StockAnalyzer.

Inductive Recommendation :=
| STRONG_BUY
| BUY
| HOLD
| SELL
| STRONG_SELL.

(** A row of [SECTOR_BENCHMARKS]. *)
Record Benchmark := {
  pe_avg : Q; pe_good : Q; pe_bad : Q;
  pb_avg : Q; roe_avg : Q; margin_avg : Q;
  growth_avg : Q; debt_equity_ok : Q
}.

Definition mk (a g b pb roe m gr de : Q) : Benchmark :=
  {| pe_avg := a; pe_good := g; pe_bad := b; pb_avg := pb; roe_avg := roe;
     margin_avg := m; growth_avg := gr; debt_equity_ok := de |}.

Definition SECTOR_BENCHMARKS : gmap string Benchmark :=
  list_to_map [
    ("Technology",             mk 35 25 60 8   20 25 15 1.5);
    ("Software",               mk 45 30 80 15  25 30 25 1.0);
    ("Finance",                mk 12 10 18 1.2 12 35 8  3.0);
    ("Consumer Cyclical",      mk 20 15 30 4   18 10 10 1.2);
    ("Healthcare",             mk 22 18 35 5   15 18 12 0.8);
    ("Energy",                 mk 15 10 25 1.5 10 8  5  1.0);
    ("Industrials",            mk 18 15 25 3   14 12 8  1.0);
    ("Consumer Defensive",     mk 22 18 30 4   16 8  5  0.8);
    ("Communication Services", mk 25 18 40 3   15 20 12 1.2);
    ("Utilities",              mk 18 15 25 1.8 10 12 3  1.5);
    ("Real Estate",            mk 30 20 50 2   8  15 5  2.0);
    ("Basic Materials",        mk 16 12 25 2   12 10 6  0.8)
  ].

Definition DEFAULT_BENCHMARK : Benchmark := mk 25 18 40 4 15 15 10 1.0.

(** The part of [AnalysisResult] that is computed by arithmetic: the
    scores, the recommendation and the two labels.  The insight lists,
    the sector comparison and the summary are formatted text and are not
    embedded. *)
Record AnalysisResult := {
  overall_score : Q;
  recommendation : Recommendation;
  sector : value;
  industry : value;
  valuation_score : Q;
  financial_health_score : Q;
  growth_score : Q;
  momentum_score : Q;
  sentiment_score : Q
}.

(** [sum(points) / len(points) if points else 50] *)
Definition mean_or_neutral (points : list Q) : Q :=
  match points with
  | [] => 50
  | _ => Py.sum points / inject_Z (Z.of_nat (length points))
  end.

(** [points.append(p)] *)
Definition append (points : list Q) (p : Q) : list Q := points ++ [p].

Section Analyzer.

(** [self.data] and [self.benchmarks] *)
Variable data : gmap string value.
Variable benchmarks : Benchmark.

(** ** [_analyze_valuation] *)

Definition pe_points (points : list Q) : result (list Q) :=
  let pe := get data "trailingPE" in
  if truthy pe then
    c ← lt pe (VNum (pe_good benchmarks));
    if c : bool then Ok (append points 80) else
    c ← lt pe (VNum (pe_avg benchmarks));
    if c : bool then Ok (append points 60) else
    c ← lt pe (VNum (pe_bad benchmarks));
    if c : bool then Ok (append points 40) else
    Ok (append points 20)
  else Ok points.

Definition pb_points (points : list Q) : result (list Q) :=
  let pb := get data "priceToBook" in
  if truthy pb then
    let pb_avg := pb_avg benchmarks in
    c ← lt pb (VNum (pb_avg * 0.7));
    if c : bool then Ok (append points 80) else
    c ← lt pb (VNum pb_avg);
    if c : bool then Ok (append points 60) else
    c ← lt pb (VNum (pb_avg * 1.5));
    if c : bool then Ok (append points 40) else
    Ok (append points 20)
  else Ok points.

Definition peg_points (points : list Q) : result (list Q) :=
  let peg := get data "pegRatio" in
  if truthy peg then
    c ← lt peg (VNum 1);
    if c : bool then Ok (append points 90) else
    c ← lt peg (VNum 1.5);
    if c : bool then Ok (append points 70) else
    c ← lt peg (VNum 2);
    if c : bool then Ok (append points 50) else
    Ok (append points 30)
  else Ok points.

Definition forward_pe_points (points : list Q) : result (list Q) :=
  let pe := get data "trailingPE" in
  let forward_pe := get data "forwardPE" in
  if truthy forward_pe && truthy pe then
    pe09 ← mul_float pe 0.9;
    c ← lt forward_pe pe09;
    if c : bool then Ok (append points 70) else
    c ← lt forward_pe pe;
    if c : bool then Ok (append points 60) else
    Ok (append points 40)
  else Ok points.

Definition _analyze_valuation : result Q :=
  let points := [] in
  points ← pe_points points;
  points ← pb_points points;
  points ← peg_points points;
  points ← forward_pe_points points;
  Ok (mean_or_neutral points).

(** ** [_analyze_financial_health] *)

Definition roe_points (points : list Q) : result (list Q) :=
  let roe := get data "returnOnEquity" in
  if truthy roe then
    roe_pct ← mul_int roe 100;
    let roe_avg := roe_avg benchmarks in
    c ← gt roe_pct (VNum (roe_avg * 1.3));
    if c : bool then Ok (append points 90) else
    c ← gt roe_pct (VNum roe_avg);
    if c : bool then Ok (append points 70) else
    c ← gt roe_pct (VNum (roe_avg * 0.7));
    if c : bool then Ok (append points 50) else
    Ok (append points 30)
  else Ok points.

Definition roa_points (points : list Q) : result (list Q) :=
  let roa := get data "returnOnAssets" in
  if truthy roa then
    c ← gt roa (VNum 0.15);
    if c : bool then Ok (append points 85) else
    c ← gt roa (VNum 0.10);
    if c : bool then Ok (append points 70) else
    c ← gt roa (VNum 0.05);
    if c : bool then Ok (append points 50) else
    Ok (append points 30)
  else Ok points.

Definition debt_equity_points (points : list Q) : result (list Q) :=
  let debt_equity := get data "debtToEquity" in
  if is_not_None debt_equity then
    let de_ok := debt_equity_ok benchmarks in
    c ← lt debt_equity (VNum (de_ok * 0.5));
    if c : bool then Ok (append points 90) else
    c ← lt debt_equity (VNum de_ok);
    if c : bool then Ok (append points 70) else
    c ← lt debt_equity (VNum (de_ok * 1.5));
    if c : bool then Ok (append points 40) else
    Ok (append points 20)
  else Ok points.

Definition margin_points (points : list Q) : result (list Q) :=
  let margin := get data "profitMargins" in
  if truthy margin then
    margin_pct ← mul_int margin 100;
    let margin_avg := margin_avg benchmarks in
    c ← gt margin_pct (VNum (margin_avg * 1.3));
    if c : bool then Ok (append points 90) else
    c ← gt margin_pct (VNum margin_avg);
    if c : bool then Ok (append points 70) else
    c ← gt margin_pct (VNum (margin_avg * 0.7));
    if c : bool then Ok (append points 50) else
    Ok (append points 30)
  else Ok points.

Definition fcf_points (points : list Q) : result (list Q) :=
  let fcf := get data "freeCashflow" in
  if truthy fcf then
    c ← gt fcf (VNum 0);
    if c : bool then Ok (append points 70) else
    Ok (append points 20)
  else Ok points.

Definition _analyze_financial_health : result Q :=
  let points := [] in
  points ← roe_points points;
  points ← roa_points points;
  points ← debt_equity_points points;
  points ← margin_points points;
  points ← fcf_points points;
  Ok (mean_or_neutral points).

(** ** [_analyze_growth] *)

Definition rev_growth_points (points : list Q) : result (list Q) :=
  let rev_growth := get data "revenueGrowth" in
  if truthy rev_growth then
    growth_pct ← mul_int rev_growth 100;
    let growth_avg := growth_avg benchmarks in
    c ← gt growth_pct (VNum (growth_avg * 2));
    if c : bool then Ok (append points 95) else
    c ← gt growth_pct (VNum (growth_avg * 1.3));
    if c : bool then Ok (append points 80) else
    c ← gt growth_pct (VNum growth_avg);
    if c : bool then Ok (append points 65) else
    c ← gt growth_pct (VNum 0);
    if c : bool then Ok (append points 45) else
    Ok (append points 20)
  else Ok points.

Definition earnings_growth_points (points : list Q) : result (list Q) :=
  let earnings_growth := get data "earningsGrowth" in
  if truthy earnings_growth then
    eg_pct ← mul_int earnings_growth 100;
    c ← gt eg_pct (VNum 25);
    if c : bool then Ok (append points 90) else
    c ← gt eg_pct (VNum 15);
    if c : bool then Ok (append points 75) else
    c ← gt eg_pct (VNum 5);
    if c : bool then Ok (append points 55) else
    c ← gt eg_pct (VNum 0);
    if c : bool then Ok (append points 40) else
    Ok (append points 25)
  else Ok points.

Definition gross_margin_points (points : list Q) : result (list Q) :=
  let gross_margin := get data "grossMargins" in
  if truthy gross_margin then
    gm_pct ← mul_int gross_margin 100;
    c ← gt gm_pct (VNum 50);
    if c : bool then Ok (append points 85) else
    c ← gt gm_pct (VNum 30);
    if c : bool then Ok (append points 70) else
    c ← gt gm_pct (VNum 20);
    if c : bool then Ok (append points 50) else
    Ok (append points 30)
  else Ok points.

Definition _analyze_growth : result Q :=
  let points := [] in
  points ← rev_growth_points points;
  points ← earnings_growth_points points;
  points ← gross_margin_points points;
  Ok (mean_or_neutral points).

(** ** [_analyze_momentum] *)

(** The body of [for perf, weight in [...]]. *)
Definition perf_points (perf : value) (weight : Q) (points : list Q)
  : result (list Q) :=
  if is_not_None perf then
    c ← gt perf (VNum 10);
    if c : bool then Ok (append points (90 * weight)) else
    c ← gt perf (VNum 5);
    if c : bool then Ok (append points (75 * weight)) else
    c ← gt perf (VNum 0);
    if c : bool then Ok (append points (60 * weight)) else
    c ← gt perf (VNum (-5));
    if c : bool then Ok (append points (40 * weight)) else
    Ok (append points (20 * weight))
  else Ok points.

Fixpoint perf_loop (items : list (value * Q)) (points : list Q)
  : result (list Q) :=
  match items with
  | [] => Ok points
  | (perf, weight) :: rest =>
      points ← perf_points perf weight points;
      perf_loop rest points
  end.

Definition ma_points (points : list Q) : result (list Q) :=
  let ma_50 := get data "fiftyDayAverage" in
  let ma_200 := get data "twoHundredDayAverage" in
  let current_price := get data "currentPrice" in
  if forallb truthy [ma_50; ma_200; current_price] then
    (* current_price > ma_50 > ma_200 *)
    c ← (c1 ← gt current_price ma_50;
         if c1 : bool then gt ma_50 ma_200 else Ok false);
    if c : bool then Ok (append points 85) else
    c ← gt current_price ma_50;
    if c : bool then Ok (append points 70) else
    c ← gt current_price ma_200;
    if c : bool then Ok (append points 55) else
    Ok (append points 30)
  else Ok points.

Definition _analyze_momentum : result Q :=
  let points := [] in
  let perf_1w := get data "performance_1w" in
  let perf_1m := get data "performance_1m" in
  let perf_3m := get data "performance_3m" in
  points ← perf_loop [(perf_1w, 1.2); (perf_1m, 1.0); (perf_3m, 0.8)] points;
  points ← ma_points points;
  Ok (mean_or_neutral points).

(** ** [_analyze_sentiment] *)

Definition rec_map : gmap string Q :=
  list_to_map [("strong_buy", 95); ("buy", 75); ("hold", 50);
               ("sell", 25); ("strong_sell", 5)].

Definition rec_points (points : list Q) : result (list Q) :=
  let rec_key := get_default data "recommendationKey" (VStr "") in
  if truthy rec_key then
    k ← lower rec_key;
    Ok (append points (default 50 (rec_map !! k)))
  else Ok points.

Definition target_points (points : list Q) : result (list Q) :=
  let target_mean := get data "targetMeanPrice" in
  let current := get data "currentPrice" in
  if truthy target_mean && truthy current then
    diff ← sub target_mean current;
    ratio ← div diff current;
    upside ← mul_int ratio 100;
    c ← gt upside (VNum 30);
    if c : bool then Ok (append points 95) else
    c ← gt upside (VNum 15);
    if c : bool then Ok (append points 80) else
    c ← gt upside (VNum 5);
    if c : bool then Ok (append points 65) else
    c ← gt upside (VNum (-5));
    if c : bool then Ok (append points 45) else
    Ok (append points 25)
  else Ok points.

Definition inst_points (points : list Q) : result (list Q) :=
  let inst_pct := get data "heldPercentInstitutions" in
  if truthy inst_pct then
    c ← gt inst_pct (VNum 0.7);
    if c : bool then Ok (append points 70) else
    c ← gt inst_pct (VNum 0.5);
    if c : bool then Ok (append points 60) else
    Ok (append points 45)
  else Ok points.

Definition short_points (points : list Q) : result (list Q) :=
  let short_pct := get data "shortPercentOfFloat" in
  if truthy short_pct then
    c ← lt short_pct (VNum 0.05);
    if c : bool then Ok (append points 75) else
    c ← lt short_pct (VNum 0.10);
    if c : bool then Ok (append points 60) else
    c ← gt short_pct (VNum 0.20);
    if c : bool then Ok (append points 30) else
    Ok (append points 50)
  else Ok points.

Definition _analyze_sentiment : result Q :=
  let points := [] in
  points ← rec_points points;
  points ← target_points points;
  points ← inst_points points;
  points ← short_points points;
  Ok (mean_or_neutral points).

End Analyzer.

(** ** [_get_recommendation] *)
Definition _get_recommendation (score : Q) : Recommendation :=
  if Qgeb score 75 then STRONG_BUY
  else if Qgeb score 60 then BUY
  else if Qgeb score 40 then HOLD
  else if Qgeb score 25 then SELL
  else STRONG_SELL.

(** ** [__init__]: the benchmark row of the sector, or the default. *)
Definition benchmarks_of (sector : value) : Benchmark :=
  match sector with
  | VStr s => default DEFAULT_BENCHMARK (SECTOR_BENCHMARKS !! s)
  | _ => DEFAULT_BENCHMARK
  end.

(** ** [analyze]: the scores, their weighted sum, the recommendation. *)
Definition analyze (stock_data : gmap string value) : result AnalysisResult :=
  let sector := get_default stock_data "sector" (VStr "Unknown") in
  let industry := get_default stock_data "industry" (VStr "Unknown") in
  let benchmarks := benchmarks_of sector in
  valuation ← _analyze_valuation stock_data benchmarks;
  health ← _analyze_financial_health stock_data benchmarks;
  growth ← _analyze_growth stock_data benchmarks;
  momentum ← _analyze_momentum stock_data;
  sentiment ← _analyze_sentiment stock_data;
  let overall :=
    valuation * 0.25 + health * 0.20 + growth * 0.25 +
    momentum * 0.15 + sentiment * 0.15 in
  let recommendation := _get_recommendation overall in
  Ok {| overall_score := overall;
        recommendation := recommendation;
        sector := sector;
        industry := industry;
        valuation_score := valuation;
        financial_health_score := health;
        growth_score := growth;
        momentum_score := momentum;
        sentiment_score := sentiment |}.

(** ** The insights: [_find_strengths_weaknesses], [_find_red_flags],
    [_find_catalysts], [_sector_comparison], [_generate_summary] *)

(** The lists and texts [analyze] puts in [AnalysisResult] beside the
    scores. *)
Record Insights := {
  strengths : list string;
  weaknesses : list string;
  red_flags : list string;
  catalysts : list string;
  sector_comparison : gmap string string;
  summary : string
}.

(** [v and c]: [c] is evaluated when [v] is true. *)
Definition and_then (v : value) (c : result bool) : result bool :=
  if truthy v then c else Ok false.

(** [abs(v)] *)
Definition abs (v : value) : result value :=
  match v with
  | VNum x => Ok (VNum (Qabs x))
  | _ => Raise TypeError
  end.

Section Insights.

(** [self.data], [self.benchmarks] and [self.sector] *)
Variable data : gmap string value.
Variable benchmarks : Benchmark.
Variable sector : value.

(** The texts of numbers: [format_f n x] is [f"{x:.nf}"], [str x] is
    [f"{x}"] of a number of the benchmark table, [str_value v] is
    [f"{v}"]. *)
Variable format_f : nat → Q → string.
Variable str : Q → string.
Variable str_value : value → string.

(** [f"{v:.nf}"].  Every value the insight functions format has been
    compared with a number before, so is a number; on [None] the format
    is a [TypeError] (on a string Python raises [ValueError]). *)
Definition format_value (n : nat) (v : value) : result string :=
  match v with
  | VNum x => Ok (format_f n x)
  | _ => Raise TypeError
  end.

(** *** [_find_strengths_weaknesses]: the blocks, on the pair of the two
    lists *)

Definition pe_insight (sw : list string * list string)
  : result (list string * list string) :=
  let '(strengths, weaknesses) := sw in
  let pe := get data "trailingPE" in
  c ← and_then pe (lt pe (VNum (pe_good benchmarks)));
  if c : bool then
    t ← format_value 1 pe;
    Ok (strengths ++ ["💎 Undervalued P/E: " +:+ t +:+ " (sector avg: "
                      +:+ str (pe_avg benchmarks) +:+ ")"], weaknesses)
  else
    c ← and_then pe (gt pe (VNum (pe_bad benchmarks)));
    if c : bool then
      t ← format_value 1 pe;
      Ok (strengths,
          weaknesses ++ ["⚠️ High P/E: " +:+ t +:+ " (sector avg: "
                         +:+ str (pe_avg benchmarks) +:+ ")"])
    else Ok (strengths, weaknesses).

Definition rev_growth_insight (sw : list string * list string)
  : result (list string * list string) :=
  let '(strengths, weaknesses) := sw in
  let rev_growth := get data "revenueGrowth" in
  if truthy rev_growth then
    rg_pct ← mul_int rev_growth 100;
    c ← gt rg_pct (VNum (growth_avg benchmarks * 1.5));
    if c : bool then
      t ← format_value 1 rg_pct;
      Ok (strengths ++ ["🚀 Strong Revenue Growth: " +:+ t +:+ "% (sector avg: "
                        +:+ str (growth_avg benchmarks) +:+ "%)"], weaknesses)
    else
      c ← lt rg_pct (VNum (growth_avg benchmarks * 0.5));
      if c : bool then
        t ← format_value 1 rg_pct;
        Ok (strengths,
            weaknesses ++ ["📉 Weak Revenue Growth: " +:+ t +:+ "% (sector avg: "
                           +:+ str (growth_avg benchmarks) +:+ "%)"])
      else Ok (strengths, weaknesses)
  else Ok (strengths, weaknesses).

Definition margin_insight (sw : list string * list string)
  : result (list string * list string) :=
  let '(strengths, weaknesses) := sw in
  let margin := get data "profitMargins" in
  if truthy margin then
    m_pct ← mul_int margin 100;
    c ← gt m_pct (VNum (margin_avg benchmarks * 1.3));
    if c : bool then
      t ← format_value 1 m_pct;
      Ok (strengths ++ ["💰 Excellent Margins: " +:+ t +:+ "% (sector avg: "
                        +:+ str (margin_avg benchmarks) +:+ "%)"], weaknesses)
    else
      c ← lt m_pct (VNum (margin_avg benchmarks * 0.7));
      if c : bool then
        t ← format_value 1 m_pct;
        Ok (strengths,
            weaknesses ++ ["⚠️ Low Margins: " +:+ t +:+ "% (sector avg: "
                           +:+ str (margin_avg benchmarks) +:+ "%)"])
      else Ok (strengths, weaknesses)
  else Ok (strengths, weaknesses).

Definition roe_insight (sw : list string * list string)
  : result (list string * list string) :=
  let '(strengths, weaknesses) := sw in
  let roe := get data "returnOnEquity" in
  if truthy roe then
    roe_pct ← mul_int roe 100;
    c ← gt roe_pct (VNum (roe_avg benchmarks * 1.3));
    if c : bool then
      t ← format_value 1 roe_pct;
      Ok (strengths ++ ["💪 Strong ROE: " +:+ t +:+ "% (sector avg: "
                        +:+ str (roe_avg benchmarks) +:+ "%)"], weaknesses)
    else
      c ← lt roe_pct (VNum (roe_avg benchmarks * 0.7));
      if c : bool then
        t ← format_value 1 roe_pct;
        Ok (strengths,
            weaknesses ++ ["⚠️ Weak ROE: " +:+ t +:+ "% (sector avg: "
                           +:+ str (roe_avg benchmarks) +:+ "%)"])
      else Ok (strengths, weaknesses)
  else Ok (strengths, weaknesses).

Definition peg_insight (sw : list string * list string)
  : result (list string * list string) :=
  let '(strengths, weaknesses) := sw in
  let peg := get data "pegRatio" in
  c ← and_then peg (lt peg (VNum 1));
  if c : bool then
    t ← format_value 2 peg;
    Ok (strengths ++ ["💎 Low PEG Ratio: " +:+ t
                      +:+ " (growth at reasonable price!)"], weaknesses)
  else Ok (strengths, weaknesses).

Definition _find_strengths_weaknesses : result (list string * list string) :=
  let sw := ([], []) in
  sw ← pe_insight sw;
  sw ← rev_growth_insight sw;
  sw ← margin_insight sw;
  sw ← roe_insight sw;
  sw ← peg_insight sw;
  let '(strengths, weaknesses) := sw in
  Ok (take 3 strengths, take 3 weaknesses).

(** *** [_find_red_flags] *)

Definition debt_flag (flags : list string) : result (list string) :=
  let debt_equity := get data "debtToEquity" in
  c ← and_then debt_equity (gt debt_equity (VNum (debt_equity_ok benchmarks * 2)));
  if c : bool then
    t ← format_value 1 debt_equity;
    Ok (flags ++ ["🚨 High Debt: D/E = " +:+ t +:+ " (sector ok: "
                  +:+ str (debt_equity_ok benchmarks) +:+ ")"])
  else Ok flags.

Definition cash_flow_flag (flags : list string) : result (list string) :=
  let fcf := get data "freeCashflow" in
  c ← and_then fcf (lt fcf (VNum 0));
  if c : bool then
    b ← div fcf (VNum 1000000000);
    t ← format_value 2 b;
    Ok (flags ++ ["🚨 Negative Free Cash Flow: $" +:+ t +:+ "B"])
  else Ok flags.

Definition short_flag (flags : list string) : result (list string) :=
  let short_pct := get data "shortPercentOfFloat" in
  c ← and_then short_pct (gt short_pct (VNum 0.15));
  if c : bool then
    p ← mul_int short_pct 100;
    t ← format_value 1 p;
    Ok (flags ++ ["🚨 High Short Interest: " +:+ t +:+ "% of float"])
  else Ok flags.

Definition revenue_flag (flags : list string) : result (list string) :=
  let rev_growth := get data "revenueGrowth" in
  c ← and_then rev_growth (lt rev_growth (VNum (-0.05)));
  if c : bool then
    p ← mul_int rev_growth 100;
    t ← format_value 1 p;
    Ok (flags ++ ["🚨 Revenue Declining: " +:+ t +:+ "%"])
  else Ok flags.

Definition trend_flag (flags : list string) : result (list string) :=
  let ma_200 := get data "twoHundredDayAverage" in
  let current := get data "currentPrice" in
  c ← and_then ma_200
        (and_then current (bound ← mul_float ma_200 0.9; lt current bound));
  if c : bool then
    ratio ← div current ma_200;
    below ← sub ratio (VNum 1);
    p ← mul_int below 100;
    t ← format_value 1 p;
    Ok (flags ++ ["⚠️ Price " +:+ t +:+ "% below 200-day MA (bearish trend)"])
  else Ok flags.

Definition _find_red_flags : result (list string) :=
  let flags := [] in
  flags ← debt_flag flags;
  flags ← cash_flow_flag flags;
  flags ← short_flag flags;
  flags ← revenue_flag flags;
  flags ← trend_flag flags;
  Ok (take 4 flags).

(** *** [_find_catalysts] *)

Definition momentum_catalyst (catalysts : list string) : result (list string) :=
  let perf_3m := get data "performance_3m" in
  c ← and_then perf_3m (gt perf_3m (VNum 15));
  if c : bool then
    t ← format_value 1 perf_3m;
    Ok (catalysts ++ ["🚀 Strong 3M Momentum: +" +:+ t +:+ "%"])
  else Ok catalysts.

Definition upside_catalyst (catalysts : list string) : result (list string) :=
  let target := get data "targetMeanPrice" in
  let current := get data "currentPrice" in
  if truthy target && truthy current then
    diff ← sub target current;
    ratio ← div diff current;
    upside ← mul_int ratio 100;
    c ← gt upside (VNum 20);
    if c : bool then
      t ← format_value 1 upside;
      t' ← format_value 2 target;
      Ok (catalysts ++ ["🎯 Analyst Upside: " +:+ t +:+ "% (target: $" +:+ t'
                        +:+ ")"])
    else Ok catalysts
  else Ok catalysts.

Definition value_catalyst (catalysts : list string) : result (list string) :=
  let peg := get data "pegRatio" in
  let rev_growth := get data "revenueGrowth" in
  c ← and_then peg
        (c1 ← lt peg (VNum 1.2);
         if c1 : bool then and_then rev_growth (gt rev_growth (VNum 0.10))
         else Ok false);
  if c : bool then
    t ← format_value 2 peg;
    p ← mul_int rev_growth 100;
    t' ← format_value 0 p;
    Ok (catalysts ++ ["💎 Growth at Value: PEG " +:+ t +:+ " with " +:+ t'
                      +:+ "% growth"])
  else Ok catalysts.

Definition margin_catalyst (catalysts : list string) : result (list string) :=
  let gross_margin := get data "grossMargins" in
  c ← and_then gross_margin (gt gross_margin (VNum 0.4));
  if c : bool then
    p ← mul_int gross_margin 100;
    t ← format_value 1 p;
    Ok (catalysts ++ ["💰 High Gross Margins: " +:+ t +:+ "% (pricing power)"])
  else Ok catalysts.

Definition rating_catalyst (catalysts : list string) : result (list string) :=
  let rec_key := get_default data "recommendationKey" (VStr "") in
  match rec_key with
  | VStr "strong_buy" => Ok (catalysts ++ ["✅ Analyst Consensus: STRONG BUY"])
  | _ => Ok catalysts
  end.

Definition _find_catalysts : result (list string) :=
  let catalysts := [] in
  catalysts ← momentum_catalyst catalysts;
  catalysts ← upside_catalyst catalysts;
  catalysts ← value_catalyst catalysts;
  catalysts ← margin_catalyst catalysts;
  catalysts ← rating_catalyst catalysts;
  Ok (take 4 catalysts).

(** *** [_sector_comparison] *)

Definition pe_comparison (comparison : gmap string string)
  : result (gmap string string) :=
  let pe := get data "trailingPE" in
  if truthy pe then
    let pe_avg := pe_avg benchmarks in
    d ← sub pe (VNum pe_avg);
    d ← div d (VNum pe_avg);
    diff ← mul_int d 100;
    a ← abs diff;
    c ← lt a (VNum 10);
    if c : bool then
      t ← format_value 1 pe;
      Ok (<["P/E" := t +:+ " ≈ sector avg (" +:+ str pe_avg +:+ ")"]> comparison)
    else
      c ← lt pe (VNum pe_avg);
      if c : bool then
        t ← format_value 1 pe;
        Ok (<["P/E" := t +:+ " < sector avg (" +:+ str pe_avg
                       +:+ ") ✅ CHEAPER"]> comparison)
      else
        t ← format_value 1 pe;
        Ok (<["P/E" := t +:+ " > sector avg (" +:+ str pe_avg
                       +:+ ") ⚠️ PRICIER"]> comparison)
  else Ok comparison.

Definition margin_comparison (comparison : gmap string string)
  : result (gmap string string) :=
  let margin := get data "profitMargins" in
  if truthy margin then
    m_pct ← mul_int margin 100;
    let m_avg := margin_avg benchmarks in
    c ← gt m_pct (VNum m_avg);
    if c : bool then
      t ← format_value 1 m_pct;
      Ok (<["Margins" := t +:+ "% > sector avg (" +:+ str m_avg
                         +:+ "%) ✅ BETTER"]> comparison)
    else
      t ← format_value 1 m_pct;
      Ok (<["Margins" := t +:+ "% < sector avg (" +:+ str m_avg
                         +:+ "%) ⚠️ WEAKER"]> comparison)
  else Ok comparison.

Definition growth_comparison (comparison : gmap string string)
  : result (gmap string string) :=
  let growth := get data "revenueGrowth" in
  if truthy growth then
    g_pct ← mul_int growth 100;
    let g_avg := growth_avg benchmarks in
    c ← gt g_pct (VNum (g_avg * 1.2));
    if c : bool then
      t ← format_value 1 g_pct;
      Ok (<["Growth" := t +:+ "% >> sector avg (" +:+ str g_avg
                        +:+ "%) 🚀 FAST"]> comparison)
    else
      c ← gt g_pct (VNum g_avg);
      if c : bool then
        t ← format_value 1 g_pct;
        Ok (<["Growth" := t +:+ "% > sector avg (" +:+ str g_avg
                          +:+ "%) ✅ GOOD"]> comparison)
      else
        t ← format_value 1 g_pct;
        Ok (<["Growth" := t +:+ "% < sector avg (" +:+ str g_avg
                          +:+ "%) ⚠️ SLOW"]> comparison)
  else Ok comparison.

Definition _sector_comparison : result (gmap string string) :=
  let comparison := ∅ in
  comparison ← pe_comparison comparison;
  comparison ← margin_comparison comparison;
  comparison ← growth_comparison comparison;
  Ok comparison.

(** *** [_generate_summary]; the recommendation it is given is not
    used. *)
Definition _generate_summary (score : Q) (rec : Recommendation) : string :=
  let '(tone, action) :=
    if Qgeb score 75 then ("bardzo atrakcyjna", "Silna rekomendacja kupna")
    else if Qgeb score 60 then ("atrakcyjna", "Warto rozważyć zakup")
    else if Qgeb score 40 then ("neutralna", "Trzymaj lub czekaj na lepszy moment")
    else if Qgeb score 25 then ("słaba", "Rozważ redukcję pozycji")
    else ("bardzo słaba", "Silna rekomendacja sprzedaży") in
  "Na podstawie analizy względem sektora " +:+ str_value sector
  +:+ ", akcja jest " +:+ tone +:+ " z oceną " +:+ format_f 0 score
  +:+ "/100. " +:+ action +:+ ".".

(** The statements of [analyze] after the recommendation. *)
Definition insights (overall : Q) (recommendation : Recommendation)
  : result Insights :=
  sw ← _find_strengths_weaknesses;
  red_flags ← _find_red_flags;
  catalysts ← _find_catalysts;
  sector_comp ← _sector_comparison;
  let summary := _generate_summary overall recommendation in
  Ok {| strengths := sw.1; weaknesses := sw.2; red_flags := red_flags;
        catalysts := catalysts; sector_comparison := sector_comp;
        summary := summary |}.

End Insights.

(** [analyze] with the insights: the scores first, then the lists and
    texts, as the source orders them. *)
Definition analyze_with_insights (format_f : nat → Q → string) (str : Q → string)
  (str_value : value → string) (stock_data : gmap string value)
  : result (AnalysisResult * Insights) :=
  r ← analyze stock_data;
  i ← insights stock_data (benchmarks_of (sector r)) (sector r)
        format_f str str_value (overall_score r) (recommendation r);
  Ok (r, i).

End StockAnalyzer.

(** * pandas: the operations the indicator code calls *)

Module Pandas.

(** A float: an exact rational or one of the IEEE special values. *)
Inductive xnum :=
| Fin (q : Q)
| PInf
| NInf
| NaN.

Definition isnan (a : xnum) : bool :=
  match a with NaN => true | _ => false end.

Definition xneg (a : xnum) : xnum :=
  match a with
  | Fin x => Fin (- x)
  | PInf => NInf
  | NInf => PInf
  | NaN => NaN
  end.

Definition xadd (a b : xnum) : xnum :=
  match a, b with
  | NaN, _ | _, NaN => NaN
  | Fin x, Fin y => Fin (x + y)
  | PInf, NInf | NInf, PInf => NaN
  | PInf, _ | _, PInf => PInf
  | NInf, _ | _, NInf => NInf
  end.

Definition xsub (a b : xnum) : xnum := xadd a (xneg b).

(** The sign of a rational: [Gt] positive, [Lt] negative, [Eq] zero. *)
Definition sign (x : Q) : comparison := x ?= 0.

Definition xmul (a b : xnum) : xnum :=
  match a, b with
  | NaN, _ | _, NaN => NaN
  | Fin x, Fin y => Fin (x * y)
  | Fin x, i | i, Fin x =>
      match sign x with
      | Gt => i
      | Lt => xneg i
      | Eq => NaN
      end
  | PInf, PInf | NInf, NInf => PInf
  | PInf, NInf | NInf, PInf => NInf
  end.

(** Division never raises: a zero denominator gives an infinity, or
    [NaN] for [0/0]. *)
Definition xdiv (a b : xnum) : xnum :=
  match a, b with
  | NaN, _ | _, NaN => NaN
  | Fin x, Fin y =>
      match sign y with
      | Eq => match sign x with Gt => PInf | Lt => NInf | Eq => NaN end
      | _ => Fin (x / y)
      end
  | Fin _, _ => Fin 0
  | i, Fin y => match sign y with Lt => xneg i | _ => i end
  | _, _ => NaN
  end.

Definition xabs (a : xnum) : xnum :=
  match a with
  | Fin x => Fin (Qabs x)
  | PInf | NInf => PInf
  | NaN => NaN
  end.

(** Comparisons: anything compared with [NaN] is false. *)
Definition xltb (a b : xnum) : bool :=
  match a, b with
  | NaN, _ | _, NaN => false
  | Fin x, Fin y => Qltb x y
  | NInf, NInf | PInf, _ | _, NInf => false
  | _, _ => true
  end.
Definition xgtb (a b : xnum) : bool := xltb b a.

Definition xeqb (a b : xnum) : bool :=
  match a, b with
  | Fin x, Fin y => Qeq_bool x y
  | PInf, PInf | NInf, NInf => true
  | _, _ => false
  end.

Definition xmin (a b : xnum) : xnum := if xltb b a then b else a.
Definition xmax (a b : xnum) : xnum := if xltb a b then b else a.

(** A Series (a column): one float per row. *)
Abbreviation Series := (list xnum).

Definition of_nat (n : nat) : xnum := Fin (inject_Z (Z.of_nat n)).

Definition xsum (l : list xnum) : xnum := fold_left xadd l (Fin 0).

Definition xmean (l : list xnum) : xnum := xdiv (xsum l) (of_nat (length l)).

(** Element-wise operators, series with series and series with a scalar. *)
Definition sadd (a b : Series) : Series := zip_with xadd a b.
Definition ssub (a b : Series) : Series := zip_with xsub a b.
Definition smul (a b : Series) : Series := zip_with xmul a b.
Definition sdiv (a b : Series) : Series := zip_with xdiv a b.
Definition sgt (a b : Series) : list bool := zip_with xgtb a b.
Definition slt (a b : Series) : list bool := zip_with xltb a b.
Definition sneg (a : Series) : Series := xneg <$> a.
Definition sabs (a : Series) : Series := xabs <$> a.
Definition scale (c : Q) (a : Series) : Series := xmul (Fin c) <$> a.
Definition sdivc (a : Series) (c : Q) : Series := (λ x, xdiv x (Fin c)) <$> a.
Definition sgtc (a : Series) (c : Q) : list bool := (λ x, xgtb x (Fin c)) <$> a.
Definition sltc (a : Series) (c : Q) : list bool := (λ x, xltb x (Fin c)) <$> a.

(** [s.shift(1)]: every value moves one row down, the first row is
    [NaN]. *)
Definition shift (s : Series) : Series := take (length s) (NaN :: s).

(** [s.diff()]: [s - s.shift(1)]. *)
Definition diff (s : Series) : Series := ssub s (shift s).

(** [s.where(cond, other)]: keep the value where [cond] holds. *)
Definition where_ (s : Series) (cond : list bool) (other : xnum) : Series :=
  zip_with (λ x (c : bool), if c then x else other) s cond.

Definition isna (s : Series) : list bool := isnan <$> s.
Definition fillna (s : Series) (v : xnum) : Series :=
  (λ x, if isnan x then v else x) <$> s.

(** [s.rolling(window=w).agg()]: the trailing window of [w] rows ending
    at row [i]; [min_periods] defaults to [w], so the value is [NaN]
    until [w] rows exist and whenever the window holds a [NaN].  The
    aggregate is taken over the window itself; pandas updates a running
    aggregate instead, which agrees with it on finite values. *)
Definition window (w i : nat) (s : Series) : list xnum :=
  take w (drop (i + 1 - w) s).

Definition rolling (w : nat) (agg : list xnum → xnum) (s : Series) : Series :=
  imap (λ i _,
          if (w <=? i + 1)%nat then
            let win := window w i s in
            if existsb isnan win then NaN else agg win
          else NaN) s.

Definition rolling_mean (w : nat) : Series → Series := rolling w xmean.
Definition rolling_sum (w : nat) : Series → Series := rolling w xsum.
Definition rolling_min (w : nat) : Series → Series :=
  rolling w (λ win, match win with [] => NaN | x :: t => fold_left xmin t x end).
Definition rolling_max (w : nat) : Series → Series :=
  rolling w (λ win, match win with [] => NaN | x :: t => fold_left xmax t x end).

(** The sample variance ([ddof=1]) of a window. *)
Definition xvar (win : list xnum) : xnum :=
  let m := xmean win in
  xdiv (xsum ((λ x, xmul (xsub x m) (xsub x m)) <$> win))
       (of_nat (length win - 1)).

(** [s.rolling(window=w).std()]: the square root of the sample variance.
    The square root of a rational has no exact rational value, so the
    function [sqrt] on floats is left open. *)
Definition rolling_std (sqrt : xnum → xnum) (w : nat) : Series → Series :=
  rolling w (λ win, sqrt (xvar win)).

(** [np.maximum(a, b)], row by row: [NaN] when either value is. *)
Definition np_maximum (a b : Series) : Series :=
  zip_with (λ x y, if isnan x || isnan y then NaN else xmax x y) a b.

(** The mean absolute deviation of a window:
    [lambda x: np.abs(x - x.mean()).mean()]. *)
Definition mean_abs_deviation (win : list xnum) : xnum :=
  let m := xmean win in
  xmean ((λ x, xabs (xsub x m)) <$> win).

(** [s.cumsum()]: [NaN] rows are skipped and stay [NaN]. *)
Fixpoint cumsum_from (acc : xnum) (s : Series) : Series :=
  match s with
  | [] => []
  | x :: t =>
      if isnan x then NaN :: cumsum_from acc t
      else let acc := xadd acc x in acc :: cumsum_from acc t
  end.
Definition cumsum (s : Series) : Series := cumsum_from (Fin 0) s.

(** [s.ewm(alpha=..., adjust=...).mean()], as pandas computes it
    ([ignore_na=False], [min_periods=0]): one pass that carries the
    current mean [weighted], the weight [old_wt] of the past and the
    number [nobs] of observations. *)
Section Ewm.
Variable alpha : Q.
Variable adjust : bool.

Definition old_wt_factor : Q := 1 - alpha.
Definition new_wt : Q := if adjust then 1 else alpha.

Definition ewm_step (weighted : xnum) (old_wt : Q) (cur : xnum) : xnum * Q :=
  let is_observation := negb (isnan cur) in
  if negb (isnan weighted) then
    let old_wt := old_wt * old_wt_factor in
    if is_observation then
      let weighted :=
        if negb (xeqb weighted cur) then
          xdiv (xadd (xmul (Fin old_wt) weighted) (xmul (Fin new_wt) cur))
               (Fin (old_wt + new_wt))
        else weighted in
      (weighted, if adjust then old_wt + new_wt else 1)
    else (weighted, old_wt)
  else if is_observation then (cur, old_wt)
  else (weighted, old_wt).

Fixpoint ewm_loop (weighted : xnum) (old_wt : Q) (nobs : nat) (vals : list xnum)
  : list xnum :=
  match vals with
  | [] => []
  | cur :: rest =>
      let nobs := (nobs + (if isnan cur then 0 else 1))%nat in
      let '(weighted, old_wt) := ewm_step weighted old_wt cur in
      (if (1 <=? nobs)%nat then weighted else NaN)
        :: ewm_loop weighted old_wt nobs rest
  end.

Definition ewm_mean (vals : Series) : Series :=
  match vals with
  | [] => []
  | weighted :: rest =>
      let nobs := if isnan weighted then 0%nat else 1%nat in
      (if (1 <=? nobs)%nat then weighted else NaN)
        :: ewm_loop weighted 1 nobs rest
  end.
End Ewm.

(** [span] to [alpha]: the centre of mass is [(span - 1) / 2] and
    [alpha = 1 / (1 + com)]. *)
Definition alpha_of_span (span : Q) : Q := 1 / (1 + (span - 1) / 2).

(** A DataFrame: the number of rows of its index and its columns. *)
Record DataFrame := mkDF {
  nrows : nat;
  cols : gmap string Series
}.

(** [df.empty]: no row or no column. *)
Definition empty (df : DataFrame) : bool :=
  (nrows df =? 0)%nat || bool_decide (cols df = ∅).

(** [df[c]] *)
Definition getitem (df : DataFrame) (c : string) : result Series :=
  match cols df !! c with
  | Some s => Ok s
  | None => Raise (KeyError c)
  end.

(** [df[c] = s] *)
Definition setitem (df : DataFrame) (c : string) (s : Series) : DataFrame :=
  mkDF (nrows df) (<[c := s]> (cols df)).

(** [s.iloc[i]] *)
Definition iloc (s : Series) (i : nat) : result xnum :=
  match s !! i with
  | Some x => Ok x
  | None => Raise IndexError
  end.

(** [s * c] for a number [c]. *)
Definition smulc (a : Series) (c : Q) : Series := (λ x, xmul x (Fin c)) <$> a.

(** [s.shift(n)]: every value moves [n] rows down. *)
Definition shift_by (n : nat) (s : Series) : Series :=
  take (length s) (replicate n NaN ++ s).

(** [s.ffill()]: a [NaN] takes the last value before it that is not. *)
Fixpoint ffill_from (prev : xnum) (s : Series) : Series :=
  match s with
  | [] => []
  | x :: t =>
      if isnan x then prev :: ffill_from prev t else x :: ffill_from x t
  end.
Definition ffill (s : Series) : Series := ffill_from NaN s.

(** [s.pct_change(n)]: pandas (before 3.0, [fill_method='pad']) fills
    forward, then takes [s / s.shift(n) - 1]. *)
Definition pct_change (n : nat) (s : Series) : Series :=
  let filled := ffill s in
  (λ x, xsub x (Fin 1)) <$> sdiv filled (shift_by n filled).

(** [s.iloc[-1]] *)
Definition iloc_last {A} (s : list A) : result A :=
  match last s with
  | Some x => Ok x
  | None => Raise IndexError
  end.

(** [pd.notna(x)] *)
Definition notna (x : xnum) : bool := negb (isnan x).

End Pandas.

Import Pandas.

(** * Statements on a DataFrame that is updated in place

    [M A] is a computation that reads and assigns columns of the one frame
    it runs on and may raise; when it raises, the columns assigned so far
    stay assigned. *)

Module Frame.

Definition M (A : Type) : Type := DataFrame → result A * DataFrame.

Global Instance M_ret : MRet M := λ A a df, (Ok a, df).
Global Instance M_bind : MBind M :=
  λ A B k m df,
    match m df with
    | (Ok a, df') => k a df'
    | (Raise e, df') => (Raise e, df')
    end.

(** [df[c]] as an expression. *)
Definition col (c : string) : M Series := λ df, (getitem df c, df).

(** [df[c] = s] *)
Definition assign (c : string) (s : Series) : M unit :=
  λ df, (Ok tt, setitem df c s).

(** A function called on the frame the statements run on: what it raises
    is raised by the statement. *)
Definition call {A} (f : DataFrame → result A) : M A := λ df, (f df, df).

(** [c in df.columns] *)
Definition has_column (c : string) : M bool :=
  λ df, (Ok (bool_decide (is_Some (cols df !! c))), df).

End Frame.

Import Frame.

(** [100 - (100 / (1 + r))], row by row. *)
Definition index_of_ratio (r : Series) : Series :=
  (λ x, xsub (Fin 100) (xdiv (Fin 100) (xadd (Fin 1) x))) <$> r.

(** * enhanced_finance_data.py *)

Module EnhancedFinanceData.

(** [_calculate_rsi] *)
Definition _calculate_rsi (prices : Series) (window : nat) : Series :=
  let delta := diff prices in
  let gain := rolling_mean window (where_ delta (sgtc delta 0) (Fin 0)) in
  let loss := rolling_mean window (sneg (where_ delta (sltc delta 0) (Fin 0))) in
  let rs := sdiv gain loss in
  index_of_ratio rs.

(** The dictionary [_calculate_macd] returns. *)
Record Macd := { MACD : Series; Signal : Series; Histogram : Series }.

Definition _calculate_macd (prices : Series) (fast slow signal : Q) : Macd :=
  let ema_fast := ewm_mean (alpha_of_span fast) true prices in
  let ema_slow := ewm_mean (alpha_of_span slow) true prices in
  let macd := ssub ema_fast ema_slow in
  let signal_line := ewm_mean (alpha_of_span signal) true macd in
  let histogram := ssub macd signal_line in
  {| MACD := macd; Signal := signal_line; Histogram := histogram |}.

(** The dictionary [_calculate_bollinger_bands] returns. *)
Record Bands := { Middle : Series; Upper : Series; Lower : Series }.

(** The dictionaries [_calculate_kdj] and [_calculate_stochastic] return. *)
Record Kdj := { K : Series; D : Series; J : Series }.
Record Stochastic := { K_percent : Series; D_percent : Series }.

Section Helpers.
Variable sqrt : xnum → xnum.

Definition _calculate_bollinger_bands (prices : Series) (window : nat) (std_dev : Q)
  : Bands :=
  let sma := rolling_mean window prices in
  let std := rolling_std sqrt window prices in
  {| Middle := sma;
     Upper := sadd sma (scale std_dev std);
     Lower := ssub sma (scale std_dev std) |}.

Definition _calculate_kdj (data : DataFrame) (k_period d_period : nat) : result Kdj :=
  low ← getitem data "Low"; let lowest_low := rolling_min k_period low in
  high ← getitem data "High"; let highest_high := rolling_max k_period high in
  close ← getitem data "Close";
  let rsv := sdiv (scale 100 (ssub close lowest_low)) (ssub highest_high lowest_low) in
  let k := ewm_mean (1 / inject_Z (Z.of_nat d_period)) true rsv in
  let d := ewm_mean (1 / inject_Z (Z.of_nat d_period)) true k in
  let j := ssub (scale 3 k) (scale 2 d) in
  Ok {| K := k; D := d; J := j |}.

Definition _calculate_atr (data : DataFrame) (window : nat) : result Series :=
  high ← getitem data "High"; low ← getitem data "Low";
  let high_low := ssub high low in
  high ← getitem data "High"; close ← getitem data "Close";
  let high_close_prev := sabs (ssub high (shift close)) in
  low ← getitem data "Low"; close ← getitem data "Close";
  let low_close_prev := sabs (ssub low (shift close)) in
  let true_range := np_maximum high_low (np_maximum high_close_prev low_close_prev) in
  Ok (rolling_mean window true_range).

Definition _calculate_stochastic (data : DataFrame) (k_period d_period : nat)
  : result Stochastic :=
  low ← getitem data "Low"; let lowest_low := rolling_min k_period low in
  high ← getitem data "High"; let highest_high := rolling_max k_period high in
  close ← getitem data "Close";
  let k_percent :=
    sdiv (scale 100 (ssub close lowest_low)) (ssub highest_high lowest_low) in
  let d_percent := rolling_mean d_period k_percent in
  Ok {| K_percent := k_percent; D_percent := d_percent |}.

Definition _calculate_williams_r (data : DataFrame) (period : nat) : result Series :=
  high ← getitem data "High"; let highest_high := rolling_max period high in
  low ← getitem data "Low"; let lowest_low := rolling_min period low in
  close ← getitem data "Close";
  Ok (sdiv (scale (-100) (ssub highest_high close)) (ssub highest_high lowest_low)).

Definition _calculate_cci (data : DataFrame) (period : nat) : result Series :=
  high ← getitem data "High"; low ← getitem data "Low"; close ← getitem data "Close";
  let typical_price := sdivc (sadd (sadd high low) close) 3 in
  let sma := rolling_mean period typical_price in
  let mean_deviation := rolling period mean_abs_deviation typical_price in
  Ok (sdiv (ssub typical_price sma) (scale 0.015 mean_deviation)).

Definition _calculate_mfi (data : DataFrame) (period : nat) : result Series :=
  high ← getitem data "High"; low ← getitem data "Low"; close ← getitem data "Close";
  let typical_price := sdivc (sadd (sadd high low) close) 3 in
  volume ← getitem data "Volume";
  let money_flow := smul typical_price volume in
  let positive_flow :=
    rolling_sum period
      (where_ money_flow (sgt typical_price (shift typical_price)) (Fin 0)) in
  let negative_flow :=
    rolling_sum period
      (where_ money_flow (slt typical_price (shift typical_price)) (Fin 0)) in
  let money_ratio := sdiv positive_flow negative_flow in
  Ok (index_of_ratio money_ratio).

(** [_add_technical_indicators] *)
Definition _add_technical_indicators (advanced : bool) : M unit :=
  (* Moving Averages *)
  c ← col "Close"; assign "SMA_5" (rolling_mean 5 c);;
  c ← col "Close"; assign "SMA_10" (rolling_mean 10 c);;
  c ← col "Close"; assign "SMA_20" (rolling_mean 20 c);;
  c ← col "Close"; assign "SMA_50" (rolling_mean 50 c);;
  c ← col "Close"; assign "SMA_200" (rolling_mean 200 c);;
  (* Exponential Moving Averages *)
  c ← col "Close"; assign "EMA_12" (ewm_mean (alpha_of_span 12) true c);;
  c ← col "Close"; assign "EMA_26" (ewm_mean (alpha_of_span 26) true c);;
  c ← col "Close"; assign "EMA_50" (ewm_mean (alpha_of_span 50) true c);;
  (* RSI *)
  c ← col "Close"; assign "RSI" (_calculate_rsi c 14);;
  c ← col "Close"; assign "RSI_14" (_calculate_rsi c 14);;
  (* MACD *)
  c ← col "Close";
  let macd_data := _calculate_macd c 12 26 9 in
  assign "MACD" (MACD macd_data);;
  assign "MACD_Signal" (Signal macd_data);;
  assign "MACD_Histogram" (Histogram macd_data);;
  (* Bollinger Bands *)
  c ← col "Close";
  let bb_data := _calculate_bollinger_bands c 20 2 in
  assign "BOLL" (Middle bb_data);;
  assign "BOLL_Upper" (Upper bb_data);;
  assign "BOLL_Lower" (Lower bb_data);;
  if advanced then
    (* KDJ Indicator *)
    kdj_data ← call (λ data, _calculate_kdj data 9 3);
    assign "KDJ_K" (K kdj_data);;
    assign "KDJ_D" (D kdj_data);;
    assign "KDJ_J" (J kdj_data);;
    (* Average True Range *)
    atr ← call (λ data, _calculate_atr data 14); assign "ATR" atr;;
    atr ← call (λ data, _calculate_atr data 14); assign "ATR_14" atr;;
    (* Stochastic Oscillator *)
    stoch_data ← call (λ data, _calculate_stochastic data 14 3);
    assign "Stoch_K" (K_percent stoch_data);;
    assign "Stoch_D" (D_percent stoch_data);;
    (* Williams %R *)
    w ← call (λ data, _calculate_williams_r data 14); assign "Williams_R" w;;
    (* Commodity Channel Index *)
    cci ← call (λ data, _calculate_cci data 20); assign "CCI" cci;;
    (* Money Flow Index *)
    mfi ← call (λ data, _calculate_mfi data 14); assign "MFI" mfi
  else mret tt.

End Helpers.

(** [_calculate_obv]: the body of [for i in range(1, len(data))]. *)
Definition obv_body (data : DataFrame) (i : nat) (obv : Series) : result Series :=
  close ← getitem data "Close"; ci ← iloc close i;
  close ← getitem data "Close"; cp ← iloc close (i - 1);
  if xgtb ci cp then
    o ← iloc obv (i - 1);
    volume ← getitem data "Volume"; v ← iloc volume i;
    Ok (<[i := xadd o v]> obv)
  else
    close ← getitem data "Close"; ci ← iloc close i;
    close ← getitem data "Close"; cp ← iloc close (i - 1);
    if xltb ci cp then
      o ← iloc obv (i - 1);
      volume ← getitem data "Volume"; v ← iloc volume i;
      Ok (<[i := xsub o v]> obv)
    else
      o ← iloc obv (i - 1);
      Ok (<[i := o]> obv).

Fixpoint obv_loop (data : DataFrame) (range : list nat) (obv : Series)
  : result Series :=
  match range with
  | [] => Ok obv
  | i :: rest => obv ← obv_body data i obv; obv_loop data rest obv
  end.

Definition _calculate_obv (data : DataFrame) : result Series :=
  let obv := replicate (nrows data) NaN in
  volume ← getitem data "Volume"; v0 ← iloc volume 0;
  let obv := <[0%nat := v0]> obv in
  obv_loop data (seq 1 (nrows data - 1)) obv.

(** The dictionary [_calculate_pivot_points] returns. *)
Record PivotPoints := {
  Pivot : Series;
  R1 : Series; R2 : Series; R3 : Series;
  S1 : Series; S2 : Series; S3 : Series
}.

Definition _calculate_pivot_points (data : DataFrame) : result PivotPoints :=
  high ← getitem data "High"; let prev_high := shift high in
  low ← getitem data "Low"; let prev_low := shift low in
  close ← getitem data "Close"; let prev_close := shift close in
  let pivot := sdivc (sadd (sadd prev_high prev_low) prev_close) 3 in
  let r1 := ssub (scale 2 pivot) prev_low in
  let r2 := sadd pivot (ssub prev_high prev_low) in
  let r3 := sadd prev_high (scale 2 (ssub pivot prev_low)) in
  let s1 := ssub (scale 2 pivot) prev_high in
  let s2 := ssub pivot (ssub prev_high prev_low) in
  let s3 := ssub prev_low (scale 2 (ssub prev_high pivot)) in
  Ok {| Pivot := pivot; R1 := r1; R2 := r2; R3 := r3;
        S1 := s1; S2 := s2; S3 := s3 |}.

(** [_calculate_vwap] *)
Definition _calculate_vwap (data : DataFrame) : result Series :=
  high ← getitem data "High"; low ← getitem data "Low"; close ← getitem data "Close";
  let typical_price := sdivc (sadd (sadd high low) close) 3 in
  volume ← getitem data "Volume";
  volume' ← getitem data "Volume";
  Ok (sdiv (cumsum (smul typical_price volume)) (cumsum volume')).

(** [_add_volume_indicators] *)
Definition _add_volume_indicators : M unit :=
  (* Volume Moving Averages *)
  v ← col "Volume"; assign "Volume_SMA_20" (rolling_mean 20 v);;
  v ← col "Volume"; assign "Volume_SMA_50" (rolling_mean 50 v);;
  (* Volume Rate of Change *)
  v ← col "Volume"; assign "Volume_ROC" (smulc (pct_change 10 v) 100);;
  (* On-Balance Volume *)
  obv ← call _calculate_obv; assign "OBV" obv;;
  (* Volume Weighted Average Price *)
  vwap ← call _calculate_vwap; assign "VWAP" vwap.

(** [_add_support_resistance] *)
Definition _add_support_resistance : M unit :=
  pivot_data ← call _calculate_pivot_points;
  assign "Pivot" (Pivot pivot_data);;
  assign "R1" (R1 pivot_data);;
  assign "R2" (R2 pivot_data);;
  assign "R3" (R3 pivot_data);;
  assign "S1" (S1 pivot_data);;
  assign "S2" (S2 pivot_data);;
  assign "S3" (S3 pivot_data).

(** ** The cache

    [self.cache] maps a key to the data stored under it and the time of
    the store; [self.cache_ttl] is 300 seconds. *)
Record CacheEntry (A : Type) := {
  entry_data : A;         (* ['data'] *)
  entry_timestamp : Q     (* ['timestamp'] *)
}.
Global Arguments entry_data {A} _.
Global Arguments entry_timestamp {A} _.

Definition cache_ttl : Q := 300.

(** [sorted(kwargs.items())]: the keyword arguments by name (the names
    of keyword arguments are distinct, so no two items compare their
    values). *)
Fixpoint insert_item {V} (kv : string * V) (l : list (string * V)) : list (string * V) :=
  match l with
  | [] => [kv]
  | kv' :: t =>
      if String.ltb kv'.1 kv.1 then kv' :: insert_item kv t else kv :: l
  end.
Definition sorted_items {V} (kwargs : list (string * V)) : list (string * V) :=
  foldr insert_item [] kwargs.

Section Cache.

(** [repr] of a string or a number, as [str] of a list writes its
    items. *)
Variable repr : value → string.

(** [str] of a list of pairs. *)
Definition str_of_items (items : list (string * value)) : string :=
  String.append "["
    (String.append
       (String.concat ", "
          ((λ kv : string * value,
              String.append "("
                (String.append (repr (VStr kv.1))
                   (String.append ", " (String.append (repr kv.2) ")")))) <$> items))
       "]").

(** [_get_cache_key] *)
Definition _get_cache_key (method : string) (kwargs : list (string * value)) : string :=
  String.append method (String.append ":" (str_of_items (sorted_items kwargs))).

(** The data the cache holds and the world the fetch functions act
    on. *)
Context {A W : Type}.

(** [_is_cache_valid], when [time.time()] returns [now]. *)
Definition _is_cache_valid (cache : gmap string (CacheEntry A)) (now : Q)
  (key : string) : bool :=
  match cache !! key with
  | None => false
  | Some e => Qltb (now - entry_timestamp e) cache_ttl
  end.

(** [_get_cached_or_fetch], when [time.time()] returns [now] in the
    validity check and [stored_at] at the store.  [None] is Python's
    [None]; what [fetch_func] raises is not caught here. *)
Definition _get_cached_or_fetch (cache : gmap string (CacheEntry A))
  (now stored_at : Q) (key : string) (fetch_func : W → result (option A) * W)
  (w : W) : result (option A) * gmap string (CacheEntry A) * W :=
  if _is_cache_valid cache now key then
    match cache !! key with
    | Some e => (Ok (Some (entry_data e)), cache, w)
    | None => (Raise (KeyError key), cache, w)
    end
  else
    match fetch_func w with
    | (Ok (Some data), w) =>
        (Ok (Some data),
         <[key := {| entry_data := data; entry_timestamp := stored_at |}]> cache, w)
    | (Ok None, w) => (Ok None, cache, w)
    | (Raise e, w) => (Raise e, cache, w)
    end.

End Cache.

(** ** [get_enhanced_stock_data] *)
Section Fetch.

Variable sqrt : xnum → xnum.
Variable repr : value → string.

(** The [info] dictionary of yfinance and the world its calls act on. *)
Context {Info W : Type}.

(** [yf.Ticker(symbol)], then [ticker.history(period=period)] and
    [ticker.info]: the frame and the dictionary, or what was raised. *)
Variable yfinance : string → string → W → result (DataFrame * Info) * W.

(** The closure [fetch_data]: it returns a pair in every case, [(None,
    None)] for an empty history and for anything raised; the message it
    prints is not embedded. *)
Definition fetch_data (symbol period : string) (include_advanced_indicators : bool)
  (w : W) : result (option (option DataFrame * option Info)) * W :=
  match yfinance symbol period w with
  | (Ok (data, info), w) =>
      if empty data then (Ok (Some (None, None)), w)
      else
        match (_add_technical_indicators sqrt include_advanced_indicators;;
               _add_volume_indicators;;
               _add_support_resistance) data with
        | (Ok _, data) => (Ok (Some (Some data, Some info)), w)
        | (Raise _, _) => (Ok (Some (None, None)), w)
        end
  | (Raise _, w) => (Ok (Some (None, None)), w)
  end.

(** [get_enhanced_stock_data]: [... or (None, None)] replaces [None]; a
    pair is never replaced. *)
Definition get_enhanced_stock_data
  (cache : gmap string (CacheEntry (option DataFrame * option Info)))
  (now stored_at : Q) (symbol period : string) (include_advanced_indicators : bool)
  (w : W)
  : result (option DataFrame * option Info)
    * gmap string (CacheEntry (option DataFrame * option Info)) * W :=
  let cache_key :=
    _get_cache_key repr "enhanced_stock"
      [("symbol", VStr symbol); ("period", VStr period)] in
  match _get_cached_or_fetch cache now stored_at cache_key
          (fetch_data symbol period include_advanced_indicators) w with
  | (Ok (Some found), cache, w) => (Ok found, cache, w)
  | (Ok None, cache, w) => (Ok (None, None), cache, w)
  | (Raise e, cache, w) => (Raise e, cache, w)
  end.

End Fetch.

(** ** [_get_enhanced_financial_metrics] *)

Module Metrics.

(** The dictionary it returns.  The values read from [info] are Python
    values; those read from the frame, and what is computed from them, are
    numpy floats.  [target_price] is the one or the other. *)
Record EnhancedMetrics := {
  pe_ratio : value;
  forward_pe : value;
  peg_ratio : value;
  price_to_book : value;
  roe : value;
  profit_margin : value;
  debt_to_equity : value;
  revenue_growth : value;
  rsi : xnum;
  macd : xnum;
  atr : xnum;
  volume_ratio : xnum;
  recommendation : value;
  target_price : value + xnum;
  analyst_count : value;
  upside_potential : xnum;
  sentiment_score : Q;
  technical_score : Q
}.

(** [bool(x)] of a numpy float: zero is false, [NaN] and the infinities
    are true. *)
Definition truthy_float (x : xnum) : bool :=
  match x with
  | Fin q => negb (Qeq_bool q 0)
  | _ => true
  end.

(** A Python value as an operand of numpy arithmetic: a number, or a
    [TypeError]. *)
Definition to_float (v : value) : result xnum :=
  match v with
  | VNum q => Ok (Fin q)
  | _ => Raise TypeError
  end.

(** [info.get(k, 0) * 100 if info.get(k) else 0] *)
Definition percent_or_zero (info : gmap string value) (k : string) : result value :=
  if truthy (get info k) then mul_int (get_default info k (VNum 0)) 100
  else Ok (VNum 0).

(** [data[c].iloc[-1] if c in data.columns and not data[c].isna().iloc[-1]
    else 0] *)
Definition last_or_zero (data : DataFrame) (c : string) : result xnum :=
  has ← (if bool_decide (is_Some (cols data !! c)) then
           s ← getitem data c; na ← iloc_last (isna s); Ok (negb na)
         else Ok false);
  if has : bool then s ← getitem data c; iloc_last s else Ok (Fin 0).

(** [x in ['a', 'b']] for a value [x]. *)
Definition is_one_of (x : value) (texts : list string) : bool :=
  match x with
  | VStr s => bool_decide (s ∈ texts)
  | _ => false
  end.

(** [_get_enhanced_financial_metrics]; [current_price] is the numpy float
    the caller reads off the frame.  The symbol is not used. *)
Definition _get_enhanced_financial_metrics (info : gmap string value)
  (data : DataFrame) (current_price : xnum) : result EnhancedMetrics :=
  (* Basic financial ratios *)
  let pe_ratio := get_default info "trailingPE" (VNum 0) in
  let forward_pe := get_default info "forwardPE" (VNum 0) in
  let peg_ratio := get_default info "pegRatio" (VNum 0) in
  let price_to_book := get_default info "priceToBook" (VNum 0) in
  roe ← percent_or_zero info "returnOnEquity";
  profit_margin ← percent_or_zero info "profitMargins";
  let debt_to_equity := get_default info "debtToEquity" (VNum 0) in
  revenue_growth ← percent_or_zero info "revenueGrowth";
  (* Technical analysis from enhanced data *)
  rsi ← last_or_zero data "RSI";
  macd ← last_or_zero data "MACD";
  atr ← last_or_zero data "ATR";
  (* Volume analysis *)
  volume ← (if bool_decide (is_Some (cols data !! "Volume"))
            then s ← getitem data "Volume"; iloc_last s else Ok (Fin 0));
  let avg_volume := get_default info "averageVolume" (VNum 0) in
  volume_ratio ←
    (c ← gt avg_volume (VNum 0);
     if c : bool then a ← to_float avg_volume; Ok (xdiv volume a) else Ok (Fin 1));
  (* Analyst data *)
  let recommendation := get_default info "recommendationKey" (VStr "none") in
  let target_price : value + xnum :=
    match info !! "targetMeanPrice" with
    | Some v => inl v
    | None => inr current_price
    end in
  let analyst_count := get_default info "numberOfAnalystOpinions" (VNum 0) in
  (* Calculate technical sentiment *)
  let technical_score := 0 in
  let technical_score :=
    if xgtb rsi (Fin 70) then technical_score - 1
    else if xltb rsi (Fin 30) then technical_score + 1
    else technical_score in
  let technical_score :=
    if xgtb macd (Fin 0) then technical_score + 0.5 else technical_score - 0.5 in
  (* Volume sentiment *)
  let technical_score :=
    if xgtb volume_ratio (Fin 1.5) then technical_score + 0.5
    else if xltb volume_ratio (Fin 0.5) then technical_score - 0.3
    else technical_score in
  (* Overall sentiment scoring *)
  let sentiment_score := 0 in
  let sentiment_score :=
    if is_one_of recommendation ["buy"; "strong_buy"] then sentiment_score + 2
    else if is_one_of recommendation ["sell"; "strong_sell"] then sentiment_score - 2
    else sentiment_score in
  upside_potential ←
    (if match target_price with inl v => truthy v | inr x => truthy_float x end
     then
       t ← match target_price with inl v => to_float v | inr x => Ok x end;
       Ok (xmul (xdiv (xsub t current_price) current_price) (Fin 100))
     else Ok (Fin 0));
  let sentiment_score :=
    if xgtb upside_potential (Fin 10) then sentiment_score + 1
    else if xltb upside_potential (Fin (-10)) then sentiment_score - 1
    else sentiment_score in
  let sentiment_score := sentiment_score + technical_score in
  Ok {| pe_ratio := pe_ratio; forward_pe := forward_pe; peg_ratio := peg_ratio;
        price_to_book := price_to_book; roe := roe;
        profit_margin := profit_margin; debt_to_equity := debt_to_equity;
        revenue_growth := revenue_growth; rsi := rsi; macd := macd; atr := atr;
        volume_ratio := volume_ratio; recommendation := recommendation;
        target_price := target_price; analyst_count := analyst_count;
        upside_potential := upside_potential;
        sentiment_score := sentiment_score;
        technical_score := technical_score |}.

End Metrics.

End EnhancedFinanceData.

(** * openbb_app.py *)

Module OpenbbApp.

(** [lambda x: 1 if x > 0 else (-1 if x < 0 else 0)] *)
Definition direction (x : xnum) : xnum :=
  if xgtb x (Fin 0) then Fin 1
  else if xltb x (Fin 0) then Fin (-1)
  else Fin 0.

(** [(~flags).astype(int)] *)
Definition not_as_int (flags : list bool) : Series :=
  (λ b : bool, if b then Fin 0 else Fin 1) <$> flags.

(** The largest value of a row that is not [NaN] ([NaN] when there is
    none): a row of [pd.concat([...], axis=1).max(axis=1)]. *)
Definition nanmax (row : list xnum) : xnum :=
  match filter (λ x, isnan x = false) row with
  | [] => NaN
  | x :: t => fold_left xmax t x
  end.

Definition row_max3 (a b c : Series) : Series :=
  zip_with (λ x yz, nanmax [x; yz.1; yz.2]) a (zip b c).

Section Indicators.

(** The square root of a float, which the rolling standard deviation
    takes. *)
Variable sqrt : xnum → xnum.

(** ** [add_technical_indicators]: the statements inside [try]. *)
Definition add_body : M unit :=
  (* Simple Moving Averages *)
  c ← col "Close"; assign "SMA_20" (rolling_mean 20 c);;
  c ← col "Close"; assign "SMA_50" (rolling_mean 50 c);;
  c ← col "Close"; assign "SMA_200" (rolling_mean 200 c);;
  (* Exponential Moving Averages *)
  c ← col "Close"; assign "EMA_12" (ewm_mean (alpha_of_span 12) true c);;
  c ← col "Close"; assign "EMA_26" (ewm_mean (alpha_of_span 26) true c);;
  (* MACD *)
  e12 ← col "EMA_12"; e26 ← col "EMA_26"; assign "MACD" (ssub e12 e26);;
  m ← col "MACD"; assign "MACD_Signal" (ewm_mean (alpha_of_span 9) true m);;
  m ← col "MACD"; sg ← col "MACD_Signal"; assign "MACD_Histogram" (ssub m sg);;
  (* RSI *)
  c ← col "Close";
  let delta := diff c in
  let gain := rolling_mean 14 (where_ delta (sgtc delta 0) (Fin 0)) in
  let loss := rolling_mean 14 (sneg (where_ delta (sltc delta 0) (Fin 0))) in
  let rs := sdiv gain loss in
  assign "RSI" (index_of_ratio rs);;
  (* Bollinger Bands *)
  let bb_period := 20%nat in
  let bb_std := 2 in
  c ← col "Close"; assign "BB_Middle" (rolling_mean bb_period c);;
  c ← col "Close";
  let bb_std_dev := rolling_std sqrt bb_period c in
  mid ← col "BB_Middle"; assign "BB_Upper" (sadd mid (scale bb_std bb_std_dev));;
  mid ← col "BB_Middle"; assign "BB_Lower" (ssub mid (scale bb_std bb_std_dev));;
  (* Volume indicators *)
  has ← has_column "Volume";
  if has : bool then
    v ← col "Volume"; assign "Volume_SMA" (rolling_mean 20 v);;
    v ← col "Volume"; vs ← col "Volume_SMA"; assign "Volume_Ratio" (sdiv v vs)
  else mret tt.

(** [add_technical_indicators]: the frame it returns and the
    exceptions it reports with [st.warning].  [except Exception] returns the
    frame as the statements before the failure left it. *)
Definition add_technical_indicators (df : DataFrame) : DataFrame * list exn :=
  match add_body df with
  | (Ok _, df) => (df, [])
  | (Raise e, df) => (df, [e])
  end.

(** ** [calculate_technical_indicators]: the statements after the
    guard. *)
Definition calculate_body : M unit :=
  (* Moving Averages *)
  c ← col "Close"; assign "SMA_20" (rolling_mean 20 c);;
  c ← col "Close"; assign "SMA_50" (rolling_mean 50 c);;
  c ← col "Close"; assign "SMA_200" (rolling_mean 200 c);;
  c ← col "Close"; assign "EMA_12" (ewm_mean (alpha_of_span 12) false c);;
  c ← col "Close"; assign "EMA_26" (ewm_mean (alpha_of_span 26) false c);;
  c ← col "Close"; assign "EMA_50" (ewm_mean (alpha_of_span 50) false c);;
  (* RSI *)
  c ← col "Close";
  let delta := diff c in
  let gain := rolling_mean 14 (where_ delta (sgtc delta 0) (Fin 0)) in
  let loss := rolling_mean 14 (sneg (where_ delta (sltc delta 0) (Fin 0))) in
  let rs := sdiv gain loss in
  assign "RSI" (index_of_ratio rs);;
  (* MACD *)
  e12 ← col "EMA_12"; e26 ← col "EMA_26"; assign "MACD" (ssub e12 e26);;
  m ← col "MACD"; assign "MACD_Signal" (ewm_mean (alpha_of_span 9) false m);;
  m ← col "MACD"; sg ← col "MACD_Signal"; assign "MACD_Histogram" (ssub m sg);;
  (* Bollinger Bands *)
  c ← col "Close"; assign "BB_Middle" (rolling_mean 20 c);;
  c ← col "Close";
  let bb_std := rolling_std sqrt 20 c in
  mid ← col "BB_Middle"; assign "BB_Upper" (sadd mid (scale 2 bb_std));;
  mid ← col "BB_Middle"; assign "BB_Lower" (ssub mid (scale 2 bb_std));;
  up ← col "BB_Upper"; lo ← col "BB_Lower"; assign "BB_Width" (ssub up lo);;
  c ← col "Close"; lo ← col "BB_Lower"; up ← col "BB_Upper"; lo' ← col "BB_Lower";
  assign "BB_Percent" (sdiv (ssub c lo) (ssub up lo'));;
  (* Stochastic Oscillator *)
  l ← col "Low";
  let low_14 := rolling_min 14 l in
  h ← col "High";
  let high_14 := rolling_max 14 h in
  c ← col "Close";
  assign "Stoch_K" (scale 100 (sdiv (ssub c low_14) (ssub high_14 low_14)));;
  k ← col "Stoch_K"; assign "Stoch_D" (rolling_mean 3 k);;
  (* ATR (Average True Range) *)
  h ← col "High"; l ← col "Low";
  let high_low := ssub h l in
  h ← col "High"; c ← col "Close";
  let high_close := sabs (ssub h (shift c)) in
  l ← col "Low"; c ← col "Close";
  let low_close := sabs (ssub l (shift c)) in
  let true_range := row_max3 high_low high_close low_close in
  assign "ATR" (rolling_mean 14 true_range);;
  (* Volume indicators *)
  v ← col "Volume"; assign "Volume_MA" (rolling_mean 20 v);;
  v ← col "Volume"; c ← col "Close"; c' ← col "Close";
  assign "OBV"
    (cumsum (smul (smul v (not_as_int (isna (diff c))))
                  (direction <$> fillna (diff c') (Fin 0))));;
  (* Money Flow Index *)
  h ← col "High"; l ← col "Low"; c ← col "Close";
  let typical_price := sdivc (sadd (sadd h l) c) 3 in
  v ← col "Volume";
  let money_flow := smul typical_price v in
  let positive_flow :=
    where_ money_flow (sgt typical_price (shift typical_price)) (Fin 0) in
  let negative_flow :=
    where_ money_flow (slt typical_price (shift typical_price)) (Fin 0) in
  let positive_flow_sum := rolling_sum 14 positive_flow in
  let negative_flow_sum := rolling_sum 14 negative_flow in
  let money_ratio := sdiv positive_flow_sum negative_flow_sum in
  assign "MFI" (index_of_ratio money_ratio);;
  (* Support and Resistance *)
  h ← col "High"; assign "Resistance" (rolling_max 20 h);;
  l ← col "Low"; assign "Support" (rolling_min 20 l);;
  h ← col "High"; l ← col "Low"; c ← col "Close";
  assign "Pivot" (sdivc (sadd (sadd h l) c) 3);;
  p ← col "Pivot"; l ← col "Low"; assign "R1" (ssub (scale 2 p) l);;
  p ← col "Pivot"; h ← col "High"; assign "S1" (ssub (scale 2 p) h);;
  p ← col "Pivot"; h ← col "High"; l ← col "Low";
  assign "R2" (sadd p (ssub h l));;
  p ← col "Pivot"; h ← col "High"; l ← col "Low";
  assign "S2" (ssub p (ssub h l)).

(** [calculate_technical_indicators]: [None] and an empty frame come
    back as they are; otherwise the statements run and what they raise
    is not caught. *)
Definition calculate_technical_indicators (df : option DataFrame)
  : result (option DataFrame) :=
  match df with
  | None => Ok None
  | Some df =>
      if empty df then Ok (Some df)
      else
        match calculate_body df with
        | (Ok _, df) => Ok (Some df)
        | (Raise e, _) => Raise e
        end
  end.

(** ** [generate_trade_signals] *)

(** The dictionary it returns. *)
Record TradeSignals := {
  overall : string;
  signals : list (string * string)
}.

(** [signals], [bullish_count] and [bearish_count]. *)
Definition Counts : Type := list (string * string) * nat * nat.

Definition bullish (name : string) (st : Counts) : Counts :=
  let '(signals, bullish_count, bearish_count) := st in
  (signals ++ [(name, "BULLISH")], (bullish_count + 1)%nat, bearish_count).
Definition bearish (name : string) (st : Counts) : Counts :=
  let '(signals, bullish_count, bearish_count) := st in
  (signals ++ [(name, "BEARISH")], bullish_count, (bearish_count + 1)%nat).
Definition neutral (name : string) (st : Counts) : Counts :=
  let '(signals, bullish_count, bearish_count) := st in
  (signals ++ [(name, "NEUTRAL")], bullish_count, bearish_count).

(** [c in df.columns] *)
Definition in_columns (c : string) (df : DataFrame) : bool :=
  bool_decide (is_Some (cols df !! c)).

Definition rsi_signal (df : DataFrame) (st : Counts) : result Counts :=
  if in_columns "RSI" df then
    rsi ← getitem df "RSI"; current_rsi ← iloc_last rsi;
    if notna current_rsi then
      if xltb current_rsi (Fin 30) then Ok (bullish "RSI Oversold" st)
      else if xgtb current_rsi (Fin 70) then Ok (bearish "RSI Overbought" st)
      else Ok (neutral "RSI Neutral" st)
    else Ok st
  else Ok st.

Definition macd_signal (df : DataFrame) (st : Counts) : result Counts :=
  if in_columns "MACD" df && in_columns "MACD_Signal" df then
    m ← getitem df "MACD"; macd ← iloc_last m;
    sg ← getitem df "MACD_Signal"; signal ← iloc_last sg;
    if notna macd && notna signal then
      if xgtb macd signal then Ok (bullish "MACD Bullish Cross" st)
      else Ok (bearish "MACD Bearish Cross" st)
    else Ok st
  else Ok st.

Definition moving_average_signal (df : DataFrame) (st : Counts) : result Counts :=
  if in_columns "SMA_50" df && in_columns "SMA_200" df then
    s ← getitem df "SMA_50"; sma50 ← iloc_last s;
    s ← getitem df "SMA_200"; sma200 ← iloc_last s;
    c ← getitem df "Close"; current_price ← iloc_last c;
    if notna sma50 && notna sma200 then
      if xgtb sma50 sma200 && xgtb current_price sma50
      then Ok (bullish "Golden Cross + Price Above" st)
      else if xltb sma50 sma200 && xltb current_price sma50
      then Ok (bearish "Death Cross + Price Below" st)
      else Ok st
    else Ok st
  else Ok st.

Definition bollinger_signal (df : DataFrame) (st : Counts) : result Counts :=
  if in_columns "BB_Upper" df && in_columns "BB_Lower" df then
    c ← getitem df "Close"; current_price ← iloc_last c;
    u ← getitem df "BB_Upper"; bb_upper ← iloc_last u;
    l ← getitem df "BB_Lower"; bb_lower ← iloc_last l;
    if notna bb_upper && notna bb_lower then
      if xgtb current_price bb_upper then Ok (bearish "Above Bollinger Upper" st)
      else if xltb current_price bb_lower then Ok (bullish "Below Bollinger Lower" st)
      else Ok st
    else Ok st
  else Ok st.

(** The statements after [df = calculate_technical_indicators(df)]. *)
Definition signals_of (df : DataFrame) : result TradeSignals :=
  let st : Counts := ([], 0%nat, 0%nat) in
  st ← rsi_signal df st;
  st ← macd_signal df st;
  st ← moving_average_signal df st;
  st ← bollinger_signal df st;
  let '(signals, bullish_count, bearish_count) := st in
  let overall :=
    if (bearish_count <? bullish_count)%nat then "BULLISH"
    else if (bullish_count <? bearish_count)%nat then "BEARISH"
    else "NEUTRAL" in
  Ok {| overall := overall; signals := signals |}.

Definition generate_trade_signals (df : option DataFrame) : result TradeSignals :=
  match df with
  | None => Ok {| overall := "NEUTRAL"; signals := [] |}
  | Some df =>
      if empty df then Ok {| overall := "NEUTRAL"; signals := [] |}
      else
        df ← calculate_technical_indicators (Some df);
        match df with
        | Some df => signals_of df
        | None => Raise AttributeError
        end
  end.

End Indicators.

(** ** [calculate_portfolio_metrics] *)

(** A holding of [st.session_state.portfolio], with the three keys the
    function reads. *)
Record Holding := {
  shares : Q;
  current_price : Q;
  avg_cost : Q
}.

(** The dictionary it returns. *)
Record PortfolioMetrics := {
  total_value : Q;
  total_cost : Q;
  total_pl : Q;
  total_pl_pct : Q;
  best_performer : option (string * Q);
  worst_performer : option (string * Q)
}.

(** [performances.sort(key=lambda x: x[1], reverse=True)]: by falling
    percentage; the sort is stable, so equal percentages keep the order of
    the portfolio. *)
Fixpoint insert_performance (p : string * Q) (l : list (string * Q))
  : list (string * Q) :=
  match l with
  | [] => [p]
  | p' :: t =>
      if Qltb p.2 p'.2 then p' :: insert_performance p t else p :: l
  end.
Definition sort_performances (l : list (string * Q)) : list (string * Q) :=
  foldr insert_performance [] l.

(** The body of [for symbol, data in portfolio.items()]. *)
Definition portfolio_step (acc : Q * Q * list (string * Q)) (item : string * Holding)
  : Q * Q * list (string * Q) :=
  let '(total_value, total_cost, performances) := acc in
  let '(symbol, data) := item in
  let value := shares data * current_price data in
  let cost := shares data * avg_cost data in
  let pl := value - cost in
  let pl_pct := if Qltb 0 cost then pl / cost * 100 else 0 in
  (total_value + value, total_cost + cost, performances ++ [(symbol, pl_pct)]).

(** [calculate_portfolio_metrics], on the items of the portfolio in the
    order of the dictionary. *)
Definition calculate_portfolio_metrics (portfolio : list (string * Holding))
  : PortfolioMetrics :=
  match portfolio with
  | [] =>
      {| total_value := 0; total_cost := 0; total_pl := 0; total_pl_pct := 0;
         best_performer := None; worst_performer := None |}
  | _ =>
      let '(total_value, total_cost, performances) :=
        fold_left portfolio_step portfolio (0, 0, []) in
      let total_pl := total_value - total_cost in
      let total_pl_pct := if Qltb 0 total_cost then total_pl / total_cost * 100 else 0 in
      let performances := sort_performances performances in
      {| total_value := total_value; total_cost := total_cost;
         total_pl := total_pl; total_pl_pct := total_pl_pct;
         best_performer := head performances;
         worst_performer := last performances |}
  end.

(** ** [get_enhanced_stock_info] *)

(** [k in d] *)
Definition has_key (d : gmap string value) (k : string) : bool :=
  bool_decide (is_Some (d !! k)).

(** The statements inside [try]; [now] is the text
    [datetime.now().strftime(...)] returns. *)
Definition enhanced_info (now symbol : string) (basic_info : gmap string value)
  : result (gmap string value) :=
  let enhanced := basic_info in
  let enhanced := <["symbol" := VStr symbol]> enhanced in
  let enhanced := <["last_updated" := VStr now]> enhanced in
  enhanced ←
    (if has_key basic_info "trailingPE" && has_key basic_info "forwardPE" then
       d ← sub (get_default basic_info "trailingPE" (VNum 0))
               (get_default basic_info "forwardPE" (VNum 0));
       Ok (<["pe_comparison" := d]> enhanced)
     else Ok enhanced);
  let market_cap := get_default basic_info "marketCap" (VNum 0) in
  c ← gt market_cap (VNum 200000000000);
  if c : bool then Ok (<["market_cap_category" := VStr "Mega Cap"]> enhanced) else
  c ← gt market_cap (VNum 10000000000);
  if c : bool then Ok (<["market_cap_category" := VStr "Large Cap"]> enhanced) else
  c ← gt market_cap (VNum 2000000000);
  if c : bool then Ok (<["market_cap_category" := VStr "Mid Cap"]> enhanced) else
  c ← gt market_cap (VNum 300000000);
  if c : bool then Ok (<["market_cap_category" := VStr "Small Cap"]> enhanced) else
  Ok (<["market_cap_category" := VStr "Micro Cap"]> enhanced).

(** [get_enhanced_stock_info]: [except Exception] returns [basic_info]. *)
Definition get_enhanced_stock_info (now symbol : string)
  (basic_info : gmap string value) : gmap string value :=
  match enhanced_info now symbol basic_info with
  | Ok enhanced => enhanced
  | Raise _ => basic_info
  end.

End OpenbbApp.

(** * Vocabulary of the statements *)

Import StockAnalyzer EnhancedFinanceData OpenbbApp.

(** ** The sector scorer *)

(** The fundamentals of the worked example of the specification. *)
Definition worked_example : gmap string value :=
  list_to_map [
    ("sector", VStr "Technology"); ("trailingPE", VNum 20);
    ("priceToBook", VNum 5); ("pegRatio", VNum 0.8);
    ("revenueGrowth", VNum 0.30); ("profitMargins", VNum 0.28);
    ("returnOnEquity", VNum 0.25); ("debtToEquity", VNum 0.5);
    ("recommendationKey", VStr "strong_buy");
    ("targetMeanPrice", VNum 250); ("currentPrice", VNum 200)
  ].

(** The keys the five category functions read. *)
Definition scored_metrics : list string :=
  [ "trailingPE"; "priceToBook"; "pegRatio"; "forwardPE";
    "returnOnEquity"; "returnOnAssets"; "debtToEquity"; "profitMargins";
    "freeCashflow";
    "revenueGrowth"; "earningsGrowth"; "grossMargins";
    "performance_1w"; "performance_1m"; "performance_3m";
    "fiftyDayAverage"; "twoHundredDayAverage"; "currentPrice";
    "recommendationKey"; "targetMeanPrice"; "heldPercentInstitutions";
    "shortPercentOfFloat" ].

(** The blocks of the category functions that append a signal point, in
    the order of the source. *)
Inductive block :=
| TrailingPE | PriceToBook | PegRatio | ForwardPE
| ReturnOnEquity | ReturnOnAssets | DebtToEquity | ProfitMargins | FreeCashflow
| RevenueGrowth | EarningsGrowth | GrossMargins
| Performance1w | Performance1m | Performance3m | MovingAverages
| RecommendationKey | TargetMeanPrice | HeldPercentInstitutions
| ShortPercentOfFloat.

(** The keys a block reads. *)
Definition reads (b : block) : list string :=
  match b with
  | TrailingPE => ["trailingPE"]
  | PriceToBook => ["priceToBook"]
  | PegRatio => ["pegRatio"]
  | ForwardPE => ["forwardPE"; "trailingPE"]
  | ReturnOnEquity => ["returnOnEquity"]
  | ReturnOnAssets => ["returnOnAssets"]
  | DebtToEquity => ["debtToEquity"]
  | ProfitMargins => ["profitMargins"]
  | FreeCashflow => ["freeCashflow"]
  | RevenueGrowth => ["revenueGrowth"]
  | EarningsGrowth => ["earningsGrowth"]
  | GrossMargins => ["grossMargins"]
  | Performance1w => ["performance_1w"]
  | Performance1m => ["performance_1m"]
  | Performance3m => ["performance_3m"]
  | MovingAverages => ["fiftyDayAverage"; "twoHundredDayAverage"; "currentPrice"]
  | RecommendationKey => ["recommendationKey"]
  | TargetMeanPrice => ["targetMeanPrice"; "currentPrice"]
  | HeldPercentInstitutions => ["heldPercentInstitutions"]
  | ShortPercentOfFloat => ["shortPercentOfFloat"]
  end.

(** The block itself, as the category function runs it. *)
Definition run (b : block) (data : gmap string value) (bm : Benchmark)
  (points : list Q) : result (list Q) :=
  match b with
  | TrailingPE => pe_points data bm points
  | PriceToBook => pb_points data bm points
  | PegRatio => peg_points data points
  | ForwardPE => forward_pe_points data points
  | ReturnOnEquity => roe_points data bm points
  | ReturnOnAssets => roa_points data points
  | DebtToEquity => debt_equity_points data bm points
  | ProfitMargins => margin_points data bm points
  | FreeCashflow => fcf_points data points
  | RevenueGrowth => rev_growth_points data bm points
  | EarningsGrowth => earnings_growth_points data points
  | GrossMargins => gross_margin_points data points
  | Performance1w => perf_points (get data "performance_1w") 1.2 points
  | Performance1m => perf_points (get data "performance_1m") 1.0 points
  | Performance3m => perf_points (get data "performance_3m") 0.8 points
  | MovingAverages => ma_points data points
  | RecommendationKey => rec_points data points
  | TargetMeanPrice => target_points data points
  | HeldPercentInstitutions => inst_points data points
  | ShortPercentOfFloat => short_points data points
  end.

(** The blocks guarded by [is not None]; all the others are guarded by
    the truth value of what they read. *)
Definition guarded_by_is_not_None (b : block) : bool :=
  match b with
  | DebtToEquity | Performance1w | Performance1m | Performance3m => true
  | _ => false
  end.

(** Blocks run one after the other on the same list of points. *)
Fixpoint run_all (bs : list block) (data : gmap string value) (bm : Benchmark)
  (points : list Q) : result (list Q) :=
  match bs with
  | [] => Ok points
  | b :: rest => points ← run b data bm points; run_all rest data bm points
  end.

(** ** OHLCV frames *)

(** A bar of an OHLCV series: finite numbers. *)
Record Bar := {
  open : Q; high : Q; low : Q; close : Q; volume : Q
}.

(** The column of one field of the bars. *)
Definition column (f : Bar → Q) (bars : list Bar) : Series :=
  (λ b, Fin (f b)) <$> bars.

(** [df] holds the series [bars]: one row per bar and the five columns,
    besides any other column. *)
Definition ohlcv (df : DataFrame) (bars : list Bar) : Prop :=
  nrows df = length bars
  ∧ cols df !! "Open" = Some (column open bars)
  ∧ cols df !! "High" = Some (column high bars)
  ∧ cols df !! "Low" = Some (column low bars)
  ∧ cols df !! "Close" = Some (column close bars)
  ∧ cols df !! "Volume" = Some (column volume bars).

(** The frame of a series, with the five columns only. *)
Definition frame_of (bars : list Bar) : DataFrame :=
  mkDF (length bars)
       (list_to_map [("Open", column open bars); ("High", column high bars);
                     ("Low", column low bars); ("Close", column close bars);
                     ("Volume", column volume bars)]).

(** The closed examples below need a function for the square root of the
    rolling standard deviation; none of them reads a column that takes it,
    so any function does. *)
Definition no_sqrt : xnum → xnum := λ x, x.

(** ** On-balance volume *)

(** One step of the loop of [_calculate_obv]. *)
Definition obv_next (cp ci o vi : xnum) : xnum :=
  if xgtb ci cp then xadd o vi
  else if xltb ci cp then xsub o vi
  else o.

(** The signed increments of on-balance volume, bar over bar. *)
Definition obv_increments (obv : Series) (bars : list Bar) : Prop :=
  ∀ i prev cur, bars !! i = Some prev → bars !! S i = Some cur →
    ∃ o0 o1 : Q,
      obv !! i = Some (Fin o0) ∧ obv !! S i = Some (Fin o1)
      ∧ (close prev < close cur → o1 == o0 + volume cur)
      ∧ (close cur < close prev → o1 == o0 - volume cur)
      ∧ (close cur == close prev → o1 == o0).

(** The step of [_calculate_obv] and the step of the running sum of
    [calculate_technical_indicators], on finite numbers. *)
Definition loop_step (prev cur : Bar) (o : Q) : Q :=
  if Qltb (close prev) (close cur) then o + volume cur
  else if Qltb (close cur) (close prev) then o + - volume cur
  else o.

Definition cumsum_step (prev cur : Bar) (o : Q) : Q :=
  o + volume cur * 1
      * (if Qltb 0 (close cur + - close prev) then 1
         else if Qltb (close cur + - close prev) 0 then -1 else 0).

(** The terms [calculate_technical_indicators] sums into its OBV. *)
Definition obv_terms (c v : Series) : Series :=
  smul (smul v (not_as_int (isna (diff c))))
       (direction <$> fillna (diff c) (Fin 0)).

(** ** Pivot points *)

(** The seven levels of the specification, from the high, low and close
    of one bar. *)
Definition pivot_levels (b : Bar) (p r1 r2 r3 s1 s2 s3 : Q) : Prop :=
  p == (high b + low b + close b) / 3
  ∧ r1 == 2 * p - low b
  ∧ r2 == p + (high b - low b)
  ∧ r3 == high b + 2 * (p - low b)
  ∧ s1 == 2 * p - high b
  ∧ s2 == p - (high b - low b)
  ∧ s3 == low b - 2 * (high b - p).

(** The value of column [name] at row [i]. *)
Definition cell (df : DataFrame) (name : string) (i : nat) : option xnum :=
  cols df !! name ≫= λ s, s !! i.

(** ** Exponential moving averages *)

(** [w] to the power [n]. *)
Fixpoint pow (w : Q) (n : nat) : Q :=
  match n with
  | O => 1
  | S n => w * pow w n
  end.

(** The sum of [f 0], ..., [f i]. *)
Fixpoint sum_upto (i : nat) (f : nat → Q) : Q :=
  match i with
  | O => f 0%nat
  | S j => sum_upto j f + f (S j)
  end.

(** The exponentially weighted mean of the closes 0..i: the weight of
    close [k] is [(1 - alpha)^(i - k)]. *)
Definition ew_num (alpha : Q) (xs : list Q) (i : nat) : Q :=
  sum_upto i (λ k, pow (1 - alpha) (i - k) * nth k xs 0).
Definition ew_den (alpha : Q) (i : nat) : Q :=
  sum_upto i (λ k, pow (1 - alpha) (i - k)).
Definition ew_mean (alpha : Q) (xs : list Q) (i : nat) : Q :=
  ew_num alpha xs i / ew_den alpha i.

(** The recursion seeded with the first close as a plain initial value. *)
Fixpoint ema_rec (alpha : Q) (xs : list Q) (i : nat) : Q :=
  match i with
  | O => nth 0 xs 0
  | S j => (1 - alpha) * ema_rec alpha xs j + alpha * nth (S j) xs 0
  end.

(** One step of the pass of [ewm], on finite numbers. *)
Definition ewm_next (alpha : Q) (adjust : bool) (y d x : Q) : Q :=
  let d' := d * old_wt_factor alpha in
  if negb (Qeq_bool y x)
  then (d' * y + new_wt alpha adjust * x) / (d' + new_wt alpha adjust)
  else y.

(** ** Relative strength index *)

(** The gain and the loss of bar [k]: the positive and the negative part
    of the move of the close since the bar before; bar 0 has neither. *)
Definition gain_at (xs : list Q) (k : nat) : Q :=
  match k with
  | O => 0
  | S j =>
      let d := nth (S j) xs 0 - nth j xs 0 in
      if Qltb 0 d then d else 0
  end.

Definition loss_at (xs : list Q) (k : nat) : Q :=
  match k with
  | O => 0
  | S j =>
      let d := nth (S j) xs 0 - nth j xs 0 in
      if Qltb d 0 then - d else 0
  end.

(** The mean of [f] over the [w] bars that end at bar [i]. *)
Definition trailing_mean (w : nat) (f : nat → Q) (i : nat) : Q :=
  Py.sum (f <$> seq (i + 1 - w) w) / inject_Z (Z.of_nat w).

(** A bar whose prices are all [c]. *)
Definition flat_bar (c : Q) : Bar :=
  {| open := c; high := c; low := c; close := c; volume := 1 |}.

(** ** The ranges of the scores *)

(** The range of the points a block can append. *)
Definition point_range (b : block) : Q * Q :=
  match b with
  | TrailingPE | PriceToBook | PegRatio | ForwardPE => (20, 90)
  | ReturnOnEquity | ReturnOnAssets | DebtToEquity | ProfitMargins
  | FreeCashflow => (20, 90)
  | RevenueGrowth | EarningsGrowth | GrossMargins => (20, 95)
  | Performance1w | Performance1m | Performance3m | MovingAverages => (16, 108)
  | RecommendationKey | TargetMeanPrice | HeldPercentInstitutions
  | ShortPercentOfFloat => (5, 95)
  end.

(** Every point lies between [lo] and [hi]. *)
Definition within (lo hi : Q) (points : list Q) : Prop :=
  Forall (λ p, lo <= p ∧ p <= hi) points.

(** ** The arithmetic of the scorer on binary64 floats

    The same expressions as in [StockAnalyzer], on the floats of the
    machine, to evaluate the worked examples with rounding. *)

(** [sum(points) / len(points)] *)
Definition mean_binary64 (points : list float) : float :=
  (fold_left PrimFloat.add points 0
   / PrimFloat.of_uint63 (Uint63.of_Z (Z.of_nat (length points))))%float.

(** The weighted sum of [analyze]. *)
Definition overall_binary64 (valuation health growth momentum sentiment : float)
  : float :=
  (valuation * 0.25 + health * 0.20 + growth * 0.25 +
   momentum * 0.15 + sentiment * 0.15)%float.

(** * More vocabulary: the scorer on typed mappings, the pipeline, the signals *)

(** ** Windows of a series *)


(** ** Typed fundamentals *)

(** A value that is absent, [None] or a number. *)
Definition number_or_None (v : option value) : Prop :=
  match v with
  | None | Some VNone | Some (VNum _) => True
  | Some (VStr _) => False
  end.

(** A value that is absent, [None] or a string. *)
Definition text_or_None (v : option value) : Prop :=
  match v with
  | None | Some VNone | Some (VStr _) => True
  | Some (VNum _) => False
  end.

(** A key typed as yfinance types it: the recommendation key is a string,
    every other metric a number (or [None], or absent). *)
Definition typed_key (data : gmap string value) (k : string) : Prop :=
  if String.eqb k "recommendationKey"
  then text_or_None (data !! k)
  else number_or_None (data !! k).

(** The fundamentals as yfinance types them. *)
Definition typed_fundamentals (data : gmap string value) : Prop :=
  Forall (typed_key data) scored_metrics.

(** All the blocks, in the order [analyze] runs them. *)
Definition all_blocks : list block :=
  [ TrailingPE; PriceToBook; PegRatio; ForwardPE;
    ReturnOnEquity; ReturnOnAssets; DebtToEquity; ProfitMargins; FreeCashflow;
    RevenueGrowth; EarningsGrowth; GrossMargins;
    Performance1w; Performance1m; Performance3m; MovingAverages;
    RecommendationKey; TargetMeanPrice; HeldPercentInstitutions;
    ShortPercentOfFloat ].

(** The metrics a block compares with numbers as soon as it reads
    them. *)
Definition compared_metrics : list (string * block) :=
  [ ("trailingPE", TrailingPE); ("priceToBook", PriceToBook);
    ("pegRatio", PegRatio);
    ("returnOnEquity", ReturnOnEquity); ("returnOnAssets", ReturnOnAssets);
    ("debtToEquity", DebtToEquity); ("profitMargins", ProfitMargins);
    ("freeCashflow", FreeCashflow);
    ("revenueGrowth", RevenueGrowth); ("earningsGrowth", EarningsGrowth);
    ("grossMargins", GrossMargins);
    ("performance_1w", Performance1w); ("performance_1m", Performance1m);
    ("performance_3m", Performance3m);
    ("heldPercentInstitutions", HeldPercentInstitutions);
    ("shortPercentOfFloat", ShortPercentOfFloat) ].

(** The keys [analyze] reads. *)
Definition analyzed_keys : list string :=
  "sector" :: "industry" :: scored_metrics.

(** ** Volume-weighted average price *)

(** The typical price of a bar. *)
Definition typical_price (b : Bar) : Q := (high b + low b + close b) / 3.

(** The typical price of a bar times its volume. *)
Definition traded (b : Bar) : Q := typical_price b * volume b.

(** ** The order of the pivot levels *)



(** ** True range *)

(** The larger of two numbers, as [np.maximum] takes it. *)
Definition larger (x y : Q) : Q := if Qltb x y then y else x.

(** The true range of bar [k]: the largest of the range of the bar and of
    the distances of its high and of its low from the close of the bar
    before; bar 0 has no bar before it. *)
Definition true_range_at (bars : list Bar) (k : nat) : Q :=
  match k with
  | O => 0
  | S j =>
      let h := nth (S j) (high <$> bars) 0 in
      let l := nth (S j) (low <$> bars) 0 in
      let c := nth j (close <$> bars) 0 in
      larger (h - l) (larger (Qabs (h - c)) (Qabs (l - c)))
  end.

(** ** Money flow *)

(** The sum of [f] over the [w] bars that end at bar [i]. *)
Definition trailing_sum (w : nat) (f : nat → Q) (i : nat) : Q :=
  Py.sum (f <$> seq (i + 1 - w) w).

(** What bar [k] adds to the positive money flow: its traded value when
    its typical price is above that of the bar before; bar 0 adds
    nothing. *)
Definition positive_flow_at (bars : list Bar) (k : nat) : Q :=
  match k with
  | O => 0
  | S j =>
      if Qltb (nth j (typical_price <$> bars) 0) (nth (S j) (typical_price <$> bars) 0)
      then nth (S j) (traded <$> bars) 0 else 0
  end.

(** What bar [k] adds to the negative money flow: its traded value when
    its typical price is below that of the bar before. *)
Definition negative_flow_at (bars : list Bar) (k : nat) : Q :=
  match k with
  | O => 0
  | S j =>
      if Qltb (nth (S j) (typical_price <$> bars) 0) (nth j (typical_price <$> bars) 0)
      then nth (S j) (traded <$> bars) 0 else 0
  end.

(** ** The columns of the pipeline *)

(** The columns the three stages add. *)
Definition indicator_columns (advanced : bool) : list string :=
  [ "SMA_5"; "SMA_10"; "SMA_20"; "SMA_50"; "SMA_200";
    "EMA_12"; "EMA_26"; "EMA_50"; "RSI"; "RSI_14";
    "MACD"; "MACD_Signal"; "MACD_Histogram";
    "BOLL"; "BOLL_Upper"; "BOLL_Lower" ]
  ++ (if advanced
      then [ "KDJ_K"; "KDJ_D"; "KDJ_J"; "ATR"; "ATR_14"; "Stoch_K"; "Stoch_D";
             "Williams_R"; "CCI"; "MFI" ]
      else [])
  ++ [ "Volume_SMA_20"; "Volume_SMA_50"; "Volume_ROC"; "OBV"; "VWAP";
       "Pivot"; "R1"; "R2"; "R3"; "S1"; "S2"; "S3" ].

(** The key of [get_enhanced_stock_data]: the symbol and the period, not
    the flag. *)
Definition enhanced_stock_key (repr : value → string) (symbol period : string)
  : string :=
  _get_cache_key repr "enhanced_stock"
    [("symbol", VStr symbol); ("period", VStr period)].



(** The simple moving averages of [_add_technical_indicators] and their
    windows. *)
Definition sma_columns : list (string * nat) :=
  [ ("SMA_5", 5%nat); ("SMA_10", 10%nat); ("SMA_20", 20%nat);
    ("SMA_50", 50%nat); ("SMA_200", 200%nat) ].

(** The Bollinger columns of [_add_technical_indicators]. *)
Definition bollinger_columns : list string := [ "BOLL"; "BOLL_Upper"; "BOLL_Lower" ].

(** ** Trade signals *)

(** The number of signals with a tag. *)
Definition count_tag (tag : string) (signals : list (string * string)) : nat :=
  length (filter (λ s, s.2 = tag) signals).

(** The two counters count the signals of their tag, and there are at
    most [n] signals. *)
Definition counted (n : nat) (st : Counts) : Prop :=
  let '(signals, bullish_count, bearish_count) := st in
  (length signals ≤ n)%nat
  ∧ bullish_count = count_tag "BULLISH" signals
  ∧ bearish_count = count_tag "BEARISH" signals.

(** The verdict is the majority of the signals. *)
Definition majority (ts : TradeSignals) : Prop :=
  let bulls := count_tag "BULLISH" (signals ts) in
  let bears := count_tag "BEARISH" (signals ts) in
  (length (signals ts) ≤ 4)%nat
  ∧ (overall ts = "BULLISH" ↔ (bears < bulls)%nat)
  ∧ (overall ts = "BEARISH" ↔ (bulls < bears)%nat)
  ∧ (overall ts = "NEUTRAL" ↔ bulls = bears).

(** ** Portfolio metrics *)

(** The value and the cost of a holding, and its entry in
    [performances]. *)
Definition holding_value (item : string * Holding) : Q :=
  shares item.2 * current_price item.2.
Definition holding_cost (item : string * Holding) : Q :=
  shares item.2 * avg_cost item.2.
Definition performance (item : string * Holding) : string * Q :=
  (item.1,
   if Qltb 0 (holding_cost item)
   then (holding_value item - holding_cost item) / holding_cost item * 100
   else 0).

(** No entry of [l] has a percentage above that of [p]. *)
Definition tops (p : string * Q) (l : list (string * Q)) : Prop :=
  ∀ q, q ∈ l → q.2 <= p.2.

(** No entry of [l] has a percentage below that of [p]. *)
Definition bottoms (p : string * Q) (l : list (string * Q)) : Prop :=
  ∀ q, q ∈ l → p.2 <= q.2.

(** A list in falling order: every entry tops the entries after it. *)
Fixpoint falling (l : list (string * Q)) : Prop :=
  match l with
  | [] => True
  | p :: t => tops p t ∧ falling t
  end.

(** ** The keys of [get_enhanced_stock_info] *)

(** The keys [get_enhanced_stock_info] may add. *)
Definition added_keys : list string :=
  [ "symbol"; "last_updated"; "pe_comparison"; "market_cap_category" ].

(** The two P/E figures can be subtracted: one of them is absent, or both
    are numbers. *)
Definition pe_comparable (basic_info : gmap string value) : Prop :=
  match basic_info !! "trailingPE", basic_info !! "forwardPE" with
  | Some (VNum _), Some (VNum _) => True
  | None, _ | _, None => True
  | _, _ => False
  end.

(** The bands of the market capitalisation. *)
Definition cap_bands (cap : Q) (category : string) : Prop :=
  (category = "Mega Cap" ↔ 200000000000 < cap)
  ∧ (category = "Large Cap" ↔ 10000000000 < cap ∧ cap <= 200000000000)
  ∧ (category = "Mid Cap" ↔ 2000000000 < cap ∧ cap <= 10000000000)
  ∧ (category = "Small Cap" ↔ 300000000 < cap ∧ cap <= 2000000000)
  ∧ (category = "Micro Cap" ↔ cap <= 300000000).

(** ** Histories and feeds of the closed examples *)

(** A history of three bars, and a yfinance that returns it. *)
Definition three_bars : list Bar :=
  [ {| open := 1; high := 2; low := 1; close := 2; volume := 100 |};
    {| open := 2; high := 4; low := 2; close := 3; volume := 50 |};
    {| open := 3; high := 3; low := 1; close := 1; volume := 70 |} ].

Definition yfinance_three_bars (symbol period : string) (w : nat)
  : result (DataFrame * string) * nat :=
  (Ok (frame_of three_bars, "info"), S w).

(** Six bars that close at 1, 2, ..., 6. *)
Definition six_bars : list Bar := flat_bar <$> [1; 2; 3; 4; 5; 6].

(** A yfinance that raises. *)
Definition yfinance_down (symbol period : string) (w : nat)
  : result (DataFrame * string) * nat :=
  (Raise (KeyError "timeout"), S w).

(** A [repr] for the closed examples: the text of a string, nothing for
    the rest. *)
Definition repr_text (v : value) : string :=
  match v with VStr s => s | _ => EmptyString end.

(** * Properties of the sector scorer *)

Lemma Qltb_lt (a b : Q) : Qltb a b = true ↔ a < b.
Proof.
  unfold Qltb. rewrite Qlt_alt. destruct (a ?= b); intuition congruence.
Qed.

Lemma Qltb_ge (a b : Q) : Qltb a b = false ↔ b <= a.
Proof.
  rewrite <- not_true_iff_false, Qltb_lt. split; [apply Qnot_lt_le | apply Qle_not_lt].
Qed.

Lemma Qgeb_ge (a b : Q) : Qgeb a b = true ↔ b <= a.
Proof. apply Qle_bool_iff. Qed.

Lemma Qgeb_lt (a b : Q) : Qgeb a b = false ↔ a < b.
Proof.
  rewrite <- not_true_iff_false, Qgeb_ge. split; [apply Qnot_le_lt | apply Qlt_not_le].
Qed.

(** C1, as the specification words it, fails: on the worked example the
    price-to-book block appends 80, not 60 (5 is below 0.7 * pb_avg = 5.6,
    the first test of the block), and the valuation score is not 230/3. *)
Lemma worked_example_valuation_is_not_230_over_3 :
  ∃ r, analyze worked_example = Ok r
       ∧ pb_points worked_example (benchmarks_of (sector r)) [80] = Ok [80; 80]
       ∧ ¬ valuation_score r == 230 / 3.
Proof.
  eexists. split; [vm_compute; reflexivity |]. split; [vm_compute; reflexivity |].
  vm_compute. discriminate.
Qed.

(** C1, amended: on the worked example (sector Technology) the valuation
    blocks append 80 for P/E 20 < pe_good 25, then 80 for P/B 5 <
    0.7 * pb_avg = 5.6, then 90 for PEG 0.8 < 1; the forward P/E block
    appends nothing because [forwardPE] is absent; the valuation score is
    the mean (80 + 80 + 90) / 3 = 250/3. *)
Theorem worked_example_valuation :
  let bm := benchmarks_of (VStr "Technology") in
  pe_good bm == 25 ∧ pb_avg bm == 8
  ∧ pe_points worked_example bm [] = Ok [80]
  ∧ pb_points worked_example bm [80] = Ok [80; 80]
  ∧ peg_points worked_example [80; 80] = Ok [80; 80; 90]
  ∧ worked_example !! "forwardPE" = None
  ∧ forward_pe_points worked_example [80; 80; 90] = Ok [80; 80; 90]
  ∧ ∃ r, analyze worked_example = Ok r
         ∧ valuation_score r == (80 + 80 + 90) / 3
         ∧ valuation_score r == 250 / 3.
Proof.
  repeat split; try (vm_compute; reflexivity).
  eexists. repeat split; vm_compute; reflexivity.
Qed.

(** C2: the momentum score leaves [0,100].  With a one-week performance
    of 11 % as the only metric, the only momentum point is 90 * 1.2 = 108
    and the momentum score is 108. *)
Theorem momentum_score_above_100 :
  ∃ r, analyze {[ "performance_1w" := VNum 11 ]} = Ok r
       ∧ momentum_score r == 108
       ∧ ¬ momentum_score r <= 100.
Proof.
  eexists. split; [vm_compute; reflexivity |]. split; [vm_compute; reflexivity |].
  vm_compute. intros H. apply H. reflexivity.
Qed.

(** C9: the recommendation of a score, threshold by threshold; every
    threshold belongs to the better recommendation. *)
Theorem recommendation_thresholds (s : Q) :
  (_get_recommendation s = STRONG_BUY ↔ 75 <= s)
  ∧ (_get_recommendation s = BUY ↔ 60 <= s ∧ s < 75)
  ∧ (_get_recommendation s = HOLD ↔ 40 <= s ∧ s < 60)
  ∧ (_get_recommendation s = SELL ↔ 25 <= s ∧ s < 40)
  ∧ (_get_recommendation s = STRONG_SELL ↔ s < 25)
  ∧ _get_recommendation 75 = STRONG_BUY
  ∧ _get_recommendation 60 = BUY
  ∧ _get_recommendation 40 = HOLD
  ∧ _get_recommendation 25 = SELL.
Proof.
  unfold _get_recommendation.
  destruct (Qgeb s 75) eqn:H75; [apply Qgeb_ge in H75 | apply Qgeb_lt in H75];
  (destruct (Qgeb s 60) eqn:H60; [apply Qgeb_ge in H60 | apply Qgeb_lt in H60]);
  (destruct (Qgeb s 40) eqn:H40; [apply Qgeb_ge in H40 | apply Qgeb_lt in H40]);
  (destruct (Qgeb s 25) eqn:H25; [apply Qgeb_ge in H25 | apply Qgeb_lt in H25]);
  repeat split; intros; try reflexivity; try discriminate; try lra.
Qed.

(** C10: a mapping with a sector and none of the scored metrics gets 50 in
    every category and 50 overall. *)
Theorem neutral_without_metrics (data : gmap string value) (sec : value) :
  data !! "sector" = Some sec →
  (∀ k, k ∈ scored_metrics → data !! k = None) →
  ∃ r, analyze data = Ok r
       ∧ sector r = sec
       ∧ valuation_score r == 50
       ∧ financial_health_score r == 50
       ∧ growth_score r == 50
       ∧ momentum_score r == 50
       ∧ sentiment_score r == 50
       ∧ overall_score r == 50
       ∧ 0.25 + 0.20 + 0.25 + 0.15 + 0.15 == 1.
Proof.
  intros Hsec Habs.
  assert (HF : Forall (λ k, data !! k = None) scored_metrics)
    by (apply Forall_forall; exact Habs).
  unfold scored_metrics in HF.
  repeat (apply Forall_cons in HF as [? HF]).
  unfold analyze, _analyze_valuation, _analyze_financial_health, _analyze_growth,
    _analyze_momentum, _analyze_sentiment.
  unfold pe_points, pb_points, peg_points, forward_pe_points, roe_points,
    roa_points, debt_equity_points, margin_points, fcf_points, rev_growth_points,
    earnings_growth_points, gross_margin_points, perf_loop, perf_points,
    ma_points, rec_points, target_points, inst_points, short_points.
  unfold get, get_default.
  repeat match goal with
         | H : data !! _ = None |- _ => rewrite ?H; clear H
         end.
  rewrite Hsec. cbn.
  eexists. split; [reflexivity |]. cbn.
  repeat split; reflexivity.
Qed.

Lemma neutral_without_metrics_witness :
  ∃ r, analyze {[ "sector" := VStr "Energy" ]} = Ok r
       ∧ sector r = VStr "Energy"
       ∧ valuation_score r == 50
       ∧ financial_health_score r == 50
       ∧ growth_score r == 50
       ∧ momentum_score r == 50
       ∧ sentiment_score r == 50
       ∧ overall_score r == 50
       ∧ 0.25 + 0.20 + 0.25 + 0.15 + 0.15 == 1.
Proof.
  apply (neutral_without_metrics {[ "sector" := VStr "Energy" ]} (VStr "Energy")).
  - reflexivity.
  - intros k Hk. apply lookup_singleton_ne. intros <-.
    unfold scored_metrics in Hk.
    repeat (apply elem_of_cons in Hk as [Hk | Hk]; [discriminate Hk |]).
    apply elem_of_nil in Hk. exact Hk.
Defined.

(** The category functions are these blocks, run in this order on an
    empty list of points. *)
Lemma categories_are_blocks (data : gmap string value) (bm : Benchmark) :
  _analyze_valuation data bm
    = (run_all [TrailingPE; PriceToBook; PegRatio; ForwardPE] data bm []
         ≫= λ points, Ok (mean_or_neutral points))
  ∧ _analyze_financial_health data bm
    = (run_all [ReturnOnEquity; ReturnOnAssets; DebtToEquity; ProfitMargins;
                FreeCashflow] data bm []
         ≫= λ points, Ok (mean_or_neutral points))
  ∧ _analyze_growth data bm
    = (run_all [RevenueGrowth; EarningsGrowth; GrossMargins] data bm []
         ≫= λ points, Ok (mean_or_neutral points))
  ∧ _analyze_momentum data
    = (run_all [Performance1w; Performance1m; Performance3m; MovingAverages]
         data bm []
         ≫= λ points, Ok (mean_or_neutral points))
  ∧ _analyze_sentiment data
    = (run_all [RecommendationKey; TargetMeanPrice; HeldPercentInstitutions;
                ShortPercentOfFloat] data bm []
         ≫= λ points, Ok (mean_or_neutral points)).
Proof.
  unfold _analyze_valuation, _analyze_financial_health, _analyze_growth,
    _analyze_momentum, _analyze_sentiment, run_all, run, perf_loop.
  repeat split;
    repeat match goal with
           | |- context [mbind _ ?m] =>
               match m with
               | mbind _ _ => fail 1
               | _ => destruct m; cbn [mbind result_bind]; try reflexivity
               end
           end.
Qed.

Ltac unfold_blocks :=
  unfold run, pe_points, pb_points, peg_points, forward_pe_points, roe_points,
    roa_points, debt_equity_points, margin_points, fcf_points, rev_growth_points,
    earnings_growth_points, gross_margin_points, perf_points, ma_points,
    rec_points, target_points, inst_points, short_points, get, get_default.

Ltac split_comparisons :=
  repeat match goal with
         | |- context [Qltb ?a ?b] => destruct (Qltb a b); cbn
         end.

(** C3, as the specification words it, fails: a trailing P/E that is
    present with value 0 appends no point, and the analysis of that mapping
    is the analysis of the empty mapping. *)
Lemma zero_trailing_pe_is_not_scored :
  ({[ "trailingPE" := VNum 0 ]} : gmap string value) !! "trailingPE" = Some (VNum 0)
  ∧ pe_points {[ "trailingPE" := VNum 0 ]} DEFAULT_BENCHMARK [] = Ok []
  ∧ analyze {[ "trailingPE" := VNum 0 ]} = analyze ∅.
Proof. repeat split; vm_compute; reflexivity. Qed.

(** C3, amended: a block appends no point when a key it reads is absent;
    when a key it reads is present with value 0, the blocks guarded by
    [is not None] (debt to equity and the three performance figures)
    append a point, and every other block, guarded by the truth value of
    what it reads, appends none. *)
Theorem absent_and_zero_metrics (b : block) (data : gmap string value)
  (bm : Benchmark) (points : list Q) (k : string) :
  k ∈ reads b →
  (data !! k = None → run b data bm points = Ok points)
  ∧ (∀ q, q == 0 → data !! k = Some (VNum q) →
       if guarded_by_is_not_None b
       then ∃ p, run b data bm points = Ok (points ++ [p])
       else run b data bm points = Ok points).
Proof.
  intros Hk.
  destruct b; cbn [reads] in Hk;
    repeat (apply elem_of_cons in Hk as [-> | Hk]);
    try (apply elem_of_nil in Hk; contradiction);
    (split; [intros Hnone | intros q Hq%Qeq_bool_iff Hzero]);
    cbn [guarded_by_is_not_None]; unfold_blocks;
    try rewrite Hnone; try rewrite Hzero;
    cbn [from_option id truthy is_not_None andb forallb];
    try rewrite Hq; cbn [negb andb];
    rewrite ?andb_false_r; try reflexivity;
    cbn; split_comparisons; eexists; reflexivity.
Qed.

Lemma absent_and_zero_metrics_witness :
  (({[ "debtToEquity" := VNum 0 ]} : gmap string value) !! "debtToEquity" = None →
     run DebtToEquity {[ "debtToEquity" := VNum 0 ]} DEFAULT_BENCHMARK [] = Ok [])
  ∧ (∀ q, q == 0 →
       ({[ "debtToEquity" := VNum 0 ]} : gmap string value) !! "debtToEquity"
         = Some (VNum q) →
       ∃ p, run DebtToEquity {[ "debtToEquity" := VNum 0 ]} DEFAULT_BENCHMARK []
              = Ok ([] ++ [p])).
Proof.
  apply (absent_and_zero_metrics DebtToEquity {[ "debtToEquity" := VNum 0 ]}
           DEFAULT_BENCHMARK [] "debtToEquity").
  cbn. apply elem_of_cons. left. reflexivity.
Defined.

(** ** The ranges of the category scores *)

Lemma rec_map_range (k : string) : 5 <= default 50 (rec_map !! k) ∧ default 50 (rec_map !! k) <= 95.
Proof.
  unfold rec_map. cbn [list_to_map foldr fst snd uncurry].
  repeat (rewrite lookup_insert; case_decide; [cbn; lra |]).
  rewrite lookup_empty. cbn. lra.
Qed.

Ltac unfold_blocks_in H :=
  unfold run, pe_points, pb_points, peg_points, forward_pe_points, roe_points,
    roa_points, debt_equity_points, margin_points, fcf_points, rev_growth_points,
    earnings_growth_points, gross_margin_points, perf_points, ma_points,
    rec_points, target_points, inst_points, short_points, get, get_default in H.

Ltac split_values H data :=
  repeat match type of H with
         | context [data !! ?k] => destruct (data !! k) as [[| ? | ?] |]
         end.

Ltac split_tests H :=
  repeat (cbn in H;
          match type of H with
          | context [Qltb ?a ?b] => destruct (Qltb a b)
          | context [Qeq_bool ?a ?b] => destruct (Qeq_bool a b)
          | context [String.eqb ?a ?b] => destruct (String.eqb a b)
          | context [String.ltb ?a ?b] => destruct (String.ltb a b)
          end);
  cbn in H.

(** A block appends nothing or one point of its range. *)
Lemma run_appends (b : block) (data : gmap string value) (bm : Benchmark)
  (points points' : list Q) :
  run b data bm points = Ok points' →
  points' = points
  ∨ ∃ p, points' = points ++ [p]
         ∧ (point_range b).1 <= p ∧ p <= (point_range b).2.
Proof.
  intros H.
  destruct b; unfold_blocks_in H; unfold append in H; cbn [point_range fst snd];
    split_values H data; split_tests H;
    first
      [ discriminate H
      | injection H as <-; left; reflexivity
      | injection H as <-; right; eexists; split; [reflexivity |];
        first [ apply rec_map_range | split; lra ] ].
Qed.

Lemma run_all_within (bs : list block) (lo hi : Q) (data : gmap string value)
  (bm : Benchmark) :
  (∀ b, b ∈ bs → lo <= (point_range b).1 ∧ (point_range b).2 <= hi) →
  ∀ points points',
    within lo hi points → run_all bs data bm points = Ok points' →
    within lo hi points'.
Proof.
  induction bs as [| b bs IH]; intros Hbs points points' Hin Hrun.
  - injection Hrun as <-. exact Hin.
  - cbn [run_all] in Hrun.
    destruct (run b data bm points) as [points1 |] eqn:Hb; [| discriminate].
    cbn [mbind result_bind] in Hrun.
    apply (IH (λ b' Hb', Hbs b' (list_elem_of_further _ _ _ Hb')) points1 points');
      [| exact Hrun].
    destruct (run_appends b data bm points points1 Hb) as [-> | (p & -> & Hlo & Hhi)];
      [exact Hin |].
    destruct (Hbs b (list_elem_of_here _ _)) as [H1 H2].
    apply Forall_app. split; [exact Hin |].
    apply Forall_cons. split; [split; lra | apply Forall_nil; exact I].
Qed.

Lemma sum_within (lo hi : Q) (points : list Q) (a : Q) :
  within lo hi points →
  a + inject_Z (Z.of_nat (length points)) * lo <= fold_left Qplus points a
  ∧ fold_left Qplus points a <= a + inject_Z (Z.of_nat (length points)) * hi.
Proof.
  revert a. induction points as [| p points IH]; intros a Hin.
  - cbn [fold_left length]. change (inject_Z (Z.of_nat 0)) with 0. split; lra.
  - apply Forall_cons in Hin as [[Hlo Hhi] Hin].
    destruct (IH (a + p) Hin) as [H1 H2].
    cbn [fold_left length]. rewrite Nat2Z.inj_succ, <- Z.add_1_r, inject_Z_plus.
    change (inject_Z 1) with 1.
    set (n := inject_Z (Z.of_nat (length points))) in *.
    split; lra.
Qed.

(** The mean of points of a range that holds 50 lies in the range. *)
Lemma mean_within (lo hi : Q) (points : list Q) :
  lo <= 50 → 50 <= hi → within lo hi points →
  lo <= mean_or_neutral points ∧ mean_or_neutral points <= hi.
Proof.
  intros Hlo Hhi Hin. destruct points as [| p points]; [cbn; split; lra |].
  unfold mean_or_neutral, Py.sum.
  destruct (sum_within lo hi (p :: points) 0 Hin) as [H1 H2].
  set (n := inject_Z (Z.of_nat (length (p :: points)))) in *.
  assert (Hn : 0 < n).
  { unfold n. change 0 with (inject_Z 0). rewrite <- Zlt_Qlt. cbn [length]. lia. }
  split.
  - apply Qle_shift_div_l; [exact Hn | lra].
  - apply Qle_shift_div_r; [exact Hn | lra].
Qed.

Lemma category_within (bs : list block) (lo hi : Q) (data : gmap string value)
  (bm : Benchmark) (score : Q) :
  lo <= 50 → 50 <= hi →
  (∀ b, b ∈ bs → lo <= (point_range b).1 ∧ (point_range b).2 <= hi) →
  (run_all bs data bm [] ≫= λ points, Ok (mean_or_neutral points)) = Ok score →
  lo <= score ∧ score <= hi.
Proof.
  intros Hlo Hhi Hbs Hrun.
  destruct (run_all bs data bm []) as [points |] eqn:Hall; [| discriminate].
  cbn [mbind result_bind] in Hrun. injection Hrun as <-.
  apply mean_within; [exact Hlo | exact Hhi |].
  apply (run_all_within bs lo hi data bm Hbs [] points); [apply Forall_nil; exact I |].
  exact Hall.
Qed.

Ltac range_of_blocks :=
  intros b Hb; cbn;
  repeat (apply elem_of_cons in Hb as [-> | Hb]; [cbn; split; lra |]);
  apply elem_of_nil in Hb; contradiction.

(** Whatever the mapping, when [analyze] returns: valuation and health
    lie in [20,90], growth in [20,95], sentiment in [5,95], momentum in
    [16,108] and the overall score in [0,100]. *)
Lemma score_ranges (data : gmap string value) (r : AnalysisResult) :
  analyze data = Ok r →
  (20 <= valuation_score r ∧ valuation_score r <= 90)
  ∧ (20 <= financial_health_score r ∧ financial_health_score r <= 90)
  ∧ (20 <= growth_score r ∧ growth_score r <= 95)
  ∧ (16 <= momentum_score r ∧ momentum_score r <= 108)
  ∧ (5 <= sentiment_score r ∧ sentiment_score r <= 95)
  ∧ (0 <= overall_score r ∧ overall_score r <= 100).
Proof.
  unfold analyze.
  set (bm := benchmarks_of _).
  destruct (categories_are_blocks data bm) as (Ev & Eh & Eg & Em & Es).
  destruct (_analyze_valuation data bm) as [v |] eqn:Hv; [| discriminate].
  destruct (_analyze_financial_health data bm) as [h |] eqn:Hh; [| discriminate].
  destruct (_analyze_growth data bm) as [g |] eqn:Hg; [| discriminate].
  destruct (_analyze_momentum data) as [m |] eqn:Hm; [| discriminate].
  destruct (_analyze_sentiment data) as [s |] eqn:Hs; [| discriminate].
  cbn [mbind result_bind]. intros [= <-]. cbn.
  symmetry in Ev, Eh, Eg, Em, Es.
  apply (category_within _ 20 90) in Ev; [| lra | lra | range_of_blocks].
  apply (category_within _ 20 90) in Eh; [| lra | lra | range_of_blocks].
  apply (category_within _ 20 95) in Eg; [| lra | lra | range_of_blocks].
  apply (category_within _ 16 108) in Em; [| lra | lra | range_of_blocks].
  apply (category_within _ 5 95) in Es; [| lra | lra | range_of_blocks].
  repeat split; lra.
Qed.

(** * Properties of the indicator engine *)

(** ** Running the statements of a frame computation *)

Lemma run_col (c : string) (s : Series) {A} (k : Series → M A) (df : DataFrame) :
  cols df !! c = Some s → (col c ≫= k) df = k s df.
Proof.
  intros H. unfold mbind, M_bind, col, getitem. rewrite H. reflexivity.
Qed.

Lemma run_col_missing (c : string) {A} (k : Series → M A) (df : DataFrame) :
  cols df !! c = None → (col c ≫= k) df = (Raise (KeyError c), df).
Proof.
  intros H. unfold mbind, M_bind, col, getitem. rewrite H. reflexivity.
Qed.

Lemma run_assign (c : string) (s : Series) {A} (k : unit → M A) (df : DataFrame) :
  (assign c s ≫= k) df = k tt (setitem df c s).
Proof. reflexivity. Qed.

Lemma run_last_assign (c : string) (s : Series) (df : DataFrame) :
  assign c s df = (Ok tt, setitem df c s).
Proof. reflexivity. Qed.

Lemma run_has_column_true (c : string) (s : Series) {A} (k : bool → M A)
  (df : DataFrame) :
  cols df !! c = Some s → (has_column c ≫= k) df = k true df.
Proof.
  intros H. unfold mbind, M_bind, has_column. rewrite H. reflexivity.
Qed.

Lemma run_has_column_false (c : string) {A} (k : bool → M A) (df : DataFrame) :
  cols df !! c = None → (has_column c ≫= k) df = k false df.
Proof.
  intros H. unfold mbind, M_bind, has_column. rewrite H. reflexivity.
Qed.

Lemma run_call {A B} (f : DataFrame → result A) (a : A) (k : A → M B)
  (df : DataFrame) :
  f df = Ok a → (call f ≫= k) df = k a df.
Proof.
  intros H. unfold mbind, M_bind, call. rewrite H. reflexivity.
Qed.

Lemma getitem_ok (df : DataFrame) (c : string) (s : Series) :
  cols df !! c = Some s → getitem df c = Ok s.
Proof. intros H. unfold getitem. rewrite H. reflexivity. Qed.

Lemma setitem_lookup (df : DataFrame) (c : string) (s : Series) :
  cols (setitem df c s) !! c = Some s.
Proof. apply lookup_insert_eq. Qed.

Lemma setitem_lookup_other (df : DataFrame) (c : string) (s : Series)
  (k : string) (v : option Series) :
  k ≠ c → cols df !! k = v → cols (setitem df c s) !! k = v.
Proof. intros Hne <-. apply lookup_insert_ne. congruence. Qed.

Lemma setitem_nrows (df : DataFrame) (c : string) (s : Series) (n : nat) :
  nrows df = n → nrows (setitem df c s) = n.
Proof. intros <-. reflexivity. Qed.

(** After an assignment, what is known of the columns of the frame is
    restated for the new frame, and the old frame is forgotten. *)
Ltac assigned :=
  match goal with
  | |- context [setitem ?df ?c ?s] =>
      let Hnew := fresh "Hcol" in
      pose proof (setitem_lookup df c s) as Hnew;
      repeat match goal with
             | H : cols df !! c = _ |- _ => clear H
             | H : cols df !! ?k = _ |- _ =>
                 apply (setitem_lookup_other df c s k) in H;
                 [| intros ?; discriminate]
             | H : nrows df = _ |- _ => apply (setitem_nrows df c s) in H
             end;
      let d := fresh "df" in
      set (d := setitem df c s) in *; clearbody d; try clear df
  end.

(** Runs a helper of [enhanced_finance_data.py] on the frame. *)
Ltac run_helper :=
  unfold _calculate_kdj, _calculate_atr, _calculate_stochastic,
    _calculate_williams_r, _calculate_cci, _calculate_mfi;
  repeat (erewrite getitem_ok by eassumption; cbn [mbind result_bind]);
  reflexivity.

Ltac run_step :=
  first
    [ rewrite run_assign; assigned
    | rewrite run_last_assign; assigned
    | erewrite run_col by eassumption
    | erewrite run_call by run_helper
    | erewrite run_has_column_true by eassumption
    | rewrite run_has_column_false by assumption ].

(** Runs all the statements and reads the result off what is known of the
    last frame. *)
Ltac run_all_statements :=
  repeat run_step;
  match goal with
  | |- ∃ df', (_, ?df) = (_, df') ∧ _ =>
      exists df; split; [reflexivity | repeat split; assumption]
  | |- ∃ df', mret tt ?df = (_, df') ∧ _ =>
      exists df; split; [reflexivity | repeat split; assumption]
  end.

Ltac run_until_missing :=
  repeat run_step; rewrite run_col_missing by assumption;
  eexists; reflexivity.

Section Run.
Variable sqrt : xnum → xnum.

(** What [calculate_technical_indicators] leaves in the columns examined
    below, on a frame with the four columns it reads. *)
Lemma calculate_body_columns (df : DataFrame) (c h l v : Series) :
  cols df !! "Close" = Some c →
  cols df !! "High" = Some h →
  cols df !! "Low" = Some l →
  cols df !! "Volume" = Some v →
  ∃ df', calculate_body sqrt df = (Ok tt, df')
    ∧ nrows df' = nrows df
    ∧ cols df' !! "EMA_12" = Some (ewm_mean (alpha_of_span 12) false c)
    ∧ cols df' !! "EMA_26" = Some (ewm_mean (alpha_of_span 26) false c)
    ∧ cols df' !! "EMA_50" = Some (ewm_mean (alpha_of_span 50) false c)
    ∧ cols df' !! "RSI" = Some (_calculate_rsi c 14)
    ∧ cols df' !! "OBV"
      = Some (cumsum (smul (smul v (not_as_int (isna (diff c))))
                           (direction <$> fillna (diff c) (Fin 0))))
    ∧ cols df' !! "Pivot" = Some (sdivc (sadd (sadd h l) c) 3)
    ∧ cols df' !! "R1" = Some (ssub (scale 2 (sdivc (sadd (sadd h l) c) 3)) l)
    ∧ cols df' !! "S1" = Some (ssub (scale 2 (sdivc (sadd (sadd h l) c) 3)) h)
    ∧ cols df' !! "R2" = Some (sadd (sdivc (sadd (sadd h l) c) 3) (ssub h l))
    ∧ cols df' !! "S2" = Some (ssub (sdivc (sadd (sadd h l) c) 3) (ssub h l))
    ∧ cols df' !! "R3" = cols df !! "R3"
    ∧ cols df' !! "S3" = cols df !! "S3".
Proof.
  intros Hc Hh Hl Hv.
  remember (nrows df) as n eqn:Hn. symmetry in Hn.
  remember (cols df !! "R3") as r3 eqn:Hr3. symmetry in Hr3.
  remember (cols df !! "S3") as s3 eqn:Hs3. symmetry in Hs3.
  unfold calculate_body. run_all_statements.
Qed.

Lemma calculate_body_without_close (df : DataFrame) :
  cols df !! "Close" = None →
  ∃ df', calculate_body sqrt df = (Raise (KeyError "Close"), df').
Proof. intros Hc. unfold calculate_body. run_until_missing. Qed.

Lemma calculate_body_without_low (df : DataFrame) (c : Series) :
  cols df !! "Close" = Some c → cols df !! "Low" = None →
  ∃ df', calculate_body sqrt df = (Raise (KeyError "Low"), df').
Proof. intros Hc Hl. unfold calculate_body. run_until_missing. Qed.

Lemma calculate_body_without_high (df : DataFrame) (c l : Series) :
  cols df !! "Close" = Some c → cols df !! "Low" = Some l →
  cols df !! "High" = None →
  ∃ df', calculate_body sqrt df = (Raise (KeyError "High"), df').
Proof. intros Hc Hl Hh. unfold calculate_body. run_until_missing. Qed.

Lemma calculate_body_without_volume (df : DataFrame) (c l h : Series) :
  cols df !! "Close" = Some c → cols df !! "Low" = Some l →
  cols df !! "High" = Some h → cols df !! "Volume" = None →
  ∃ df', calculate_body sqrt df = (Raise (KeyError "Volume"), df').
Proof. intros Hc Hl Hh Hv. unfold calculate_body. run_until_missing. Qed.

(** What [add_technical_indicators] leaves in the columns examined below,
    on a frame with [Close] and [Volume]. *)
Lemma add_body_columns (df : DataFrame) (c v : Series) :
  cols df !! "Close" = Some c →
  cols df !! "Volume" = Some v →
  ∃ df', add_body sqrt df = (Ok tt, df')
    ∧ nrows df' = nrows df
    ∧ cols df' !! "EMA_12" = Some (ewm_mean (alpha_of_span 12) true c)
    ∧ cols df' !! "EMA_26" = Some (ewm_mean (alpha_of_span 26) true c)
    ∧ cols df' !! "RSI" = Some (_calculate_rsi c 14)
    ∧ cols df' !! "Volume_SMA" = Some (rolling_mean 20 v)
    ∧ cols df' !! "Volume_Ratio" = Some (sdiv v (rolling_mean 20 v)).
Proof.
  intros Hc Hv.
  remember (nrows df) as n eqn:Hn. symmetry in Hn.
  unfold add_body. run_all_statements.
Qed.

(** Without [Volume] the statements run to the end and the two volume
    columns are not assigned. *)
Lemma add_body_without_volume (df : DataFrame) (c : Series) :
  cols df !! "Close" = Some c →
  cols df !! "Volume" = None →
  ∃ df', add_body sqrt df = (Ok tt, df')
    ∧ nrows df' = nrows df
    ∧ cols df' !! "SMA_20" = Some (rolling_mean 20 c)
    ∧ cols df' !! "EMA_12" = Some (ewm_mean (alpha_of_span 12) true c)
    ∧ cols df' !! "EMA_26" = Some (ewm_mean (alpha_of_span 26) true c)
    ∧ cols df' !! "RSI" = Some (_calculate_rsi c 14)
    ∧ cols df' !! "Volume_SMA" = cols df !! "Volume_SMA"
    ∧ cols df' !! "Volume_Ratio" = cols df !! "Volume_Ratio".
Proof.
  intros Hc Hv.
  remember (nrows df) as n eqn:Hn. symmetry in Hn.
  remember (cols df !! "Volume_SMA") as r1 eqn:Hr1. symmetry in Hr1.
  remember (cols df !! "Volume_Ratio") as r2 eqn:Hr2. symmetry in Hr2.
  unfold add_body. run_all_statements.
Qed.

(** Without [Close] the first statement raises and nothing is assigned. *)
Lemma add_body_without_close (df : DataFrame) :
  cols df !! "Close" = None →
  add_body sqrt df = (Raise (KeyError "Close"), df).
Proof.
  intros Hc. unfold add_body. apply run_col_missing. exact Hc.
Qed.

(** The exponential moving averages and the RSI [_add_technical_indicators]
    leaves, on a frame with the four columns it reads. *)
Lemma add_technical_indicators_columns (advanced : bool) (df : DataFrame)
  (c h l v : Series) :
  cols df !! "Close" = Some c →
  cols df !! "High" = Some h →
  cols df !! "Low" = Some l →
  cols df !! "Volume" = Some v →
  ∃ df', _add_technical_indicators sqrt advanced df = (Ok tt, df')
    ∧ nrows df' = nrows df
    ∧ cols df' !! "EMA_12" = Some (ewm_mean (alpha_of_span 12) true c)
    ∧ cols df' !! "EMA_26" = Some (ewm_mean (alpha_of_span 26) true c)
    ∧ cols df' !! "EMA_50" = Some (ewm_mean (alpha_of_span 50) true c)
    ∧ cols df' !! "RSI" = Some (_calculate_rsi c 14)
    ∧ cols df' !! "RSI_14" = Some (_calculate_rsi c 14).
Proof.
  intros Hc Hh Hl Hv.
  remember (nrows df) as n eqn:Hn. symmetry in Hn.
  unfold _add_technical_indicators. destruct advanced; run_all_statements.
Qed.

End Run.
(** ** OHLCV frames *)

Lemma ohlcv_frame_of (bars : list Bar) : ohlcv (frame_of bars) bars.
Proof. repeat split. Qed.

Lemma column_lookup (f : Bar → Q) (bars : list Bar) (i : nat) :
  column f bars !! i = (λ b, Fin (f b)) <$> bars !! i.
Proof. unfold column. apply list_lookup_fmap. Qed.

Lemma column_length (f : Bar → Q) (bars : list Bar) :
  length (column f bars) = length bars.
Proof. unfold column. apply length_fmap. Qed.

(** ** On-balance volume *)

Lemma obv_body_next (data : DataFrame) (c v obv : Series) (i : nat)
  (cp ci o vi : xnum) :
  cols data !! "Close" = Some c →
  cols data !! "Volume" = Some v →
  c !! (i - 1)%nat = Some cp → c !! i = Some ci →
  obv !! (i - 1)%nat = Some o → v !! i = Some vi →
  obv_body data i obv = Ok (<[i := obv_next cp ci o vi]> obv).
Proof.
  intros Hc Hv Hcp Hci Ho Hvi.
  unfold obv_body, getitem, iloc, obv_next.
  rewrite Hc, Hv. cbn. rewrite Hci, Hcp, Ho, Hvi. cbn.
  destruct (xgtb ci cp); [reflexivity |].
  destruct (xltb ci cp); reflexivity.
Qed.

(** The loop, from row [k] on: the rows before [k] are kept and every
    row from [k] on is one step after the row before it. *)
Lemma obv_loop_spec (data : DataFrame) (c v : Series) (m k : nat) (obv : Series) :
  cols data !! "Close" = Some c →
  cols data !! "Volume" = Some v →
  (1 ≤ k)%nat →
  length c = (k + m)%nat → length v = (k + m)%nat → length obv = (k + m)%nat →
  ∃ obv', obv_loop data (seq k m) obv = Ok obv'
    ∧ length obv' = (k + m)%nat
    ∧ (∀ j, (j < k)%nat → obv' !! j = obv !! j)
    ∧ (∀ j, (k ≤ j < k + m)%nat →
         ∃ cp ci o vi,
           c !! (j - 1)%nat = Some cp ∧ c !! j = Some ci
           ∧ obv' !! (j - 1)%nat = Some o ∧ v !! j = Some vi
           ∧ obv' !! j = Some (obv_next cp ci o vi)).
Proof.
  intros Hc Hv. revert k obv.
  induction m as [| m IH]; intros k obv Hk Lc Lv Lo.
  - exists obv. cbn. repeat split; [done | intros j Hj; lia].
  - destruct (lookup_lt_is_Some_2 c (k - 1)) as [cp Hcp]; [lia |].
    destruct (lookup_lt_is_Some_2 c k) as [ci Hci]; [lia |].
    destruct (lookup_lt_is_Some_2 obv (k - 1)) as [o Ho]; [lia |].
    destruct (lookup_lt_is_Some_2 v k) as [vi Hvi]; [lia |].
    cbn [seq obv_loop].
    rewrite (obv_body_next data c v obv k cp ci o vi) by assumption.
    cbn [mbind result_bind].
    destruct (IH (S k) (<[k := obv_next cp ci o vi]> obv))
      as (obv' & Hrun & Hlen & Hkeep & Hstep);
      [rewrite ?length_insert; lia .. |].
    exists obv'. split; [exact Hrun |]. split; [lia |]. split.
    + intros j Hj. rewrite Hkeep by lia.
      apply list_lookup_insert_ne. lia.
    + intros j Hj. destruct (decide (j = k)) as [-> | Hne].
      * exists cp, ci, o, vi. repeat split; try assumption.
        -- rewrite Hkeep by lia. rewrite list_lookup_insert_ne by lia. exact Ho.
        -- rewrite Hkeep by lia. apply list_lookup_insert_eq. lia.
      * apply Hstep. lia.
Qed.

(** [_calculate_obv] on a frame with at least one row: the first row is
    the first volume and every later row is one step after the row before
    it. *)
Lemma calculate_obv_spec (data : DataFrame) (c v : Series) :
  cols data !! "Close" = Some c →
  cols data !! "Volume" = Some v →
  length c = nrows data → length v = nrows data → (1 ≤ nrows data)%nat →
  ∃ obv, _calculate_obv data = Ok obv
    ∧ length obv = nrows data
    ∧ obv !! 0%nat = v !! 0%nat
    ∧ (∀ j, (1 ≤ j < nrows data)%nat →
         ∃ cp ci o vi,
           c !! (j - 1)%nat = Some cp ∧ c !! j = Some ci
           ∧ obv !! (j - 1)%nat = Some o ∧ v !! j = Some vi
           ∧ obv !! j = Some (obv_next cp ci o vi)).
Proof.
  intros Hc Hv Lc Lv Hn.
  destruct (lookup_lt_is_Some_2 v 0) as [v0 Hv0]; [lia |].
  unfold _calculate_obv, getitem, iloc. rewrite Hv. cbn [mbind result_bind].
  rewrite Hv0. cbn [mbind result_bind].
  destruct (obv_loop_spec data c v (nrows data - 1) 1
              (<[0%nat := v0]> (replicate (nrows data) NaN)) Hc Hv)
    as (obv & Hrun & Hlen & Hkeep & Hstep);
    [rewrite ?length_insert, ?length_replicate; lia .. |].
  exists obv. split; [exact Hrun |]. split; [lia |]. split.
  - rewrite Hkeep by lia.
    apply list_lookup_insert_eq. rewrite length_replicate. lia.
  - intros j Hj. apply Hstep. lia.
Qed.

(** ** Rows of shifted and differenced columns *)

Lemma shift_lookup_0 (s : Series) (x : xnum) :
  s !! 0%nat = Some x → shift s !! 0%nat = Some NaN.
Proof.
  intros H. unfold shift. destruct s; [discriminate | reflexivity].
Qed.

Lemma shift_lookup_S (s : Series) (i : nat) (x : xnum) :
  s !! S i = Some x → shift s !! S i = s !! i.
Proof.
  intros H. apply lookup_lt_Some in H. unfold shift.
  rewrite lookup_take_lt by lia. reflexivity.
Qed.

Lemma diff_lookup_0 (s : Series) (x : xnum) :
  s !! 0%nat = Some x → diff s !! 0%nat = Some NaN.
Proof.
  intros H. unfold diff, ssub. rewrite lookup_zip_with, H.
  rewrite (shift_lookup_0 s x H). cbn. destruct x; reflexivity.
Qed.

Lemma diff_lookup_S (s : Series) (i : nat) (x y : xnum) :
  s !! i = Some x → s !! S i = Some y → diff s !! S i = Some (xsub y x).
Proof.
  intros Hx Hy. unfold diff, ssub. rewrite lookup_zip_with, Hy.
  rewrite (shift_lookup_S s i y Hy), Hx. reflexivity.
Qed.

(** ** The running sum of a column without [NaN] *)

Lemma cumsum_from_lookup_0 (acc x : xnum) (s : Series) :
  s !! 0%nat = Some x → isnan x = false →
  cumsum_from acc s !! 0%nat = Some (xadd acc x).
Proof.
  destruct s as [| y s]; [discriminate |]. intros [= ->] Hx.
  cbn. rewrite Hx. reflexivity.
Qed.

Lemma cumsum_from_lookup_S (s : Series) :
  ∀ (acc : xnum) (i : nat) (o x : xnum),
    (∀ j y, s !! j = Some y → isnan y = false) →
    cumsum_from acc s !! i = Some o → s !! S i = Some x →
    cumsum_from acc s !! S i = Some (xadd o x).
Proof.
  induction s as [| y s IH]; intros acc i o x Hfin Ho Hx; [discriminate |].
  assert (Hy : isnan y = false) by (apply (Hfin 0%nat); reflexivity).
  assert (Hfin' : ∀ j z, s !! j = Some z → isnan z = false)
    by (intros j z Hz; apply (Hfin (S j)); exact Hz).
  cbn [cumsum_from] in *. rewrite Hy in *.
  destruct i as [| i].
  - cbn in Ho. injection Ho as <-. cbn.
    apply cumsum_from_lookup_0; [exact Hx | apply (Hfin' 0%nat); exact Hx].
  - cbn in Ho |- *. apply (IH _ i); assumption.
Qed.

Lemma ohlcv_not_empty (df : DataFrame) (bars : list Bar) (b0 : Bar) :
  ohlcv df bars → bars !! 0%nat = Some b0 → empty df = false.
Proof.
  intros (Hn & _ & _ & _ & Hc & _) H0. unfold empty.
  apply lookup_lt_Some in H0. apply orb_false_iff. split.
  - apply Nat.eqb_neq. lia.
  - apply bool_decide_eq_false. intros He. rewrite He in Hc. discriminate.
Qed.

Lemma obv_next_finite (cp ci o vi : Q) :
  obv_next (Fin cp) (Fin ci) (Fin o) (Fin vi)
  = Fin (if Qltb cp ci then o + vi else if Qltb ci cp then o + - vi else o).
Proof.
  unfold obv_next, xgtb, xltb. destruct (Qltb cp ci), (Qltb ci cp); reflexivity.
Qed.

(** A series that starts finite and whose every later row is a finite
    function of the row before it and of the two bars. *)
Lemma finite_steps (obv : Series) (bars : list Bar) (o : Q)
  (f : Bar → Bar → Q → Q) :
  obv !! 0%nat = Some (Fin o) →
  (∀ i prev cur q, bars !! i = Some prev → bars !! S i = Some cur →
     obv !! i = Some (Fin q) → obv !! S i = Some (Fin (f prev cur q))) →
  ∀ i prev cur, bars !! i = Some prev → bars !! S i = Some cur →
    ∃ q, obv !! i = Some (Fin q) ∧ obv !! S i = Some (Fin (f prev cur q)).
Proof.
  intros H0 Hstep.
  assert (Hfin : ∀ i b, bars !! i = Some b → ∃ q, obv !! i = Some (Fin q)).
  { induction i as [| i IH]; intros b Hb; [eauto |].
    destruct (lookup_lt_is_Some_2 bars i) as [prev Hprev];
      [apply lookup_lt_Some in Hb; lia |].
    destruct (IH prev Hprev) as [q Hq]. eauto. }
  intros i prev cur Hprev Hcur.
  destruct (Hfin i prev Hprev) as [q Hq]. eauto.
Qed.

Lemma loop_step_increments (obv : Series) (bars : list Bar) :
  (∀ i prev cur, bars !! i = Some prev → bars !! S i = Some cur →
     ∃ q, obv !! i = Some (Fin q) ∧ obv !! S i = Some (Fin (loop_step prev cur q))) →
  obv_increments obv bars.
Proof.
  intros H i prev cur Hp Hc. destruct (H i prev cur Hp Hc) as (q & Hq & Hn).
  eexists q, _. split; [exact Hq |]. split; [exact Hn |]. unfold loop_step.
  destruct (Qltb (close prev) (close cur)) eqn:E1;
    [apply Qltb_lt in E1 | apply Qltb_ge in E1];
    (destruct (Qltb (close cur) (close prev)) eqn:E2;
       [apply Qltb_lt in E2 | apply Qltb_ge in E2]);
    repeat split; intros; lra.
Qed.

Lemma cumsum_step_increments (obv : Series) (bars : list Bar) :
  (∀ i prev cur, bars !! i = Some prev → bars !! S i = Some cur →
     ∃ q, obv !! i = Some (Fin q)
          ∧ obv !! S i = Some (Fin (cumsum_step prev cur q))) →
  obv_increments obv bars.
Proof.
  intros H i prev cur Hp Hc. destruct (H i prev cur Hp Hc) as (q & Hq & Hn).
  eexists q, _. split; [exact Hq |]. split; [exact Hn |]. unfold cumsum_step.
  destruct (Qltb 0 (close cur + - close prev)) eqn:E1;
    [apply Qltb_lt in E1 | apply Qltb_ge in E1];
    (destruct (Qltb (close cur + - close prev) 0) eqn:E2;
       [apply Qltb_lt in E2 | apply Qltb_ge in E2]);
    repeat split; intros; lra.
Qed.

Lemma direction_finite (d : Q) :
  direction (Fin d) = Fin (if Qltb 0 d then 1 else if Qltb d 0 then -1 else 0).
Proof.
  unfold direction, xgtb, xltb. destruct (Qltb 0 d), (Qltb d 0); reflexivity.
Qed.

Lemma obv_terms_lookup_0 (bars : list Bar) (b0 : Bar) :
  bars !! 0%nat = Some b0 →
  obv_terms (column close bars) (column volume bars) !! 0%nat
  = Some (Fin (volume b0 * 0 * 0)).
Proof.
  intros H0. unfold obv_terms, smul, not_as_int, isna, fillna.
  rewrite !lookup_zip_with, !list_lookup_fmap.
  rewrite (diff_lookup_0 _ (Fin (close b0)))
    by (rewrite column_lookup, H0; reflexivity).
  rewrite column_lookup, H0. reflexivity.
Qed.

Lemma obv_terms_lookup_S (bars : list Bar) (i : nat) (prev cur : Bar) :
  bars !! i = Some prev → bars !! S i = Some cur →
  obv_terms (column close bars) (column volume bars) !! S i
  = Some (Fin (volume cur * 1
               * (if Qltb 0 (close cur + - close prev) then 1
                  else if Qltb (close cur + - close prev) 0 then -1 else 0))).
Proof.
  intros Hp Hc. unfold obv_terms, smul, not_as_int, isna, fillna.
  rewrite !lookup_zip_with, !list_lookup_fmap.
  rewrite (diff_lookup_S _ i (Fin (close prev)) (Fin (close cur)))
    by (rewrite column_lookup; (rewrite Hp || rewrite Hc); reflexivity).
  rewrite column_lookup, Hc. cbn.
  change (xsub (Fin (close cur)) (Fin (close prev)))
    with (Fin (close cur + - close prev)).
  cbn. rewrite direction_finite. reflexivity.
Qed.

Lemma obv_terms_finite (bars : list Bar) (j : nat) (y : xnum) :
  obv_terms (column close bars) (column volume bars) !! j = Some y →
  isnan y = false.
Proof.
  intros Hy.
  assert (Hj : (j < length bars)%nat).
  { apply lookup_lt_Some in Hy. unfold obv_terms, smul in Hy.
    rewrite !length_zip_with, column_length in Hy. lia. }
  destruct j as [| i].
  - destruct (lookup_lt_is_Some_2 bars 0) as [b0 H0]; [lia |].
    rewrite (obv_terms_lookup_0 bars b0 H0) in Hy. injection Hy as <-. reflexivity.
  - destruct (lookup_lt_is_Some_2 bars i) as [prev Hp]; [lia |].
    destruct (lookup_lt_is_Some_2 bars (S i)) as [cur Hc]; [lia |].
    rewrite (obv_terms_lookup_S bars i prev cur Hp Hc) in Hy.
    injection Hy as <-. reflexivity.
Qed.

(** C4, as the specification words it, fails on
    [calculate_technical_indicators]: on a single bar of volume 100 its
    OBV column starts at 0, not at the volume. *)
Lemma openbb_obv_starts_at_zero :
  let bar := {| open := 1; high := 2; low := 1; close := 2; volume := 100 |} in
  ∃ df' obv o,
    calculate_technical_indicators no_sqrt (Some (frame_of [bar])) = Ok (Some df')
    ∧ cols df' !! "OBV" = Some obv
    ∧ obv !! 0%nat = Some (Fin o)
    ∧ o == 0
    ∧ ¬ o == volume bar.
Proof.
  cbv zeta. eexists _, _, _.
  split; [vm_compute; reflexivity |].
  split; [vm_compute; reflexivity |].
  split; [vm_compute; reflexivity |].
  split; [reflexivity | discriminate].
Qed.

Section Obv.
Variable sqrt : xnum → xnum.

(** C4, amended: on every OHLCV series with at least one bar,
    [_calculate_obv] starts at the first bar's volume and the OBV column of
    [calculate_technical_indicators] starts at 0; in both, every later bar
    adds the bar's volume when the close rose, subtracts it when the close
    fell and keeps the value when the close is unchanged. *)
Theorem obv_first_bar_and_increments (df : DataFrame) (bars : list Bar) (b0 : Bar) :
  ohlcv df bars → bars !! 0%nat = Some b0 →
  (∃ obv, _calculate_obv df = Ok obv
          ∧ obv !! 0%nat = Some (Fin (volume b0))
          ∧ obv_increments obv bars)
  ∧ (∃ df' obv o,
        calculate_technical_indicators sqrt (Some df) = Ok (Some df')
        ∧ cols df' !! "OBV" = Some obv
        ∧ obv !! 0%nat = Some (Fin o) ∧ o == 0
        ∧ obv_increments obv bars).
Proof.
  intros Hdf H0. pose proof (ohlcv_not_empty df bars b0 Hdf H0) as Hne.
  destruct Hdf as (Hn & _ & Hh & Hl & Hc & Hv).
  assert (Hlen : (1 ≤ length bars)%nat) by (apply lookup_lt_Some in H0; lia).
  split.
  - destruct (calculate_obv_spec df _ _ Hc Hv) as (obv & Hrun & Hlo & Hfirst & Hstep);
      [rewrite ?column_length; lia .. |].
    rewrite column_lookup, H0 in Hfirst. cbn in Hfirst.
    exists obv. split; [exact Hrun |]. split; [exact Hfirst |].
    apply loop_step_increments.
    apply (finite_steps obv bars (volume b0) loop_step Hfirst).
    intros i prev cur q Hp Hcur Hq.
    destruct (Hstep (S i)) as (cp & ci & o & vi & Hcp & Hci & Ho & Hvi & Hnext);
      [apply lookup_lt_Some in Hcur; lia |].
    replace (S i - 1)%nat with i in * by lia.
    rewrite column_lookup, Hp in Hcp. rewrite column_lookup, Hcur in Hci.
    rewrite column_lookup, Hcur in Hvi. rewrite Hq in Ho.
    cbn in Hcp, Hci, Hvi. injection Hcp as <-. injection Hci as <-.
    injection Hvi as <-. injection Ho as <-.
    rewrite Hnext, obv_next_finite. reflexivity.
  - destruct (calculate_body_columns sqrt df _ _ _ _ Hc Hh Hl Hv)
      as (df' & Hrun & _ & _ & _ & _ & _ & Hobv & _).
    fold (obv_terms (column close bars) (column volume bars)) in Hobv.
    set (t := obv_terms (column close bars) (column volume bars)) in *.
    assert (Ht0 : cumsum t !! 0%nat = Some (Fin (0 + volume b0 * 0 * 0))).
    { unfold cumsum.
      rewrite (cumsum_from_lookup_0 _ (Fin (volume b0 * 0 * 0)));
        [reflexivity | apply obv_terms_lookup_0; exact H0 | reflexivity]. }
    exists df', (cumsum t), (0 + volume b0 * 0 * 0).
    split; [unfold calculate_technical_indicators; rewrite Hne, Hrun; reflexivity |].
    split; [exact Hobv |]. split; [exact Ht0 |]. split; [ring |].
    apply cumsum_step_increments.
    apply (finite_steps (cumsum t) bars _ cumsum_step Ht0).
    intros i prev cur q Hp Hcur Hq. unfold cumsum in *.
    rewrite (cumsum_from_lookup_S t _ i (Fin q) _ (obv_terms_finite bars) Hq
               (obv_terms_lookup_S bars i prev cur Hp Hcur)).
    reflexivity.
Qed.

End Obv.

Lemma obv_first_bar_and_increments_witness :
  let b0 := {| open := 1; high := 2; low := 1; close := 2; volume := 100 |} in
  let b1 := {| open := 2; high := 4; low := 2; close := 3; volume := 50 |} in
  let b2 := {| open := 3; high := 3; low := 1; close := 1; volume := 70 |} in
  (∃ obv, _calculate_obv (frame_of [b0; b1; b2]) = Ok obv
          ∧ obv !! 0%nat = Some (Fin (volume b0))
          ∧ obv_increments obv [b0; b1; b2])
  ∧ (∃ df' obv o,
        calculate_technical_indicators no_sqrt (Some (frame_of [b0; b1; b2]))
          = Ok (Some df')
        ∧ cols df' !! "OBV" = Some obv
        ∧ obv !! 0%nat = Some (Fin o) ∧ o == 0
        ∧ obv_increments obv [b0; b1; b2]).
Proof.
  intros b0 b1 b2.
  apply (obv_first_bar_and_increments no_sqrt (frame_of [b0; b1; b2])
           [b0; b1; b2] b0).
  - apply ohlcv_frame_of.
  - reflexivity.
Defined.
(** ** Pivot points *)

Lemma shift_column_lookup (f : Bar → Q) (bars : list Bar) (i : nat) (prev cur : Bar) :
  bars !! i = Some prev → bars !! S i = Some cur →
  shift (column f bars) !! S i = Some (Fin (f prev)).
Proof.
  intros Hp Hc.
  rewrite (shift_lookup_S _ i (Fin (f cur)))
    by (rewrite column_lookup, Hc; reflexivity).
  rewrite column_lookup, Hp. reflexivity.
Qed.

Ltac series_lookup :=
  unfold sdivc, scale, sadd, ssub;
  repeat first [rewrite list_lookup_fmap | rewrite lookup_zip_with].

(** C5, as the specification words it, fails on
    [calculate_technical_indicators]: its pivot at bar 1 is the mean of
    the high, low and close of bar 1 itself. *)
Lemma openbb_pivot_uses_current_bar :
  let b0 := {| open := 1; high := 3; low := 1; close := 2; volume := 10 |} in
  let b1 := {| open := 2; high := 9; low := 5; close := 7; volume := 10 |} in
  ∃ df' p,
    calculate_technical_indicators no_sqrt (Some (frame_of [b0; b1])) = Ok (Some df')
    ∧ cell df' "Pivot" 1 = Some (Fin p)
    ∧ p == (high b1 + low b1 + close b1) / 3
    ∧ ¬ p == (high b0 + low b0 + close b0) / 3.
Proof.
  cbv zeta. eexists _, _.
  split; [vm_compute; reflexivity |].
  split; [vm_compute; reflexivity |].
  split; [reflexivity | discriminate].
Qed.

Section Pivot.
Variable sqrt : xnum → xnum.

(** C5, amended: at every bar after the first, [_calculate_pivot_points]
    computes the seven levels from the high, low and close of the bar
    before; [calculate_technical_indicators] computes its Pivot, R1, S1,
    R2 and S2 by the same formulas from the high, low and close of the bar
    itself, and assigns no R3 and no S3. *)
Theorem pivot_levels_by_implementation (df : DataFrame) (bars : list Bar)
  (i : nat) (prev cur : Bar) :
  ohlcv df bars → bars !! i = Some prev → bars !! S i = Some cur →
  (∃ pp p r1 r2 r3 s1 s2 s3,
      _calculate_pivot_points df = Ok pp
      ∧ Pivot pp !! S i = Some (Fin p)
      ∧ R1 pp !! S i = Some (Fin r1)
      ∧ R2 pp !! S i = Some (Fin r2)
      ∧ R3 pp !! S i = Some (Fin r3)
      ∧ S1 pp !! S i = Some (Fin s1)
      ∧ S2 pp !! S i = Some (Fin s2)
      ∧ S3 pp !! S i = Some (Fin s3)
      ∧ pivot_levels prev p r1 r2 r3 s1 s2 s3)
  ∧ (∃ df' p r1 r2 s1 s2,
        calculate_technical_indicators sqrt (Some df) = Ok (Some df')
        ∧ cell df' "Pivot" (S i) = Some (Fin p)
        ∧ cell df' "R1" (S i) = Some (Fin r1)
        ∧ cell df' "R2" (S i) = Some (Fin r2)
        ∧ cell df' "S1" (S i) = Some (Fin s1)
        ∧ cell df' "S2" (S i) = Some (Fin s2)
        ∧ p == (high cur + low cur + close cur) / 3
        ∧ r1 == 2 * p - low cur
        ∧ r2 == p + (high cur - low cur)
        ∧ s1 == 2 * p - high cur
        ∧ s2 == p - (high cur - low cur)
        ∧ cols df' !! "R3" = cols df !! "R3"
        ∧ cols df' !! "S3" = cols df !! "S3").
Proof.
  intros Hdf Hp Hc.
  assert (Hne : empty df = false).
  { destruct (lookup_lt_is_Some_2 bars 0) as [b0 H0];
      [apply lookup_lt_Some in Hc; lia |].
    exact (ohlcv_not_empty df bars b0 Hdf H0). }
  destruct Hdf as (Hn & _ & Hh & Hl & Hcl & Hv).
  split.
  - unfold _calculate_pivot_points, getitem. rewrite Hh, Hl, Hcl.
    cbn [mbind result_bind].
    eexists _, _, _, _, _, _, _, _. split; [reflexivity |].
    cbn [Pivot R1 R2 R3 S1 S2 S3].
    repeat (split;
      [series_lookup;
       rewrite ?(shift_column_lookup _ bars i prev cur Hp Hc); reflexivity |]).
    unfold pivot_levels. repeat split; field.
  - destruct (calculate_body_columns sqrt df _ _ _ _ Hcl Hh Hl Hv)
      as (df' & Hrun & _ & _ & _ & _ & _ & _ & HP & HR1 & HS1 & HR2 & HS2 & HR3 & HS3).
    exists df'. eexists _, _, _, _, _.
    split; [unfold calculate_technical_indicators; rewrite Hne, Hrun; reflexivity |].
    unfold cell. rewrite HP, HR1, HS1, HR2, HS2.
    cbn [mbind option_bind].
    repeat (split;
      [series_lookup; rewrite !column_lookup, Hc; reflexivity |]).
    repeat split; try field; assumption.
Qed.

End Pivot.

Lemma pivot_levels_by_implementation_witness :
  let b0 := {| open := 1; high := 3; low := 1; close := 2; volume := 10 |} in
  let b1 := {| open := 2; high := 9; low := 5; close := 7; volume := 10 |} in
  (∃ pp p r1 r2 r3 s1 s2 s3,
      _calculate_pivot_points (frame_of [b0; b1]) = Ok pp
      ∧ Pivot pp !! 1%nat = Some (Fin p)
      ∧ R1 pp !! 1%nat = Some (Fin r1)
      ∧ R2 pp !! 1%nat = Some (Fin r2)
      ∧ R3 pp !! 1%nat = Some (Fin r3)
      ∧ S1 pp !! 1%nat = Some (Fin s1)
      ∧ S2 pp !! 1%nat = Some (Fin s2)
      ∧ S3 pp !! 1%nat = Some (Fin s3)
      ∧ pivot_levels b0 p r1 r2 r3 s1 s2 s3)
  ∧ (∃ df' p r1 r2 s1 s2,
        calculate_technical_indicators no_sqrt (Some (frame_of [b0; b1]))
          = Ok (Some df')
        ∧ cell df' "Pivot" 1 = Some (Fin p)
        ∧ cell df' "R1" 1 = Some (Fin r1)
        ∧ cell df' "R2" 1 = Some (Fin r2)
        ∧ cell df' "S1" 1 = Some (Fin s1)
        ∧ cell df' "S2" 1 = Some (Fin s2)
        ∧ p == (high b1 + low b1 + close b1) / 3
        ∧ r1 == 2 * p - low b1
        ∧ r2 == p + (high b1 - low b1)
        ∧ s1 == 2 * p - high b1
        ∧ s2 == p - (high b1 - low b1)
        ∧ cols df' !! "R3" = cols (frame_of [b0; b1]) !! "R3"
        ∧ cols df' !! "S3" = cols (frame_of [b0; b1]) !! "S3").
Proof.
  intros b0 b1.
  apply (pivot_levels_by_implementation no_sqrt (frame_of [b0; b1]) [b0; b1]
           0%nat b0 b1).
  - apply ohlcv_frame_of.
  - reflexivity.
  - reflexivity.
Defined.

(** ** Exponential moving averages *)

Lemma sum_upto_ext (i : nat) (f g : nat → Q) :
  (∀ k, (k ≤ i)%nat → f k == g k) → sum_upto i f == sum_upto i g.
Proof.
  induction i as [| i IH]; intros H; cbn.
  - apply H. lia.
  - rewrite IH by (intros k Hk; apply H; lia). rewrite (H (S i)) by lia. reflexivity.
Qed.

Lemma sum_upto_scale (i : nat) (w : Q) (f : nat → Q) :
  sum_upto i (λ k, w * f k) == w * sum_upto i f.
Proof.
  induction i as [| i IH]; cbn; [reflexivity |]. rewrite IH. ring.
Qed.

Lemma ew_num_S (alpha : Q) (xs : list Q) (i : nat) :
  ew_num alpha xs (S i) == (1 - alpha) * ew_num alpha xs i + nth (S i) xs 0.
Proof.
  unfold ew_num. cbn [sum_upto]. rewrite Nat.sub_diag. cbn [pow].
  rewrite <- sum_upto_scale.
  rewrite (sum_upto_ext i _ (λ k, (1 - alpha) * (pow (1 - alpha) (i - k) * nth k xs 0))).
  - ring.
  - intros k Hk. replace (S i - k)%nat with (S (i - k)) by lia. cbn [pow]. ring.
Qed.

Lemma ew_den_S (alpha : Q) (i : nat) :
  ew_den alpha (S i) == (1 - alpha) * ew_den alpha i + 1.
Proof.
  unfold ew_den. cbn [sum_upto]. rewrite Nat.sub_diag. cbn [pow].
  rewrite <- sum_upto_scale.
  rewrite (sum_upto_ext i _ (λ k, (1 - alpha) * pow (1 - alpha) (i - k))).
  - reflexivity.
  - intros k Hk. replace (S i - k)%nat with (S (i - k)) by lia. cbn [pow]. reflexivity.
Qed.

Lemma ew_den_pos (alpha : Q) (i : nat) : alpha <= 1 → 0 < ew_den alpha i.
Proof.
  intros Ha. induction i as [| i IH].
  - unfold ew_den. cbn. lra.
  - rewrite ew_den_S. assert (0 <= (1 - alpha) * ew_den alpha i); [| lra].
    apply Qmult_le_0_compat; lra.
Qed.

Lemma sign_pos (q : Q) : 0 < q → sign q = Gt.
Proof. intros H. unfold sign. apply Qgt_alt. exact H. Qed.

Lemma xdiv_pos (a b : Q) : 0 < b → xdiv (Fin a) (Fin b) = Fin (a / b).
Proof. intros H. unfold xdiv. rewrite (sign_pos b H). reflexivity. Qed.

Lemma ewm_step_finite (alpha : Q) (adjust : bool) (y d x : Q) :
  0 < d * old_wt_factor alpha + new_wt alpha adjust →
  ewm_step alpha adjust (Fin y) d (Fin x)
  = (Fin (ewm_next alpha adjust y d x),
     if adjust then d * old_wt_factor alpha + new_wt alpha adjust else 1).
Proof.
  intros Hpos. unfold ewm_step, ewm_next. cbn [isnan negb xeqb xmul xadd].
  destruct (negb (Qeq_bool y x)); [| reflexivity].
  rewrite (xdiv_pos _ _ Hpos). reflexivity.
Qed.

Lemma adjust_mean_step (y x n D w : Q) :
  0 < D → 0 < w * D + 1 → y == n / D →
  (w * D * y + 1 * x) / (w * D + 1) == (w * n + x) / (w * D + 1).
Proof.
  intros HD HD' Hy.
  assert (Hn : n == y * D) by (rewrite Hy; field; lra).
  rewrite Hn. field. lra.
Qed.

Lemma adjust_mean_same (y x n D w : Q) :
  0 < D → 0 < w * D + 1 → y == n / D → y == x →
  y == (w * n + x) / (w * D + 1).
Proof.
  intros HD HD' Hy Hx.
  assert (Hn : n == y * D) by (rewrite Hy; field; lra).
  rewrite Hn, <- Hx. field. lra.
Qed.

Lemma ewm_loop_adjust (alpha : Q) (xs : list Q) :
  alpha <= 1 →
  ∀ (rest : list Q) (i : nat) (y d : Q) (nobs : nat),
    drop (S i) xs = rest →
    y == ew_mean alpha xs i → d == ew_den alpha i →
    ∀ m x, rest !! m = Some x →
      ∃ y', ewm_loop alpha true (Fin y) d nobs (Fin <$> rest) !! m = Some (Fin y')
            ∧ y' == ew_mean alpha xs (S i + m).
Proof.
  intros Ha. induction rest as [| x0 rest IH]; intros i y d nobs Hdrop Hy Hd m x Hm;
    [discriminate |].
  assert (Hl0 : xs !! S i = Some x0).
  { rewrite <- (Nat.add_0_r (S i)), <- lookup_drop, Hdrop. reflexivity. }
  assert (Hx0 : nth (S i) xs 0 = x0) by (apply nth_lookup_Some; exact Hl0).
  assert (Hrest : drop (S (S i)) xs = rest).
  { rewrite (drop_S xs x0 (S i) Hl0) in Hdrop. injection Hdrop as ->. reflexivity. }
  pose proof (ew_den_pos alpha i Ha) as Hpos.
  pose proof (ew_den_pos alpha (S i) Ha) as Hpos'.
  pose proof (ew_den_S alpha i) as HdS.
  pose proof (ew_num_S alpha xs i) as HnS.
  assert (Hd' : d * old_wt_factor alpha + new_wt alpha true == ew_den alpha (S i)).
  { unfold old_wt_factor, new_wt. rewrite HdS, Hd. ring. }
  assert (Hnext : ewm_next alpha true y d x0 == ew_mean alpha xs (S i)).
  { unfold ewm_next, ew_mean, old_wt_factor, new_wt.
    destruct (Qeq_bool y x0) eqn:E; cbn [negb].
    - apply Qeq_bool_iff in E. rewrite HnS, HdS, Hx0.
      apply (adjust_mean_same y x0 _ _ _ Hpos); [| exact Hy | exact E].
      rewrite <- HdS. exact Hpos'.
    - rewrite HnS, HdS, Hx0, Hd.
      rewrite (Qmult_comm (ew_den alpha i) (1 - alpha)).
      apply (adjust_mean_step y x0 _ _ _ Hpos); [| exact Hy].
      rewrite <- HdS. exact Hpos'. }
  cbn [fmap list_fmap ewm_loop].
  change (isnan (Fin x0)) with false. cbv iota.
  rewrite ewm_step_finite by (rewrite Hd'; exact Hpos').
  replace (1 <=? nobs + 1)%nat with true by (symmetry; apply Nat.leb_le; lia).
  destruct m as [| m].
  - cbn. exists (ewm_next alpha true y d x0). split; [reflexivity |].
    rewrite Nat.add_0_r. exact Hnext.
  - cbn [lookup list_lookup].
    destruct (IH (S i) (ewm_next alpha true y d x0)
                (d * old_wt_factor alpha + new_wt alpha true) (nobs + 1)%nat
                Hrest Hnext Hd' m x Hm) as (y' & Hl & He).
    exists y'. split; [exact Hl |].
    replace (S i + S m)%nat with (S (S i) + m)%nat by lia. exact He.
Qed.

Lemma ewm_adjust_spec (alpha : Q) (xs : list Q) (i : nat) (x : Q) :
  alpha <= 1 → xs !! i = Some x →
  ∃ y, ewm_mean alpha true (Fin <$> xs) !! i = Some (Fin y)
       ∧ y == ew_mean alpha xs i.
Proof.
  intros Ha Hx. destruct xs as [| x0 rest]; [discriminate |].
  cbn [fmap list_fmap ewm_mean]. change (isnan (Fin x0)) with false. cbv iota.
  destruct i as [| m].
  - exists x0. split; [reflexivity |].
    unfold ew_mean, ew_num, ew_den. cbn. field.
  - cbn [lookup list_lookup] in Hx |- *.
    destruct (ewm_loop_adjust alpha (x0 :: rest) Ha rest 0 x0 1 1%nat) with (m := m) (x := x)
      as (y & Hl & Hy).
    + reflexivity.
    + unfold ew_mean, ew_num, ew_den. cbn. field.
    + unfold ew_den. cbn. reflexivity.
    + exact Hx.
    + exists y. split; [exact Hl | exact Hy].
Qed.

Lemma noadjust_step (alpha y x : Q) :
  ewm_next alpha false y 1 x == (1 - alpha) * y + alpha * x.
Proof.
  unfold ewm_next, old_wt_factor, new_wt.
  destruct (Qeq_bool y x) eqn:E; cbn [negb].
  - apply Qeq_bool_iff in E. rewrite <- E. ring.
  - field. lra.
Qed.

Lemma ewm_loop_noadjust (alpha : Q) (xs : list Q) :
  ∀ (rest : list Q) (i : nat) (y : Q) (nobs : nat),
    drop (S i) xs = rest →
    y == ema_rec alpha xs i →
    ∀ m x, rest !! m = Some x →
      ∃ y', ewm_loop alpha false (Fin y) 1 nobs (Fin <$> rest) !! m = Some (Fin y')
            ∧ y' == ema_rec alpha xs (S i + m).
Proof.
  induction rest as [| x0 rest IH]; intros i y nobs Hdrop Hy m x Hm;
    [discriminate |].
  assert (Hl0 : xs !! S i = Some x0).
  { rewrite <- (Nat.add_0_r (S i)), <- lookup_drop, Hdrop. reflexivity. }
  assert (Hx0 : nth (S i) xs 0 = x0) by (apply nth_lookup_Some; exact Hl0).
  assert (Hrest : drop (S (S i)) xs = rest).
  { rewrite (drop_S xs x0 (S i) Hl0) in Hdrop. injection Hdrop as ->. reflexivity. }
  assert (Hnext : ewm_next alpha false y 1 x0 == ema_rec alpha xs (S i)).
  { rewrite noadjust_step. cbn [ema_rec]. rewrite Hx0, Hy. reflexivity. }
  cbn [fmap list_fmap ewm_loop].
  change (isnan (Fin x0)) with false. cbv iota.
  rewrite ewm_step_finite by (unfold old_wt_factor, new_wt; lra).
  replace (1 <=? nobs + 1)%nat with true by (symmetry; apply Nat.leb_le; lia).
  destruct m as [| m].
  - cbn. exists (ewm_next alpha false y 1 x0). split; [reflexivity |].
    rewrite Nat.add_0_r. exact Hnext.
  - cbn [lookup list_lookup].
    destruct (IH (S i) (ewm_next alpha false y 1 x0) (nobs + 1)%nat
                Hrest Hnext m x Hm) as (y' & Hl & He).
    exists y'. split; [exact Hl |].
    replace (S i + S m)%nat with (S (S i) + m)%nat by lia. exact He.
Qed.

Lemma ewm_noadjust_spec (alpha : Q) (xs : list Q) (i : nat) (x : Q) :
  xs !! i = Some x →
  ∃ y, ewm_mean alpha false (Fin <$> xs) !! i = Some (Fin y)
       ∧ y == ema_rec alpha xs i.
Proof.
  intros Hx. destruct xs as [| x0 rest]; [discriminate |].
  cbn [fmap list_fmap ewm_mean]. change (isnan (Fin x0)) with false. cbv iota.
  destruct i as [| m].
  - exists x0. split; reflexivity.
  - cbn [lookup list_lookup] in Hx |- *.
    destruct (ewm_loop_noadjust alpha (x0 :: rest) rest 0 x0 1%nat) with (m := m) (x := x)
      as (y & Hl & Hy); [reflexivity | reflexivity | exact Hx |].
    exists y. split; [exact Hl | exact Hy].
Qed.

(** The two means depend on [alpha] only up to equality of rationals. *)
Lemma pow_proper (w w' : Q) (n : nat) : w == w' → pow w n == pow w' n.
Proof. intros H. induction n as [| n IH]; cbn; [reflexivity |]. rewrite IH, H. reflexivity. Qed.

Lemma ew_mean_proper (alpha alpha' : Q) (xs : list Q) (i : nat) :
  alpha == alpha' → ew_mean alpha xs i == ew_mean alpha' xs i.
Proof.
  intros H. unfold ew_mean, ew_num, ew_den.
  assert (Hw : 1 - alpha == 1 - alpha') by (rewrite H; reflexivity).
  rewrite (sum_upto_ext i (λ k, pow (1 - alpha) (i - k) * nth k xs 0)
             (λ k, pow (1 - alpha') (i - k) * nth k xs 0))
    by (intros k _; rewrite (pow_proper _ _ _ Hw); reflexivity).
  rewrite (sum_upto_ext i (λ k, pow (1 - alpha) (i - k))
             (λ k, pow (1 - alpha') (i - k)))
    by (intros k _; apply pow_proper, Hw).
  reflexivity.
Qed.

Lemma ema_rec_proper (alpha alpha' : Q) (xs : list Q) (i : nat) :
  alpha == alpha' → ema_rec alpha xs i == ema_rec alpha' xs i.
Proof.
  intros H. induction i as [| i IH]; cbn; [reflexivity |]. rewrite IH, H. reflexivity.
Qed.

Lemma column_as_fmap (f : Bar → Q) (bars : list Bar) :
  column f bars = Fin <$> (f <$> bars).
Proof. unfold column. rewrite <- list_fmap_compose. reflexivity. Qed.

(** A column of [ewm(span=n).mean()] and of [ewm(span=n, adjust=False).mean()]
    at a bar, for a span of at least 1. *)
Lemma ema_adjust_cell (span : Q) (bars : list Bar) (i : nat) (b : Bar) :
  1 <= span → bars !! i = Some b →
  ∃ y, ewm_mean (alpha_of_span span) true (column close bars) !! i = Some (Fin y)
       ∧ y == ew_mean (2 / (span + 1)) (close <$> bars) i.
Proof.
  intros Hs Hb. rewrite column_as_fmap.
  assert (Ha : alpha_of_span span == 2 / (span + 1))
    by (unfold alpha_of_span; field; lra).
  destruct (ewm_adjust_spec (alpha_of_span span) (close <$> bars) i (close b))
    as (y & Hl & Hy).
  - rewrite Ha. apply Qle_shift_div_r; lra.
  - rewrite list_lookup_fmap, Hb. reflexivity.
  - exists y. split; [exact Hl |]. rewrite Hy. apply ew_mean_proper, Ha.
Qed.

Lemma ema_noadjust_cell (span : Q) (bars : list Bar) (i : nat) (b : Bar) :
  1 <= span → bars !! i = Some b →
  ∃ y, ewm_mean (alpha_of_span span) false (column close bars) !! i = Some (Fin y)
       ∧ y == ema_rec (2 / (span + 1)) (close <$> bars) i.
Proof.
  intros Hs Hb. rewrite column_as_fmap.
  assert (Ha : alpha_of_span span == 2 / (span + 1))
    by (unfold alpha_of_span; field; lra).
  destruct (ewm_noadjust_spec (alpha_of_span span) (close <$> bars) i (close b))
    as (y & Hl & Hy).
  - rewrite list_lookup_fmap, Hb. reflexivity.
  - exists y. split; [exact Hl |]. rewrite Hy. apply ema_rec_proper, Ha.
Qed.

(** C6, as the specification words it, fails on
    [calculate_technical_indicators]: on the closes 2, 4 its EMA_12 at bar
    1 is 30/13, the recursion seeded with the first close, and the
    exponentially weighted mean of the two closes is 37/12. *)
Lemma openbb_ema_is_seeded_recursion :
  let b0 := {| open := 2; high := 2; low := 2; close := 2; volume := 10 |} in
  let b1 := {| open := 4; high := 4; low := 4; close := 4; volume := 10 |} in
  ∃ df' y,
    calculate_technical_indicators no_sqrt (Some (frame_of [b0; b1])) = Ok (Some df')
    ∧ cell df' "EMA_12" 1 = Some (Fin y)
    ∧ y == 30 / 13
    ∧ ew_mean (2 / (12 + 1)) [close b0; close b1] 1 == 37 / 12
    ∧ ¬ y == ew_mean (2 / (12 + 1)) [close b0; close b1] 1.
Proof.
  cbv zeta. eexists _, _.
  split; [vm_compute; reflexivity |].
  split; [vm_compute; reflexivity |].
  split; [reflexivity |]. split; [reflexivity | discriminate].
Qed.

Section Ema.
Variable sqrt : xnum → xnum.

(** C6, amended: with [alpha = 2 / (n + 1)], the EMA_n columns that
    [_add_technical_indicators] (n = 12, 26, 50) and
    [add_technical_indicators] (n = 12, 26) compute with [ewm(span=n)] are,
    at every bar, the exponentially weighted mean of the closes so far with
    weight [(1 - alpha)^(i - k)] on close [k]; the EMA_n columns of
    [calculate_technical_indicators] (n = 12, 26, 50), computed with
    [ewm(span=n, adjust=False)], are the recursion seeded with the first
    close. *)
Theorem ema_by_implementation (advanced : bool) (df : DataFrame) (bars : list Bar)
  (i : nat) (b : Bar) :
  ohlcv df bars → bars !! i = Some b →
  (∃ df' y12 y26 y50,
      _add_technical_indicators sqrt advanced df = (Ok tt, df')
      ∧ cell df' "EMA_12" i = Some (Fin y12)
      ∧ cell df' "EMA_26" i = Some (Fin y26)
      ∧ cell df' "EMA_50" i = Some (Fin y50)
      ∧ y12 == ew_mean (2 / (12 + 1)) (close <$> bars) i
      ∧ y26 == ew_mean (2 / (26 + 1)) (close <$> bars) i
      ∧ y50 == ew_mean (2 / (50 + 1)) (close <$> bars) i)
  ∧ (∃ df' y12 y26,
        add_technical_indicators sqrt df = (df', [])
        ∧ cell df' "EMA_12" i = Some (Fin y12)
        ∧ cell df' "EMA_26" i = Some (Fin y26)
        ∧ y12 == ew_mean (2 / (12 + 1)) (close <$> bars) i
        ∧ y26 == ew_mean (2 / (26 + 1)) (close <$> bars) i)
  ∧ (∃ df' y12 y26 y50,
        calculate_technical_indicators sqrt (Some df) = Ok (Some df')
        ∧ cell df' "EMA_12" i = Some (Fin y12)
        ∧ cell df' "EMA_26" i = Some (Fin y26)
        ∧ cell df' "EMA_50" i = Some (Fin y50)
        ∧ y12 == ema_rec (2 / (12 + 1)) (close <$> bars) i
        ∧ y26 == ema_rec (2 / (26 + 1)) (close <$> bars) i
        ∧ y50 == ema_rec (2 / (50 + 1)) (close <$> bars) i).
Proof.
  intros Hdf Hb.
  assert (Hne : empty df = false).
  { destruct (lookup_lt_is_Some_2 bars 0) as [b0 H0];
      [apply lookup_lt_Some in Hb; lia |].
    exact (ohlcv_not_empty df bars b0 Hdf H0). }
  destruct Hdf as (Hn & _ & Hh & Hl & Hc & Hv).
  destruct (ema_adjust_cell 12 bars i b) as (a12 & Ha12 & Ea12); [lra | exact Hb |].
  destruct (ema_adjust_cell 26 bars i b) as (a26 & Ha26 & Ea26); [lra | exact Hb |].
  destruct (ema_adjust_cell 50 bars i b) as (a50 & Ha50 & Ea50); [lra | exact Hb |].
  destruct (ema_noadjust_cell 12 bars i b) as (r12 & Hr12 & Er12); [lra | exact Hb |].
  destruct (ema_noadjust_cell 26 bars i b) as (r26 & Hr26 & Er26); [lra | exact Hb |].
  destruct (ema_noadjust_cell 50 bars i b) as (r50 & Hr50 & Er50); [lra | exact Hb |].
  split; [| split].
  - destruct (add_technical_indicators_columns sqrt advanced df _ _ _ _ Hc Hh Hl Hv)
      as (df' & Hrun & _ & H12 & H26 & H50 & _).
    exists df', a12, a26, a50. unfold cell. rewrite H12, H26, H50.
    cbn [mbind option_bind]. repeat split; assumption.
  - destruct (add_body_columns sqrt df _ _ Hc Hv) as (df' & Hrun & _ & H12 & H26 & _).
    exists df', a12, a26. unfold cell. rewrite H12, H26.
    cbn [mbind option_bind].
    split; [unfold add_technical_indicators; rewrite Hrun; reflexivity |].
    repeat split; assumption.
  - destruct (calculate_body_columns sqrt df _ _ _ _ Hc Hh Hl Hv)
      as (df' & Hrun & _ & H12 & H26 & H50 & _).
    exists df', r12, r26, r50. unfold cell. rewrite H12, H26, H50.
    cbn [mbind option_bind].
    split; [unfold calculate_technical_indicators; rewrite Hne, Hrun; reflexivity |].
    repeat split; assumption.
Qed.

End Ema.

Lemma ema_by_implementation_witness :
  let b0 := {| open := 2; high := 2; low := 2; close := 2; volume := 10 |} in
  let b1 := {| open := 4; high := 4; low := 4; close := 4; volume := 10 |} in
  let df := frame_of [b0; b1] in
  let xs := close <$> [b0; b1] in
  (∃ df' y12 y26 y50,
      _add_technical_indicators no_sqrt true df = (Ok tt, df')
      ∧ cell df' "EMA_12" 1 = Some (Fin y12)
      ∧ cell df' "EMA_26" 1 = Some (Fin y26)
      ∧ cell df' "EMA_50" 1 = Some (Fin y50)
      ∧ y12 == ew_mean (2 / (12 + 1)) xs 1
      ∧ y26 == ew_mean (2 / (26 + 1)) xs 1
      ∧ y50 == ew_mean (2 / (50 + 1)) xs 1)
  ∧ (∃ df' y12 y26,
        add_technical_indicators no_sqrt df = (df', [])
        ∧ cell df' "EMA_12" 1 = Some (Fin y12)
        ∧ cell df' "EMA_26" 1 = Some (Fin y26)
        ∧ y12 == ew_mean (2 / (12 + 1)) xs 1
        ∧ y26 == ew_mean (2 / (26 + 1)) xs 1)
  ∧ (∃ df' y12 y26 y50,
        calculate_technical_indicators no_sqrt (Some df) = Ok (Some df')
        ∧ cell df' "EMA_12" 1 = Some (Fin y12)
        ∧ cell df' "EMA_26" 1 = Some (Fin y26)
        ∧ cell df' "EMA_50" 1 = Some (Fin y50)
        ∧ y12 == ema_rec (2 / (12 + 1)) xs 1
        ∧ y26 == ema_rec (2 / (26 + 1)) xs 1
        ∧ y50 == ema_rec (2 / (50 + 1)) xs 1).
Proof.
  intros b0 b1 df xs.
  apply (ema_by_implementation no_sqrt true df [b0; b1] 1%nat b1).
  - apply ohlcv_frame_of.
  - reflexivity.
Defined.

(** ** Relative strength index *)

Lemma xsum_finite (l : list Q) (a : Q) :
  fold_left xadd (Fin <$> l) (Fin a) = Fin (fold_left Qplus l a).
Proof.
  revert a. induction l as [| x l IH]; intros a; [reflexivity |].
  cbn. apply IH.
Qed.

Lemma existsb_isnan_finite (l : list Q) : existsb isnan (Fin <$> l) = false.
Proof. induction l as [| x l IH]; [reflexivity | exact IH]. Qed.

(** A rolling mean over a window of finite values. *)
Lemma rolling_mean_finite (s : Series) (f : nat → Q) (w i : nat) :
  (0 < w)%nat → (w ≤ i + 1)%nat → (i < length s)%nat →
  (∀ k, (i + 1 - w ≤ k ≤ i)%nat → s !! k = Some (Fin (f k))) →
  rolling_mean w s !! i = Some (Fin (trailing_mean w f i)).
Proof.
  intros Hw Hwi Hi Hs.
  unfold rolling_mean, rolling. rewrite list_lookup_imap.
  destruct (lookup_lt_is_Some_2 s i Hi) as [x Hx]. rewrite Hx. cbn [fmap option_fmap option_map].
  replace (w <=? i + 1)%nat with true by (symmetry; apply Nat.leb_le; lia).
  assert (Hwin : window w i s = Fin <$> (f <$> seq (i + 1 - w) w)).
  { unfold window. apply list_eq. intros k.
    rewrite !list_lookup_fmap.
    destruct (decide (k < w)%nat) as [Hk | Hk].
    - rewrite lookup_take_lt by exact Hk. rewrite lookup_drop.
      rewrite lookup_seq_lt by exact Hk. cbn. apply Hs. lia.
    - rewrite lookup_take_ge by lia. rewrite lookup_seq_ge by lia. reflexivity. }
  rewrite Hwin, existsb_isnan_finite.
  unfold xmean, xsum. rewrite xsum_finite, !length_fmap, length_seq.
  unfold of_nat. rewrite xdiv_pos; [reflexivity |].
  change 0 with (inject_Z 0). rewrite <- Zlt_Qlt. lia.
Qed.

Lemma sum_nonneg (l : list Q) (a : Q) :
  0 <= a → (∀ x, x ∈ l → 0 <= x) → 0 <= fold_left Qplus l a.
Proof.
  revert a. induction l as [| x l IH]; intros a Ha Hl; [exact Ha |].
  cbn. apply IH.
  - assert (0 <= x) by (apply Hl; left). lra.
  - intros y Hy. apply Hl. right. exact Hy.
Qed.

Lemma trailing_mean_nonneg (w : nat) (f : nat → Q) (i : nat) :
  (0 < w)%nat → (∀ k, 0 <= f k) → 0 <= trailing_mean w f i.
Proof.
  intros Hw Hf. unfold trailing_mean, Py.sum.
  apply Qle_shift_div_l.
  - change 0 with (inject_Z 0). rewrite <- Zlt_Qlt. lia.
  - rewrite Qmult_0_l. apply sum_nonneg; [lra |].
    intros x Hx. apply list_elem_of_fmap in Hx as (k & -> & _). apply Hf.
Qed.

Lemma gain_at_nonneg (xs : list Q) (k : nat) : 0 <= gain_at xs k.
Proof.
  destruct k as [| j]; cbn; [lra |].
  destruct (Qltb 0 (nth (S j) xs 0 - nth j xs 0)) eqn:E; [| lra].
  apply Qltb_lt in E. lra.
Qed.

Lemma loss_at_nonneg (xs : list Q) (k : nat) : 0 <= loss_at xs k.
Proof.
  destruct k as [| j]; cbn; [lra |].
  destruct (Qltb (nth (S j) xs 0 - nth j xs 0) 0) eqn:E; [| lra].
  apply Qltb_lt in E. lra.
Qed.

(** The rows of the two series the rolling means of the RSI run over. *)
Lemma gains_lookup (xs : list Q) (k : nat) :
  (k < length xs)%nat →
  let delta := diff (Fin <$> xs) in
  where_ delta (sgtc delta 0) (Fin 0) !! k = Some (Fin (gain_at xs k)).
Proof.
  intros Hk delta. unfold where_, sgtc. rewrite lookup_zip_with, list_lookup_fmap.
  destruct (lookup_lt_is_Some_2 xs k Hk) as [x Hx].
  destruct k as [| j].
  - unfold delta.
    rewrite (diff_lookup_0 _ (Fin x)) by (rewrite list_lookup_fmap, Hx; reflexivity).
    reflexivity.
  - destruct (lookup_lt_is_Some_2 xs j) as [p Hp]; [lia |].
    unfold delta.
    rewrite (diff_lookup_S _ j (Fin p) (Fin x))
      by (rewrite list_lookup_fmap; (rewrite Hp || rewrite Hx); reflexivity).
    cbn. unfold gain_at.
    rewrite (nth_lookup_Some _ _ 0 _ Hx), (nth_lookup_Some _ _ 0 _ Hp).
    unfold xgtb, xltb. cbv zeta.
    change (x - p) with (x + - p).
    destruct (Qltb 0 (x + - p)); reflexivity.
Qed.

Lemma losses_lookup (xs : list Q) (k : nat) :
  (k < length xs)%nat →
  let delta := diff (Fin <$> xs) in
  sneg (where_ delta (sltc delta 0) (Fin 0)) !! k = Some (Fin (loss_at xs k)).
Proof.
  intros Hk delta. unfold sneg, where_, sltc.
  rewrite list_lookup_fmap, lookup_zip_with, list_lookup_fmap.
  destruct (lookup_lt_is_Some_2 xs k Hk) as [x Hx].
  destruct k as [| j].
  - unfold delta.
    rewrite (diff_lookup_0 _ (Fin x)) by (rewrite list_lookup_fmap, Hx; reflexivity).
    reflexivity.
  - destruct (lookup_lt_is_Some_2 xs j) as [p Hp]; [lia |].
    unfold delta.
    rewrite (diff_lookup_S _ j (Fin p) (Fin x))
      by (rewrite list_lookup_fmap; (rewrite Hp || rewrite Hx); reflexivity).
    cbn. unfold loss_at.
    rewrite (nth_lookup_Some _ _ 0 _ Hx), (nth_lookup_Some _ _ 0 _ Hp).
    unfold xltb. cbv zeta.
    change (x - p) with (x + - p).
    destruct (Qltb (x + - p) 0); reflexivity.
Qed.

Lemma sign_zero (q : Q) : q == 0 → sign q = Eq.
Proof. intros H. unfold sign. apply Qeq_alt. exact H. Qed.

(** The RSI of a mean gain [g] and a mean loss [l], both finite and not
    negative. *)
Lemma rsi_of_means (g l : Q) :
  0 <= g → 0 <= l →
  let rsi := xsub (Fin 100) (xdiv (Fin 100) (xadd (Fin 1) (xdiv (Fin g) (Fin l)))) in
  (0 < l → ∃ r, rsi = Fin r ∧ 0 <= r ∧ r <= 100 ∧ r == 100 - 100 / (1 + g / l))
  ∧ (l == 0 → 0 < g → ∃ r, rsi = Fin r ∧ r == 100).
Proof.
  intros Hg Hl rsi. unfold rsi. split.
  - intros Hpos.
    assert (Hr : 0 <= g / l) by (apply Qle_shift_div_l; lra).
    rewrite (xdiv_pos g l Hpos). cbn [xadd].
    rewrite xdiv_pos by lra. cbn [xsub xneg xadd].
    eexists. split; [reflexivity |].
    assert (H1 : 0 <= 100 / (1 + g / l)) by (apply Qle_shift_div_l; lra).
    assert (H2 : 100 / (1 + g / l) <= 100) by (apply Qle_shift_div_r; lra).
    repeat split; lra.
  - intros Hzero Hpos. unfold xdiv at 2.
    rewrite (sign_zero l Hzero), (sign_pos g Hpos).
    cbn. eexists. split; reflexivity.
Qed.

Section Rsi.
Variable sqrt : xnum → xnum.

(** C8: at every bar with 14 diffs before it, the two rolling means of
    the RSI are the means of the last 14 gains and of the last 14 losses;
    when the mean loss is positive the RSI lies in [0,100], and when the
    mean loss is 0 and the mean gain is positive the division by zero gives
    an infinite relative strength and the RSI is 100.  The RSI columns of
    [_add_technical_indicators], [add_technical_indicators] and
    [calculate_technical_indicators] are the series [_calculate_rsi]
    computes. *)
Theorem rsi_bounded_or_100 (df : DataFrame) (bars : list Bar) (i : nat) :
  ohlcv df bars → (14 ≤ i)%nat → (i < length bars)%nat →
  let closes := close <$> bars in
  let prices := column close bars in
  let delta := diff prices in
  let gain := trailing_mean 14 (gain_at closes) i in
  let loss := trailing_mean 14 (loss_at closes) i in
  rolling_mean 14 (where_ delta (sgtc delta 0) (Fin 0)) !! i = Some (Fin gain)
  ∧ rolling_mean 14 (sneg (where_ delta (sltc delta 0) (Fin 0))) !! i = Some (Fin loss)
  ∧ (0 < loss →
       ∃ r, _calculate_rsi prices 14 !! i = Some (Fin r) ∧ 0 <= r ∧ r <= 100
            ∧ r == 100 - 100 / (1 + gain / loss))
  ∧ (loss == 0 → 0 < gain →
       ∃ r, _calculate_rsi prices 14 !! i = Some (Fin r) ∧ r == 100)
  ∧ (∃ df', _add_technical_indicators sqrt true df = (Ok tt, df')
            ∧ cell df' "RSI" i = _calculate_rsi prices 14 !! i
            ∧ cell df' "RSI_14" i = _calculate_rsi prices 14 !! i)
  ∧ (∃ df', add_technical_indicators sqrt df = (df', [])
            ∧ cell df' "RSI" i = _calculate_rsi prices 14 !! i)
  ∧ (∃ df', calculate_technical_indicators sqrt (Some df) = Ok (Some df')
            ∧ cell df' "RSI" i = _calculate_rsi prices 14 !! i).
Proof.
  intros Hdf Hi14 Hi closes prices delta gain loss.
  assert (Hne : empty df = false).
  { destruct (lookup_lt_is_Some_2 bars 0) as [b0 H0]; [lia |].
    exact (ohlcv_not_empty df bars b0 Hdf H0). }
  destruct Hdf as (Hn & _ & Hh & Hl & Hc & Hv).
  assert (Hp : prices = Fin <$> closes) by apply column_as_fmap.
  assert (Hlen : length closes = length bars) by apply length_fmap.
  assert (Hgain : rolling_mean 14 (where_ delta (sgtc delta 0) (Fin 0)) !! i
                  = Some (Fin gain)).
  { apply rolling_mean_finite; [lia | lia | |].
    - apply lookup_lt_is_Some_1. unfold delta. rewrite Hp.
      rewrite (gains_lookup closes i) by lia. eauto.
    - intros k Hk. unfold delta. rewrite Hp. apply gains_lookup. lia. }
  assert (Hloss : rolling_mean 14 (sneg (where_ delta (sltc delta 0) (Fin 0))) !! i
                  = Some (Fin loss)).
  { apply rolling_mean_finite; [lia | lia | |].
    - apply lookup_lt_is_Some_1. unfold delta. rewrite Hp.
      rewrite (losses_lookup closes i) by lia. eauto.
    - intros k Hk. unfold delta. rewrite Hp. apply losses_lookup. lia. }
  assert (Hrsi : _calculate_rsi prices 14 !! i
                 = Some (xsub (Fin 100)
                           (xdiv (Fin 100) (xadd (Fin 1) (xdiv (Fin gain) (Fin loss)))))).
  { unfold _calculate_rsi, index_of_ratio, sdiv.
    rewrite list_lookup_fmap, lookup_zip_with.
    fold delta. rewrite Hgain, Hloss. reflexivity. }
  assert (Hg0 : 0 <= gain)
    by (apply trailing_mean_nonneg; [lia | apply gain_at_nonneg]).
  assert (Hl0 : 0 <= loss)
    by (apply trailing_mean_nonneg; [lia | apply loss_at_nonneg]).
  destruct (rsi_of_means gain loss Hg0 Hl0) as [Hbounded Hhundred].
  split; [exact Hgain |]. split; [exact Hloss |].
  split; [| split; [| split; [| split]]].
  - intros Hpos. destruct (Hbounded Hpos) as (r & Hr & Hrest).
    exists r. rewrite Hrsi, Hr. split; [reflexivity | exact Hrest].
  - intros Hz Hpos. destruct (Hhundred Hz Hpos) as (r & Hr & Hrest).
    exists r. rewrite Hrsi, Hr. split; [reflexivity | exact Hrest].
  - destruct (add_technical_indicators_columns sqrt true df _ _ _ _ Hc Hh Hl Hv)
      as (df' & Hrun & _ & _ & _ & _ & HR & HR14).
    exists df'. split; [exact Hrun |].
    unfold cell. rewrite HR, HR14. split; reflexivity.
  - destruct (add_body_columns sqrt df _ _ Hc Hv) as (df' & Hrun & _ & _ & _ & HR & _).
    exists df'. split; [unfold add_technical_indicators; rewrite Hrun; reflexivity |].
    unfold cell. rewrite HR. reflexivity.
  - destruct (calculate_body_columns sqrt df _ _ _ _ Hc Hh Hl Hv)
      as (df' & Hrun & _ & _ & _ & _ & HR & _).
    exists df'.
    split; [unfold calculate_technical_indicators; rewrite Hne, Hrun; reflexivity |].
    unfold cell. rewrite HR. reflexivity.
Qed.

End Rsi.

Lemma rsi_bounded_or_100_witness :
  let bars := flat_bar <$> [1; 2; 3; 4; 5; 6; 7; 8; 9; 10; 11; 12; 13; 14; 15; 14] in
  let df := frame_of bars in
  let i := 15%nat in
  let closes := close <$> bars in
  let prices := column close bars in
  let delta := diff prices in
  let gain := trailing_mean 14 (gain_at closes) i in
  let loss := trailing_mean 14 (loss_at closes) i in
  rolling_mean 14 (where_ delta (sgtc delta 0) (Fin 0)) !! i = Some (Fin gain)
  ∧ rolling_mean 14 (sneg (where_ delta (sltc delta 0) (Fin 0))) !! i = Some (Fin loss)
  ∧ (0 < loss →
       ∃ r, _calculate_rsi prices 14 !! i = Some (Fin r) ∧ 0 <= r ∧ r <= 100
            ∧ r == 100 - 100 / (1 + gain / loss))
  ∧ (loss == 0 → 0 < gain →
       ∃ r, _calculate_rsi prices 14 !! i = Some (Fin r) ∧ r == 100)
  ∧ (∃ df', _add_technical_indicators no_sqrt true df = (Ok tt, df')
            ∧ cell df' "RSI" i = _calculate_rsi prices 14 !! i
            ∧ cell df' "RSI_14" i = _calculate_rsi prices 14 !! i)
  ∧ (∃ df', add_technical_indicators no_sqrt df = (df', [])
            ∧ cell df' "RSI" i = _calculate_rsi prices 14 !! i)
  ∧ (∃ df', calculate_technical_indicators no_sqrt (Some df) = Ok (Some df')
            ∧ cell df' "RSI" i = _calculate_rsi prices 14 !! i).
Proof.
  intros bars df i.
  apply (rsi_bounded_or_100 no_sqrt df bars i).
  - apply ohlcv_frame_of.
  - unfold i. lia.
  - unfold i, bars. cbn. lia.
Defined.

(** The two cases of C8 on concrete closes: fifteen rises and one fall
    give a mean loss of 1/14 and an RSI of 650/7; sixteen rises give a mean
    loss of 0 and an RSI of 100. *)
Example rsi_examples :
  ∃ r1 r2,
    _calculate_rsi (Fin <$> [1; 2; 3; 4; 5; 6; 7; 8; 9; 10; 11; 12; 13; 14; 15; 14])
      14 !! 15%nat = Some (Fin r1)
    ∧ r1 == 650 / 7
    ∧ _calculate_rsi (Fin <$> [1; 2; 3; 4; 5; 6; 7; 8; 9; 10; 11; 12; 13; 14; 15; 16])
        14 !! 15%nat = Some (Fin r2)
    ∧ r2 == 100.
Proof.
  eexists _, _. split; [vm_compute; reflexivity |]. split; [reflexivity |].
  split; [vm_compute; reflexivity | reflexivity].
Qed.

(** ** Missing columns *)

Section Missing.
Variable sqrt : xnum → xnum.

(** C7, amended.  [calculate_technical_indicators] on a frame that is not
    empty raises a [KeyError] that names a missing column (the first it
    reads among Close, Low, High, Volume) and does not catch it; an empty
    frame comes back as it is.  [add_technical_indicators] raises nothing:
    it reads Close and Volume only; without Volume it assigns the price
    indicators and skips the two volume columns, with no warning; without
    Close it catches the [KeyError], reports it as a warning and returns
    the frame unchanged. *)
Theorem missing_column_by_implementation (df : DataFrame) :
  (empty df = true → calculate_technical_indicators sqrt (Some df) = Ok (Some df))
  ∧ (empty df = false → cols df !! "Close" = None →
       calculate_technical_indicators sqrt (Some df) = Raise (KeyError "Close"))
  ∧ (empty df = false → is_Some (cols df !! "Close") → cols df !! "Low" = None →
       calculate_technical_indicators sqrt (Some df) = Raise (KeyError "Low"))
  ∧ (empty df = false → is_Some (cols df !! "Close") → is_Some (cols df !! "Low") →
       cols df !! "High" = None →
       calculate_technical_indicators sqrt (Some df) = Raise (KeyError "High"))
  ∧ (empty df = false → is_Some (cols df !! "Close") → is_Some (cols df !! "Low") →
       is_Some (cols df !! "High") → cols df !! "Volume" = None →
       calculate_technical_indicators sqrt (Some df) = Raise (KeyError "Volume"))
  ∧ (cols df !! "Close" = None →
       add_technical_indicators sqrt df = (df, [KeyError "Close"]))
  ∧ (is_Some (cols df !! "Close") → cols df !! "Volume" = None →
       ∃ df', add_technical_indicators sqrt df = (df', [])
              ∧ is_Some (cols df' !! "SMA_20")
              ∧ is_Some (cols df' !! "EMA_12")
              ∧ is_Some (cols df' !! "RSI")
              ∧ cols df' !! "Volume_SMA" = cols df !! "Volume_SMA"
              ∧ cols df' !! "Volume_Ratio" = cols df !! "Volume_Ratio").
Proof.
  unfold calculate_technical_indicators.
  split; [intros ->; reflexivity |].
  split.
  { intros -> Hc. destruct (calculate_body_without_close sqrt df Hc) as [df' ->].
    reflexivity. }
  split.
  { intros -> [c Hc] Hl.
    destruct (calculate_body_without_low sqrt df c Hc Hl) as [df' ->]. reflexivity. }
  split.
  { intros -> [c Hc] [l Hl] Hh.
    destruct (calculate_body_without_high sqrt df c l Hc Hl Hh) as [df' ->]. reflexivity. }
  split.
  { intros -> [c Hc] [l Hl] [h Hh] Hv.
    destruct (calculate_body_without_volume sqrt df c l h Hc Hl Hh Hv) as [df' ->].
    reflexivity. }
  split.
  { intros Hc. unfold add_technical_indicators.
    rewrite (add_body_without_close sqrt df Hc). reflexivity. }
  intros [c Hc] Hv.
  destruct (add_body_without_volume sqrt df c Hc Hv)
    as (df' & Hrun & _ & H1 & H2 & _ & H3 & H4 & H5).
  exists df'. unfold add_technical_indicators. rewrite Hrun, H1, H2, H3.
  repeat split; eauto.
Qed.

End Missing.

(** C7, as the specification words it, fails on
    [add_technical_indicators]: on a frame with a Close column and no
    High, Low or Volume it returns the frame with the price indicators,
    without the volume indicators and without any error; on a frame with a
    Volume column and no Close it catches the [KeyError] and returns the
    frame as it was. *)
Lemma add_technical_indicators_raises_nothing :
  let only_close := mkDF 2 {[ "Close" := [Fin 1; Fin 2] ]} in
  let only_volume := mkDF 2 {[ "Volume" := [Fin 10; Fin 20] ]} in
  cols only_close !! "Volume" = None
  ∧ (∃ df', add_technical_indicators no_sqrt only_close = (df', [])
            ∧ is_Some (cols df' !! "SMA_20")
            ∧ cols df' !! "Volume_SMA" = None
            ∧ cols df' !! "Volume_Ratio" = None)
  ∧ add_technical_indicators no_sqrt only_volume = (only_volume, [KeyError "Close"]).
Proof.
  cbv zeta. split; [reflexivity |]. split.
  - eexists. split; [vm_compute; reflexivity |].
    split; [eexists; vm_compute; reflexivity |].
    split; vm_compute; reflexivity.
  - vm_compute. reflexivity.
Qed.

(** [calculate_technical_indicators] on a frame without a Low column. *)
Example calculate_without_low :
  calculate_technical_indicators no_sqrt
    (Some (mkDF 2 {[ "Close" := [Fin 1; Fin 2] ]}))
  = Raise (KeyError "Low").
Proof. vm_compute. reflexivity. Qed.
(** ** The worked examples on binary64 floats *)

(** The price-to-book test of the worked example of C1, and the mean of
    its valuation points: 5 < 8 * 0.7 also holds after rounding, and the
    mean of 80, 80, 90 is the float nearest to 250/3. *)
Example binary64_worked_example :
  (5 <? 8 * 0.7)%float = true
  ∧ mean_binary64 [80; 80; 90]%float = 83.333333333333329%float
  ∧ (mean_binary64 [80; 60; 90] <? mean_binary64 [80; 80; 90])%float = true.
Proof. repeat split; vm_compute; reflexivity. Qed.

(** The momentum score of the input of C2: 90 * 1.2 is 108 exactly. *)
Example binary64_momentum :
  mean_binary64 [90 * 1.2]%float = 108%float
  ∧ (100 <? mean_binary64 [90 * 1.2])%float = true
  ∧ (overall_binary64 50 50 50 (mean_binary64 [90 * 1.2]) 50 <=? 100)%float = true.
Proof. repeat split; vm_compute; reflexivity. Qed.

(** The overall score of five neutral categories (C10) is 50 exactly. *)
Example binary64_neutral : overall_binary64 50 50 50 50 50 = 50%float.
Proof. vm_compute. reflexivity. Qed.
(** ** Windows, lengths and extrema of finite series *)

Lemma rolling_length (w : nat) (agg : list xnum → xnum) (s : Series) :
  length (rolling w agg s) = length s.
Proof. unfold rolling. apply length_imap. Qed.

(** Until [w] rows exist a rolling aggregate is [NaN]. *)
Lemma rolling_warm_up (w : nat) (agg : list xnum → xnum) (s : Series) (i : nat)
  (x : xnum) :
  s !! i = Some x → (i + 1 < w)%nat → rolling w agg s !! i = Some NaN.
Proof.
  intros Hx Hi. unfold rolling. rewrite list_lookup_imap, Hx. cbn.
  replace (w <=? i + 1)%nat with false by (symmetry; apply Nat.leb_gt; lia).
  reflexivity.
Qed.

(** A window that holds a [NaN] gives [NaN]. *)
Lemma rolling_nan_in_window (w : nat) (agg : list xnum → xnum) (s : Series)
  (i k : nat) (x : xnum) :
  s !! i = Some x → s !! k = Some NaN → (i + 1 - w ≤ k ≤ i)%nat →
  rolling w agg s !! i = Some NaN.
Proof.
  intros Hx Hk Hik. unfold rolling. rewrite list_lookup_imap, Hx. cbn.
  destruct (w <=? i + 1)%nat eqn:Hw; [| reflexivity].
  apply Nat.leb_le in Hw.
  replace (existsb isnan (window w i s)) with true; [reflexivity |].
  symmetry. apply existsb_exists. exists NaN. split; [| reflexivity].
  apply list_elem_of_In. apply list_elem_of_lookup.
  exists (k - (i + 1 - w))%nat. unfold window.
  rewrite lookup_take_lt by lia. rewrite lookup_drop.
  replace (i + 1 - w + (k - (i + 1 - w)))%nat with k by lia. exact Hk.
Qed.







Lemma ewm_loop_length (alpha : Q) (adjust : bool) (vals : list xnum) :
  ∀ weighted old_wt nobs,
    length (ewm_loop alpha adjust weighted old_wt nobs vals) = length vals.
Proof.
  induction vals as [| cur rest IH]; intros weighted old_wt nobs; [reflexivity |].
  cbn [ewm_loop]. destruct (ewm_step alpha adjust weighted old_wt cur).
  cbn [length]. rewrite IH. reflexivity.
Qed.

Lemma ewm_mean_length (alpha : Q) (adjust : bool) (vals : Series) :
  length (ewm_mean alpha adjust vals) = length vals.
Proof.
  destruct vals as [| x rest]; [reflexivity |].
  cbn [ewm_mean length]. rewrite ewm_loop_length. reflexivity.
Qed.

Lemma shift_length (s : Series) : length (shift s) = length s.
Proof. unfold shift. rewrite length_take. cbn [length]. lia. Qed.

(** The last element of a series of [S i] rows is its row [i]. *)
Lemma iloc_last_lookup {A} (s : list A) (i : nat) (x : A) :
  length s = S i → s !! i = Some x → iloc_last s = Ok x.
Proof.
  intros Hlen Hx. unfold iloc_last. rewrite last_lookup, Hlen. cbn [pred].
  rewrite Hx. reflexivity.
Qed.

(** ** The ranges of the scores [analyze] returns *)

(** X1: What [analyze] returns has its scores in the ranges the blocks allow:
    valuation and financial health in [20, 90], growth in [20, 95],
    momentum in [16, 108], sentiment in [5, 95]; the overall score is the
    weighted sum of the five, so lies in [17.15, 94.7], and the
    recommendation is the one of the overall score. *)
Theorem analyze_score_bounds (format_f : nat → Q → string) (str : Q → string)
  (str_value : value → string) (data : gmap string value)
  (r : AnalysisResult) (i : Insights) :
  analyze_with_insights format_f str str_value data = Ok (r, i) →
  (20 <= valuation_score r ∧ valuation_score r <= 90)
  ∧ (20 <= financial_health_score r ∧ financial_health_score r <= 90)
  ∧ (20 <= growth_score r ∧ growth_score r <= 95)
  ∧ (16 <= momentum_score r ∧ momentum_score r <= 108)
  ∧ (5 <= sentiment_score r ∧ sentiment_score r <= 95)
  ∧ overall_score r
    == valuation_score r * 0.25 + financial_health_score r * 0.20
       + growth_score r * 0.25 + momentum_score r * 0.15
       + sentiment_score r * 0.15
  ∧ (17.15 <= overall_score r ∧ overall_score r <= 94.7)
  ∧ recommendation r = _get_recommendation (overall_score r).
Proof.
  intros Hfull.
  assert (H : analyze data = Ok r).
  { unfold analyze_with_insights in Hfull.
    destruct (analyze data) as [r' |]; [| discriminate Hfull].
    cbn [mbind result_bind] in Hfull.
    destruct (insights _ _ _ _ _ _ _ _); [| discriminate Hfull].
    cbn [mbind result_bind] in Hfull. congruence. }
  clear Hfull.
  pose proof (score_ranges data r H) as (Hv & Hh & Hg & Hm & Hs & _).
  assert (Hsum : overall_score r
    == valuation_score r * 0.25 + financial_health_score r * 0.20
       + growth_score r * 0.25 + momentum_score r * 0.15
       + sentiment_score r * 0.15
    ∧ recommendation r = _get_recommendation (overall_score r)).
  { unfold analyze in H.
    destruct (_analyze_valuation _ _); [| discriminate].
    destruct (_analyze_financial_health _ _); [| discriminate].
    destruct (_analyze_growth _ _); [| discriminate].
    destruct (_analyze_momentum _); [| discriminate].
    destruct (_analyze_sentiment _); [| discriminate].
    cbn [mbind result_bind] in H. injection H as <-. cbn. split; reflexivity. }
  destruct Hsum as [Hsum Hrec].
  repeat split; try tauto; try exact Hsum; try exact Hrec; lra.
Qed.

Lemma analyze_score_bounds_witness :
  ∃ r i,
    analyze_with_insights (λ _ _, "11.0") (λ _, "25") (λ _, "Unknown")
      {[ "performance_1w" := VNum 11; "trailingPE" := VNum 500 ]} = Ok (r, i)
  ∧ (20 <= valuation_score r ∧ valuation_score r <= 90)
  ∧ (20 <= financial_health_score r ∧ financial_health_score r <= 90)
  ∧ (20 <= growth_score r ∧ growth_score r <= 95)
  ∧ (16 <= momentum_score r ∧ momentum_score r <= 108)
  ∧ (5 <= sentiment_score r ∧ sentiment_score r <= 95)
  ∧ overall_score r
    == valuation_score r * 0.25 + financial_health_score r * 0.20
       + growth_score r * 0.25 + momentum_score r * 0.15
       + sentiment_score r * 0.15
  ∧ (17.15 <= overall_score r ∧ overall_score r <= 94.7)
  ∧ recommendation r = _get_recommendation (overall_score r).
Proof.
  eexists _, _. split; [vm_compute; reflexivity |].
  eapply (analyze_score_bounds (λ _ _, "11.0") (λ _, "25") (λ _, "Unknown")
            {[ "performance_1w" := VNum 11; "trailingPE" := VNum 500 ]}).
  vm_compute. reflexivity.
Defined.

(** ** What [analyze] accepts *)

(** Puts the typing of each key of a list in the context. *)
Ltac typed_keys HF :=
  repeat (apply Forall_cons in HF as [? HF]); clear HF;
  unfold typed_key in *;
  repeat match goal with
         | H : context [String.eqb ?a ?b] |- _ =>
             let c := eval vm_compute in (String.eqb a b) in
             change (String.eqb a b) with c in H; cbv iota in H
         end.

Ltac split_goal_values data :=
  repeat match goal with
         | |- context [data !! ?k] =>
             destruct (data !! k) as [[| ? | ?] |];
             cbn [number_or_None text_or_None] in *; try contradiction
         end.

Ltac split_goal_tests :=
  repeat (cbn;
          match goal with
          | |- context [Qltb ?a ?b] => destruct (Qltb a b)
          | |- context [Qeq_bool ?a ?b] => destruct (Qeq_bool a b)
          | |- context [String.eqb ?a ?b] => destruct (String.eqb a b)
          end);
  cbn.

(** A block raises nothing when the keys it reads are typed. *)
Lemma run_returns (b : block) (data : gmap string value) (bm : Benchmark)
  (points : list Q) :
  Forall (typed_key data) (reads b) → ∃ points', run b data bm points = Ok points'.
Proof.
  intros HF.
  destruct b; cbn [reads] in HF; typed_keys HF;
    unfold_blocks; split_goal_values data; split_goal_tests;
    eexists; reflexivity.
Qed.

Lemma run_all_returns (bs : list block) (data : gmap string value) (bm : Benchmark) :
  (∀ b, b ∈ bs → ∀ points, ∃ points', run b data bm points = Ok points') →
  ∀ points, ∃ points', run_all bs data bm points = Ok points'.
Proof.
  induction bs as [| b bs IH]; intros Hbs points; [eexists; reflexivity |].
  cbn [run_all].
  destruct (Hbs b (list_elem_of_here _ _) points) as [points1 ->].
  cbn [mbind result_bind]. apply IH.
  intros b' Hb'. apply Hbs. apply list_elem_of_further. exact Hb'.
Qed.

Ltac in_list :=
  repeat first [apply list_elem_of_here | apply list_elem_of_further].

(** When no block raises, [analyze] returns. *)
Lemma analyze_returns (data : gmap string value) :
  (∀ b bm points, b ∈ all_blocks → ∃ points', run b data bm points = Ok points') →
  ∃ r, analyze data = Ok r.
Proof.
  intros Hall. unfold analyze.
  set (bm := benchmarks_of _).
  destruct (categories_are_blocks data bm) as (-> & -> & -> & -> & ->).
  assert (Hrun : ∀ bs, (∀ b, b ∈ bs → b ∈ all_blocks) →
            ∃ points, run_all bs data bm [] = Ok points).
  { intros bs Hbs. apply run_all_returns. intros b Hb points.
    apply Hall. apply Hbs. exact Hb. }
  repeat match goal with
         | |- context [run_all ?bs data bm []] =>
             let p := fresh "points" in
             let H := fresh in
             assert (H : ∀ b, b ∈ bs → b ∈ all_blocks)
               by (intros b; unfold all_blocks; rewrite !elem_of_cons; tauto);
             destruct (Hrun bs H) as [p ->]; clear H;
             cbn [mbind result_bind]
         end.
  eexists. reflexivity.
Qed.

Lemma reads_scored (b : block) (k : string) : k ∈ reads b → k ∈ scored_metrics.
Proof.
  destruct b; cbn [reads]; intros Hk; unfold scored_metrics;
    repeat (apply elem_of_cons in Hk as [-> | Hk]; [in_list |]);
    apply elem_of_nil in Hk; contradiction.
Qed.

Lemma analyze_returns_on_typed_fundamentals_scores (data : gmap string value) :
  typed_fundamentals data → ∃ r, analyze data = Ok r.
Proof.
  intros HF. apply analyze_returns. intros b bm points _.
  apply run_returns. apply Forall_forall. intros k Hk.
  unfold typed_fundamentals in HF. rewrite Forall_forall in HF.
  apply HF. exact (reads_scored b k Hk).
Qed.

(** A block raises [TypeError] or [AttributeError], nothing else. *)
Lemma run_raises (b : block) (data : gmap string value) (bm : Benchmark)
  (points : list Q) (e : exn) :
  run b data bm points = Raise e → e = TypeError ∨ e = AttributeError.
Proof.
  intros H.
  destruct b; unfold_blocks_in H; split_values H data; split_tests H;
    first [ discriminate H
          | injection H as <-; left; reflexivity
          | injection H as <-; right; reflexivity ].
Qed.

Lemma run_all_raises (bs : list block) (data : gmap string value) (bm : Benchmark)
  (points : list Q) (e : exn) :
  run_all bs data bm points = Raise e → e = TypeError ∨ e = AttributeError.
Proof.
  revert points. induction bs as [| b bs IH]; intros points H; [discriminate H |].
  cbn [run_all] in H. destruct (run b data bm points) as [points1 | e1] eqn:Hb.
  - exact (IH points1 H).
  - cbn [mbind result_bind] in H. injection H as <-.
    exact (run_raises b data bm points e1 Hb).
Qed.

(** A non-empty string where a block compares with numbers makes the block
    raise [TypeError]. *)
Lemma run_on_text (k : string) (b : block) (data : gmap string value)
  (bm : Benchmark) (points : list Q) (s : string) :
  (k, b) ∈ compared_metrics → data !! k = Some (VStr s) → s ≠ EmptyString →
  run b data bm points = Raise TypeError.
Proof.
  intros Hk Hs Hne. apply String.eqb_neq in Hne.
  unfold compared_metrics in Hk.
  repeat (apply elem_of_cons in Hk as [[= -> ->] | Hk];
          [unfold_blocks; rewrite Hs; cbn; rewrite ?Hne; reflexivity |]).
  apply elem_of_nil in Hk. contradiction.
Qed.

(** Blocks that follow a block that raises are not run. *)
Lemma run_all_stops (bs : list block) (b : block) (data : gmap string value)
  (bm : Benchmark) :
  b ∈ bs → (∀ points, run b data bm points = Raise TypeError) →
  ∀ points, ∃ e, run_all bs data bm points = Raise e.
Proof.
  intros Hb Hraise. induction bs as [| b' bs IH]; intros points.
  - apply elem_of_nil in Hb. contradiction.
  - cbn [run_all]. destruct (run b' data bm points) as [points1 | e1] eqn:Hb'.
    + cbn [mbind result_bind]. apply elem_of_cons in Hb as [-> | Hb].
      * rewrite Hraise in Hb'. discriminate Hb'.
      * exact (IH Hb points1).
    + eexists. reflexivity.
Qed.

(** The scores raise when a metric a block compares with numbers holds a
    non-empty string. *)
Lemma scores_raise_on_text_metric (data : gmap string value)
  (k : string) (b : block) (s : string) :
  (k, b) ∈ compared_metrics → data !! k = Some (VStr s) → s ≠ EmptyString →
  analyze data = Raise TypeError ∨ analyze data = Raise AttributeError.
Proof.
  intros Hk Hs Hne.
  assert (Hraise : ∀ points,
             run b data (benchmarks_of (get_default data "sector" (VStr "Unknown")))
               points = Raise TypeError)
    by (intros points; exact (run_on_text k b data _ points s Hk Hs Hne)).
  unfold analyze. set (bm := benchmarks_of _) in *.
  destruct (categories_are_blocks data bm) as (-> & -> & -> & -> & ->).
  repeat match goal with
         | |- context [run_all ?bs data bm []] =>
             let H := fresh "Hrun" in
             destruct (run_all bs data bm []) as [? | ?] eqn:H;
             cbn [mbind result_bind];
             [| apply run_all_raises in H as [-> | ->]; [left | right]; reflexivity]
         end.
  exfalso. clear Hs Hne. unfold compared_metrics in Hk.
  repeat (apply elem_of_cons in Hk as [[= -> ->] | Hk];
          [match goal with
           | Hr : (∀ points, run ?b0 data bm points = Raise TypeError),
             H : run_all ?bs data bm [] = Ok _ |- _ =>
               let Hb := fresh in
               let e := fresh in
               let He := fresh in
               assert (Hb : b0 ∈ bs) by in_list;
               destruct (run_all_stops bs b0 data bm Hb Hr []) as [e He];
               rewrite He in H; discriminate H
           end |]).
  apply elem_of_nil in Hk. contradiction.
Qed.

(** X2: [analyze] does not survive a text where it expects a number: when one
    of the metrics of [compared_metrics] holds a non-empty string (what a
    feed sends as "N/A" or "Infinity"), [analyze] raises [TypeError] or
    [AttributeError]; no score and no insight is returned. *)
Theorem analyze_raises_on_text_metric (format_f : nat → Q → string)
  (str : Q → string) (str_value : value → string) (data : gmap string value)
  (k : string) (b : block) (s : string) :
  (k, b) ∈ compared_metrics → data !! k = Some (VStr s) → s ≠ EmptyString →
  analyze_with_insights format_f str str_value data = Raise TypeError
  ∨ analyze_with_insights format_f str str_value data = Raise AttributeError.
Proof.
  intros Hk Hs Hne. unfold analyze_with_insights.
  destruct (scores_raise_on_text_metric data k b s Hk Hs Hne) as [-> | ->];
    [left | right]; reflexivity.
Qed.

Lemma analyze_raises_on_text_metric_witness :
  analyze_with_insights (λ _ _, "1.0") (λ _, "1") (λ _, "Unknown")
    {[ "pegRatio" := VStr "Infinity" ]} = Raise TypeError
  ∨ analyze_with_insights (λ _ _, "1.0") (λ _, "1") (λ _, "Unknown")
      {[ "pegRatio" := VStr "Infinity" ]} = Raise AttributeError.
Proof.
  apply (analyze_raises_on_text_metric (λ _ _, "1.0") (λ _, "1") (λ _, "Unknown")
           {[ "pegRatio" := VStr "Infinity" ]} "pegRatio" PegRatio "Infinity").
  - unfold compared_metrics. in_list.
  - reflexivity.
  - discriminate.
Defined.

(** ** The keys [analyze] reads *)

Ltac rewrite_agreed data data' :=
  unfold get, get_default;
  repeat match goal with
         | H : data !! _ = data' !! _ |- _ => rewrite ?H; clear H
         end;
  reflexivity.

Lemma scores_read_analyzed_keys (data data' : gmap string value) :
  Forall (λ k, data !! k = data' !! k) analyzed_keys →
  analyze data = analyze data'.
Proof.
  intros HF. unfold analyzed_keys, scored_metrics in HF.
  repeat (apply Forall_cons in HF as [? HF]). clear HF.
  unfold analyze, _analyze_valuation, _analyze_financial_health, _analyze_growth,
    _analyze_momentum, _analyze_sentiment.
  unfold pe_points, pb_points, peg_points, forward_pe_points, roe_points,
    roa_points, debt_equity_points, margin_points, fcf_points, rev_growth_points,
    earnings_growth_points, gross_margin_points, perf_loop, perf_points,
    ma_points, rec_points, target_points, inst_points, short_points.
  rewrite_agreed data data'.
Qed.

Lemma insights_read_analyzed_keys (data data' : gmap string value)
  (bm : Benchmark) (sec : value) (format_f : nat → Q → string) (str : Q → string)
  (str_value : value → string) (overall : Q) (rec : Recommendation) :
  Forall (λ k, data !! k = data' !! k) analyzed_keys →
  insights data bm sec format_f str str_value overall rec
  = insights data' bm sec format_f str str_value overall rec.
Proof.
  intros HF. unfold analyzed_keys, scored_metrics in HF.
  repeat (apply Forall_cons in HF as [? HF]). clear HF.
  unfold insights, _find_strengths_weaknesses, _find_red_flags, _find_catalysts,
    _sector_comparison.
  unfold pe_insight, rev_growth_insight, margin_insight, roe_insight, peg_insight,
    debt_flag, cash_flow_flag, short_flag, revenue_flag, trend_flag,
    momentum_catalyst, upside_catalyst, value_catalyst, margin_catalyst,
    rating_catalyst, pe_comparison, margin_comparison, growth_comparison.
  rewrite_agreed data data'.
Qed.

(** X3: [analyze] reads the keys of [analyzed_keys] and no other: two mappings
    that agree on them get the same scores and the same insights, or the
    same exception. *)
Theorem analyze_reads_analyzed_keys (format_f : nat → Q → string)
  (str : Q → string) (str_value : value → string)
  (data data' : gmap string value) :
  (∀ k, k ∈ analyzed_keys → data !! k = data' !! k) →
  analyze_with_insights format_f str str_value data
  = analyze_with_insights format_f str str_value data'.
Proof.
  intros Hagree.
  assert (HF : Forall (λ k, data !! k = data' !! k) analyzed_keys)
    by (apply Forall_forall; exact Hagree).
  unfold analyze_with_insights.
  rewrite (scores_read_analyzed_keys data data' HF).
  destruct (analyze data') as [r |]; [| reflexivity].
  cbn [mbind result_bind].
  rewrite (insights_read_analyzed_keys data data' _ _ _ _ _ _ _ HF).
  reflexivity.
Qed.

Lemma analyze_reads_analyzed_keys_witness :
  analyze_with_insights (λ _ _, "20.0") (λ _, "25") (λ _, "Unknown")
    {[ "trailingPE" := VNum 20 ]}
  = analyze_with_insights (λ _ _, "20.0") (λ _, "25") (λ _, "Unknown")
      {[ "trailingPE" := VNum 20; "longName" := VStr "Example Inc." ]}.
Proof.
  apply (analyze_reads_analyzed_keys (λ _ _, "20.0") (λ _, "25") (λ _, "Unknown")
           {[ "trailingPE" := VNum 20 ]}
           {[ "trailingPE" := VNum 20; "longName" := VStr "Example Inc." ]}).
  intros k Hk. unfold analyzed_keys, scored_metrics in Hk.
  repeat (apply elem_of_cons in Hk as [-> | Hk]; [vm_compute; reflexivity |]).
  apply elem_of_nil in Hk. contradiction.
Defined.

(** ** The insights of [analyze] *)

(** The average P/E of every row of the benchmark table, and of the
    default row, is positive. *)
Lemma benchmarks_pe_avg (v : value) : 0 < pe_avg (benchmarks_of v).
Proof.
  destruct v as [| q | s]; [reflexivity | reflexivity |].
  unfold benchmarks_of, SECTOR_BENCHMARKS. cbn [list_to_map foldr fst snd uncurry].
  repeat (rewrite lookup_insert; case_decide; [reflexivity |]).
  rewrite lookup_empty. reflexivity.
Qed.

Section InsightsReturn.
Variable data : gmap string value.
Variable bm : Benchmark.
Variable sec : value.
Variable format_f : nat → Q → string.
Variable str : Q → string.
Variable str_value : value → string.

Ltac insight_cases :=
  unfold and_then, format_value, abs, get, get_default, Py.div; cbv zeta;
  try change (Qeq_bool 1000000000 0) with false;
  split_goal_values data; split_goal_tests.

Ltac pair_block_returns HF :=
  typed_keys HF; intros [strengths weaknesses];
  insight_cases; eexists; reflexivity.

Ltac list_block_returns HF :=
  typed_keys HF; intros items;
  insight_cases; eexists; reflexivity.

Lemma pe_insight_returns :
  Forall (typed_key data) ["trailingPE"] →
  ∀ sw, ∃ sw', pe_insight data bm format_f str sw = Ok sw'.
Proof. intros HF. unfold pe_insight. pair_block_returns HF. Qed.

Lemma rev_growth_insight_returns :
  Forall (typed_key data) ["revenueGrowth"] →
  ∀ sw, ∃ sw', rev_growth_insight data bm format_f str sw = Ok sw'.
Proof. intros HF. unfold rev_growth_insight. pair_block_returns HF. Qed.

Lemma margin_insight_returns :
  Forall (typed_key data) ["profitMargins"] →
  ∀ sw, ∃ sw', margin_insight data bm format_f str sw = Ok sw'.
Proof. intros HF. unfold margin_insight. pair_block_returns HF. Qed.

Lemma roe_insight_returns :
  Forall (typed_key data) ["returnOnEquity"] →
  ∀ sw, ∃ sw', roe_insight data bm format_f str sw = Ok sw'.
Proof. intros HF. unfold roe_insight. pair_block_returns HF. Qed.

Lemma peg_insight_returns :
  Forall (typed_key data) ["pegRatio"] →
  ∀ sw, ∃ sw', peg_insight data format_f sw = Ok sw'.
Proof. intros HF. unfold peg_insight. pair_block_returns HF. Qed.

Lemma debt_flag_returns :
  Forall (typed_key data) ["debtToEquity"] →
  ∀ flags, ∃ flags', debt_flag data bm format_f str flags = Ok flags'.
Proof. intros HF. unfold debt_flag. list_block_returns HF. Qed.

Lemma cash_flow_flag_returns :
  Forall (typed_key data) ["freeCashflow"] →
  ∀ flags, ∃ flags', cash_flow_flag data format_f flags = Ok flags'.
Proof. intros HF. unfold cash_flow_flag. list_block_returns HF. Qed.

Lemma short_flag_returns :
  Forall (typed_key data) ["shortPercentOfFloat"] →
  ∀ flags, ∃ flags', short_flag data format_f flags = Ok flags'.
Proof. intros HF. unfold short_flag. list_block_returns HF. Qed.

Lemma revenue_flag_returns :
  Forall (typed_key data) ["revenueGrowth"] →
  ∀ flags, ∃ flags', revenue_flag data format_f flags = Ok flags'.
Proof. intros HF. unfold revenue_flag. list_block_returns HF. Qed.

Lemma trend_flag_returns :
  Forall (typed_key data) ["twoHundredDayAverage"; "currentPrice"] →
  ∀ flags, ∃ flags', trend_flag data format_f flags = Ok flags'.
Proof. intros HF. unfold trend_flag. list_block_returns HF. Qed.

Lemma momentum_catalyst_returns :
  Forall (typed_key data) ["performance_3m"] →
  ∀ catalysts, ∃ catalysts', momentum_catalyst data format_f catalysts = Ok catalysts'.
Proof. intros HF. unfold momentum_catalyst. list_block_returns HF. Qed.

Lemma upside_catalyst_returns :
  Forall (typed_key data) ["targetMeanPrice"; "currentPrice"] →
  ∀ catalysts, ∃ catalysts', upside_catalyst data format_f catalysts = Ok catalysts'.
Proof. intros HF. unfold upside_catalyst. list_block_returns HF. Qed.

Lemma value_catalyst_returns :
  Forall (typed_key data) ["pegRatio"; "revenueGrowth"] →
  ∀ catalysts, ∃ catalysts', value_catalyst data format_f catalysts = Ok catalysts'.
Proof. intros HF. unfold value_catalyst. list_block_returns HF. Qed.

Lemma margin_catalyst_returns :
  Forall (typed_key data) ["grossMargins"] →
  ∀ catalysts, ∃ catalysts', margin_catalyst data format_f catalysts = Ok catalysts'.
Proof. intros HF. unfold margin_catalyst. list_block_returns HF. Qed.

Lemma rating_catalyst_returns (catalysts : list string) :
  ∃ catalysts', rating_catalyst data catalysts = Ok catalysts'.
Proof.
  unfold rating_catalyst.
  repeat case_match; eexists; reflexivity.
Qed.

Ltac comparison_returns HF :=
  typed_keys HF; intros comparison;
  insight_cases;
  eexists; (split; [reflexivity |]);
  first [left; reflexivity | right; eexists; reflexivity].

Lemma pe_comparison_returns :
  Qeq_bool (pe_avg bm) 0 = false →
  Forall (typed_key data) ["trailingPE"] →
  ∀ comparison, ∃ comparison',
    pe_comparison data bm format_f str comparison = Ok comparison'
    ∧ (comparison' = comparison ∨ ∃ t, comparison' = <["P/E" := t]> comparison).
Proof.
  intros Hpe HF. unfold pe_comparison, Py.div. cbv zeta. rewrite Hpe.
  comparison_returns HF.
Qed.

Lemma margin_comparison_returns :
  Forall (typed_key data) ["profitMargins"] →
  ∀ comparison, ∃ comparison',
    margin_comparison data bm format_f str comparison = Ok comparison'
    ∧ (comparison' = comparison ∨ ∃ t, comparison' = <["Margins" := t]> comparison).
Proof. intros HF. unfold margin_comparison. comparison_returns HF. Qed.

Lemma growth_comparison_returns :
  Forall (typed_key data) ["revenueGrowth"] →
  ∀ comparison, ∃ comparison',
    growth_comparison data bm format_f str comparison = Ok comparison'
    ∧ (comparison' = comparison ∨ ∃ t, comparison' = <["Growth" := t]> comparison).
Proof. intros HF. unfold growth_comparison. comparison_returns HF. Qed.

(** The keys of typed fundamentals are typed. *)
Lemma typed_sub (keys : list string) :
  typed_fundamentals data → (∀ k, k ∈ keys → k ∈ scored_metrics) →
  Forall (typed_key data) keys.
Proof.
  intros HF Hsub. apply Forall_forall. intros k Hk.
  unfold typed_fundamentals in HF. rewrite Forall_forall in HF.
  apply HF. apply Hsub. exact Hk.
Qed.

Ltac scored_keys :=
  intros k Hk; unfold scored_metrics;
  repeat (apply elem_of_cons in Hk as [-> | Hk]; [in_list |]);
  apply elem_of_nil in Hk; contradiction.

(** On typed fundamentals, and with benchmarks whose average P/E is not
    zero, the insight functions raise nothing. *)
Lemma insights_return (overall : Q) (rec : Recommendation) :
  typed_fundamentals data → Qeq_bool (pe_avg bm) 0 = false →
  ∃ i, insights data bm sec format_f str str_value overall rec = Ok i
       ∧ (length (strengths i) ≤ 3)%nat ∧ (length (weaknesses i) ≤ 3)%nat
       ∧ (length (red_flags i) ≤ 4)%nat ∧ (length (catalysts i) ≤ 4)%nat
       ∧ ∀ k, is_Some (sector_comparison i !! k) → k ∈ ["P/E"; "Margins"; "Growth"].
Proof.
  intros HF Hpe. unfold insights.
  unfold _find_strengths_weaknesses.
  destruct (pe_insight_returns (typed_sub ["trailingPE"] HF ltac:(scored_keys)) ([], []))
    as [sw1 ->]. cbn [mbind result_bind].
  destruct (rev_growth_insight_returns
              (typed_sub ["revenueGrowth"] HF ltac:(scored_keys)) sw1) as [sw2 ->].
  cbn [mbind result_bind].
  destruct (margin_insight_returns
              (typed_sub ["profitMargins"] HF ltac:(scored_keys)) sw2) as [sw3 ->].
  cbn [mbind result_bind].
  destruct (roe_insight_returns
              (typed_sub ["returnOnEquity"] HF ltac:(scored_keys)) sw3) as [sw4 ->].
  cbn [mbind result_bind].
  destruct (peg_insight_returns
              (typed_sub ["pegRatio"] HF ltac:(scored_keys)) sw4)
    as [[strengths5 weaknesses5] ->].
  cbn [mbind result_bind].
  unfold _find_red_flags.
  destruct (debt_flag_returns
              (typed_sub ["debtToEquity"] HF ltac:(scored_keys)) []) as [f1 ->].
  cbn [mbind result_bind].
  destruct (cash_flow_flag_returns
              (typed_sub ["freeCashflow"] HF ltac:(scored_keys)) f1) as [f2 ->].
  cbn [mbind result_bind].
  destruct (short_flag_returns
              (typed_sub ["shortPercentOfFloat"] HF ltac:(scored_keys)) f2) as [f3 ->].
  cbn [mbind result_bind].
  destruct (revenue_flag_returns
              (typed_sub ["revenueGrowth"] HF ltac:(scored_keys)) f3) as [f4 ->].
  cbn [mbind result_bind].
  destruct (trend_flag_returns
              (typed_sub ["twoHundredDayAverage"; "currentPrice"] HF ltac:(scored_keys))
              f4) as [f5 ->].
  cbn [mbind result_bind].
  unfold _find_catalysts.
  destruct (momentum_catalyst_returns
              (typed_sub ["performance_3m"] HF ltac:(scored_keys)) []) as [c1 ->].
  cbn [mbind result_bind].
  destruct (upside_catalyst_returns
              (typed_sub ["targetMeanPrice"; "currentPrice"] HF ltac:(scored_keys)) c1)
    as [c2 ->].
  cbn [mbind result_bind].
  destruct (value_catalyst_returns
              (typed_sub ["pegRatio"; "revenueGrowth"] HF ltac:(scored_keys)) c2)
    as [c3 ->].
  cbn [mbind result_bind].
  destruct (margin_catalyst_returns
              (typed_sub ["grossMargins"] HF ltac:(scored_keys)) c3) as [c4 ->].
  cbn [mbind result_bind].
  destruct (rating_catalyst_returns c4) as [c5 ->].
  cbn [mbind result_bind].
  unfold _sector_comparison.
  destruct (pe_comparison_returns Hpe
              (typed_sub ["trailingPE"] HF ltac:(scored_keys)) ∅) as (m1 & -> & H1).
  cbn [mbind result_bind].
  destruct (margin_comparison_returns
              (typed_sub ["profitMargins"] HF ltac:(scored_keys)) m1) as (m2 & -> & H2).
  cbn [mbind result_bind].
  destruct (growth_comparison_returns
              (typed_sub ["revenueGrowth"] HF ltac:(scored_keys)) m2) as (m3 & -> & H3).
  cbn [mbind result_bind].
  eexists. split; [reflexivity |].
  cbn [strengths weaknesses red_flags catalysts sector_comparison fst snd].
  rewrite !length_take.
  repeat (split; [lia |]).
  intros k [t Hk].
  destruct H3 as [-> | [t3 ->]];
    [| destruct (decide (k = "Growth")) as [-> | Hne];
       [in_list | rewrite lookup_insert_ne in Hk by congruence]];
    (destruct H2 as [-> | [t2 ->]];
       [| destruct (decide (k = "Margins")) as [-> | Hne2];
          [in_list | rewrite lookup_insert_ne in Hk by congruence]]);
    (destruct H1 as [-> | [t1 ->]];
       [| destruct (decide (k = "P/E")) as [-> | Hne1];
          [in_list | rewrite lookup_insert_ne in Hk by congruence]]);
    rewrite lookup_empty in Hk; discriminate Hk.
Qed.

End InsightsReturn.

(** X4: On typed fundamentals [analyze] returns as a whole, the insights
    included: the scores are those of the five category functions; the
    strengths and the weaknesses are three at most, the red flags and the
    catalysts four at most, and the sector comparison has no key but P/E,
    Margins and Growth. *)
Theorem analyze_with_insights_returns (format_f : nat → Q → string)
  (str : Q → string) (str_value : value → string) (data : gmap string value) :
  typed_fundamentals data →
  ∃ r i, analyze_with_insights format_f str str_value data = Ok (r, i)
    ∧ analyze data = Ok r
    ∧ (length (strengths i) ≤ 3)%nat ∧ (length (weaknesses i) ≤ 3)%nat
    ∧ (length (red_flags i) ≤ 4)%nat ∧ (length (catalysts i) ≤ 4)%nat
    ∧ ∀ k, is_Some (sector_comparison i !! k) → k ∈ ["P/E"; "Margins"; "Growth"].
Proof.
  intros HF.
  destruct (analyze_returns_on_typed_fundamentals_scores data HF) as [r Hr].
  assert (Hpe : Qeq_bool (pe_avg (benchmarks_of (sector r))) 0 = false).
  { apply not_true_iff_false. intros H%Qeq_bool_iff.
    pose proof (benchmarks_pe_avg (sector r)). lra. }
  destruct (insights_return data (benchmarks_of (sector r)) (sector r) format_f str
              str_value (overall_score r) (recommendation r) HF Hpe)
    as (i & Hi & Hlen).
  exists r, i. unfold analyze_with_insights. rewrite Hr. cbn [mbind result_bind].
  rewrite Hi. cbn [mbind result_bind]. split; [reflexivity |].
  split; [reflexivity | exact Hlen].
Qed.

Lemma analyze_with_insights_returns_witness :
  ∃ r i,
    analyze_with_insights (λ _ _, "1.0") (λ _, "1") (λ _, "Technology")
      worked_example = Ok (r, i)
    ∧ analyze worked_example = Ok r
    ∧ (length (strengths i) ≤ 3)%nat ∧ (length (weaknesses i) ≤ 3)%nat
    ∧ (length (red_flags i) ≤ 4)%nat ∧ (length (catalysts i) ≤ 4)%nat
    ∧ ∀ k, is_Some (sector_comparison i !! k) → k ∈ ["P/E"; "Margins"; "Growth"].
Proof.
  apply (analyze_with_insights_returns (λ _ _, "1.0") (λ _, "1") (λ _, "Technology")
           worked_example).
  unfold typed_fundamentals, scored_metrics.
  repeat (apply Forall_cons; split; [vm_compute; exact I |]). apply Forall_nil. exact I.
Defined.

(** A list of keys none of which is the 200-day average. *)
Ltac typed_but_ma200 Htyped :=
  apply Forall_forall; intros k Hk; apply Htyped;
  [ unfold scored_metrics;
    repeat (apply elem_of_cons in Hk as [-> | Hk]; [in_list |]);
    apply elem_of_nil in Hk; contradiction
  | repeat (apply elem_of_cons in Hk as [-> | Hk]; [discriminate |]);
    apply elem_of_nil in Hk; contradiction ].

(** X5: The insights can raise where the scores do not: when the 200-day
    average is a non-empty string while the 50-day average is absent (or
    [None], or 0), the momentum score skips the moving averages and
    [analyze] computes its five scores, but [_find_red_flags] multiplies
    the string by 0.9 and raises [TypeError], so [analyze] as a whole
    raises. *)
Theorem analyze_raises_in_red_flags (format_f : nat → Q → string)
  (str : Q → string) (str_value : value → string) (data : gmap string value)
  (s : string) (p : Q) :
  (∀ k, k ∈ scored_metrics → k ≠ "twoHundredDayAverage" → typed_key data k) →
  truthy (get data "fiftyDayAverage") = false →
  data !! "twoHundredDayAverage" = Some (VStr s) → s ≠ EmptyString →
  data !! "currentPrice" = Some (VNum p) → ¬ p == 0 →
  (∃ r, analyze data = Ok r)
  ∧ analyze_with_insights format_f str str_value data = Raise TypeError.
Proof.
  intros Htyped H50 H200 Hs Hcur Hp.
  assert (Hscores : ∃ r, analyze data = Ok r).
  { apply analyze_returns. intros b bm points Hb.
    destruct b;
      try (apply run_returns; cbn [reads]; typed_but_ma200 Htyped).
    exists points. cbn [run]. unfold ma_points. cbn [forallb]. rewrite H50.
    reflexivity. }
  split; [exact Hscores |].
  destruct Hscores as [r Hr].
  unfold analyze_with_insights. rewrite Hr. cbn [mbind result_bind].
  set (bm := benchmarks_of (sector r)).
  unfold insights, _find_strengths_weaknesses.
  destruct (pe_insight_returns data bm format_f str
              ltac:(typed_but_ma200 Htyped) ([], [])) as [sw1 ->].
  cbn [mbind result_bind].
  destruct (rev_growth_insight_returns data bm format_f str
              ltac:(typed_but_ma200 Htyped) sw1) as [sw2 ->].
  cbn [mbind result_bind].
  destruct (margin_insight_returns data bm format_f str
              ltac:(typed_but_ma200 Htyped) sw2) as [sw3 ->].
  cbn [mbind result_bind].
  destruct (roe_insight_returns data bm format_f str
              ltac:(typed_but_ma200 Htyped) sw3) as [sw4 ->].
  cbn [mbind result_bind].
  destruct (peg_insight_returns data format_f
              ltac:(typed_but_ma200 Htyped) sw4) as [[strengths5 weaknesses5] ->].
  cbn [mbind result_bind].
  unfold _find_red_flags.
  destruct (debt_flag_returns data bm format_f str
              ltac:(typed_but_ma200 Htyped) []) as [f1 ->].
  cbn [mbind result_bind].
  destruct (cash_flow_flag_returns data format_f
              ltac:(typed_but_ma200 Htyped) f1) as [f2 ->].
  cbn [mbind result_bind].
  destruct (short_flag_returns data format_f
              ltac:(typed_but_ma200 Htyped) f2) as [f3 ->].
  cbn [mbind result_bind].
  destruct (revenue_flag_returns data format_f
              ltac:(typed_but_ma200 Htyped) f3) as [f4 ->].
  cbn [mbind result_bind].
  unfold trend_flag, and_then, get. rewrite H200, Hcur.
  cbn [from_option id truthy mul_float mbind result_bind].
  apply String.eqb_neq in Hs. rewrite Hs.
  replace (Qeq_bool p 0) with false
    by (symmetry; apply not_true_iff_false; intros H%Qeq_bool_iff; exact (Hp H)).
  reflexivity.
Qed.

Lemma analyze_raises_in_red_flags_witness :
  (∃ r, analyze {[ "twoHundredDayAverage" := VStr "N/A"; "currentPrice" := VNum 5 ]}
        = Ok r)
  ∧ analyze_with_insights (λ _ _, "1.0") (λ _, "1") (λ _, "Unknown")
      {[ "twoHundredDayAverage" := VStr "N/A"; "currentPrice" := VNum 5 ]}
    = Raise TypeError.
Proof.
  apply (analyze_raises_in_red_flags (λ _ _, "1.0") (λ _, "1") (λ _, "Unknown")
           {[ "twoHundredDayAverage" := VStr "N/A"; "currentPrice" := VNum 5 ]}
           "N/A" 5).
  - intros k Hk Hne. unfold scored_metrics in Hk.
    repeat (apply elem_of_cons in Hk as [-> | Hk];
            [first [congruence | vm_compute; exact I] |]).
    apply elem_of_nil in Hk. contradiction.
  - reflexivity.
  - reflexivity.
  - discriminate.
  - reflexivity.
  - discriminate.
Defined.

(** ** On-balance volume: edge cases and shape *)

Lemma obv_body_length (data : DataFrame) (i : nat) (obv obv' : Series) :
  obv_body data i obv = Ok obv' → length obv' = length obv.
Proof.
  unfold obv_body, getitem, iloc. cbn [mbind result_bind]. intros H.
  repeat (case_match; try discriminate; cbn [mbind result_bind] in H);
    injection H as <-; apply length_insert.
Qed.

Lemma obv_loop_length (data : DataFrame) (range : list nat) :
  ∀ obv obv', obv_loop data range obv = Ok obv' → length obv' = length obv.
Proof.
  induction range as [| i range IH]; intros obv obv' H.
  - injection H as <-. reflexivity.
  - cbn [obv_loop] in H. destruct (obv_body data i obv) as [obv1 |] eqn:Hb;
      [| discriminate H].
    cbn [mbind result_bind] in H.
    rewrite (IH obv1 obv' H). exact (obv_body_length data i obv obv1 Hb).
Qed.

(** X6: Whenever [_calculate_obv] returns, the series has one value per row of
    the frame. *)
Theorem calculate_obv_length (data : DataFrame) (obv : Series) :
  _calculate_obv data = Ok obv → length obv = nrows data.
Proof.
  unfold _calculate_obv, getitem, iloc. cbn [mbind result_bind]. intros H.
  repeat (case_match; try discriminate; cbn [mbind result_bind] in H).
  apply obv_loop_length in H. rewrite H, length_insert. apply length_replicate.
Qed.

Lemma calculate_obv_length_witness :
  ∃ obv, _calculate_obv (mkDF 2 {[ "Close" := [Fin 1; Fin 2];
                                    "Volume" := [Fin 10; Fin 20] ]}) = Ok obv
         ∧ length obv = 2%nat.
Proof.
  eexists. split; [vm_compute; reflexivity |].
  apply (calculate_obv_length
           (mkDF 2 {[ "Close" := [Fin 1; Fin 2]; "Volume" := [Fin 10; Fin 20] ]})).
  vm_compute. reflexivity.
Defined.

(** X7: [_calculate_obv] at the edges: without a [Volume] column it raises
    [KeyError]; on a frame without rows [IndexError]; a frame of one row
    needs no [Close] column; from two rows on a missing [Close] column is a
    [KeyError]. *)
Theorem calculate_obv_edge_cases (data : DataFrame) :
  (cols data !! "Volume" = None → _calculate_obv data = Raise (KeyError "Volume"))
  ∧ (cols data !! "Volume" = Some [] → _calculate_obv data = Raise IndexError)
  ∧ (∀ v0, cols data !! "Volume" = Some [v0] → nrows data = 1%nat →
       _calculate_obv data = Ok [v0])
  ∧ (∀ v, cols data !! "Volume" = Some v → length v = nrows data →
       (2 ≤ nrows data)%nat → cols data !! "Close" = None →
       _calculate_obv data = Raise (KeyError "Close")).
Proof.
  unfold _calculate_obv, getitem, iloc.
  split; [| split; [| split]].
  - intros ->. reflexivity.
  - intros ->. reflexivity.
  - intros v0 -> ->. reflexivity.
  - intros v -> Hlen Hn Hc. cbn [mbind result_bind].
    destruct v as [| v0 v]; [cbn in Hlen; lia |]. cbn [lookup list_lookup].
    destruct (nrows data) as [| [| n]]; [lia | lia |].
    cbn [seq obv_loop Nat.sub]. unfold obv_body, getitem. rewrite Hc. reflexivity.
Qed.

(** ** The two on-balance volumes side by side *)

(** The loop of [_calculate_obv] on finite bars. *)
Lemma calculate_obv_steps (df : DataFrame) (bars : list Bar) (b0 : Bar) :
  ohlcv df bars → bars !! 0%nat = Some b0 →
  ∃ obv, _calculate_obv df = Ok obv
    ∧ obv !! 0%nat = Some (Fin (volume b0))
    ∧ (∀ i prev cur q, bars !! i = Some prev → bars !! S i = Some cur →
         obv !! i = Some (Fin q) →
         obv !! S i = Some (Fin (loop_step prev cur q))).
Proof.
  intros Hdf H0. destruct Hdf as (Hn & _ & Hh & Hl & Hc & Hv).
  assert (Hlen : (1 ≤ length bars)%nat) by (apply lookup_lt_Some in H0; lia).
  destruct (calculate_obv_spec df _ _ Hc Hv) as (obv & Hrun & Hlo & Hfirst & Hstep);
    [rewrite ?column_length; lia .. |].
  rewrite column_lookup, H0 in Hfirst. cbn in Hfirst.
  exists obv. split; [exact Hrun |]. split; [exact Hfirst |].
  intros i prev cur q Hp Hcur Hq.
  destruct (Hstep (S i)) as (cp & ci & o & vi & Hcp & Hci & Ho & Hvi & Hnext);
    [apply lookup_lt_Some in Hcur; lia |].
  replace (S i - 1)%nat with i in * by lia.
  rewrite column_lookup, Hp in Hcp. rewrite column_lookup, Hcur in Hci.
  rewrite column_lookup, Hcur in Hvi. rewrite Hq in Ho.
  cbn in Hcp, Hci, Hvi. injection Hcp as <-. injection Hci as <-.
  injection Hvi as <-. injection Ho as <-.
  rewrite Hnext, obv_next_finite. reflexivity.
Qed.

(** The running sum of [calculate_technical_indicators] on finite bars. *)
Lemma obv_terms_steps (bars : list Bar) (b0 : Bar) :
  bars !! 0%nat = Some b0 →
  let obv := cumsum (obv_terms (column close bars) (column volume bars)) in
  obv !! 0%nat = Some (Fin (0 + volume b0 * 0 * 0))
  ∧ (∀ i prev cur q, bars !! i = Some prev → bars !! S i = Some cur →
       obv !! i = Some (Fin q) →
       obv !! S i = Some (Fin (cumsum_step prev cur q))).
Proof.
  intros H0. cbn zeta.
  set (t := obv_terms (column close bars) (column volume bars)).
  split.
  - unfold cumsum.
    rewrite (cumsum_from_lookup_0 _ (Fin (volume b0 * 0 * 0)));
      [reflexivity | apply obv_terms_lookup_0; exact H0 | reflexivity].
  - intros i prev cur q Hp Hcur Hq. unfold cumsum in *.
    rewrite (cumsum_from_lookup_S t _ i (Fin q) _ (obv_terms_finite bars) Hq
               (obv_terms_lookup_S bars i prev cur Hp Hcur)).
    reflexivity.
Qed.

(** The two steps add the same signed volume. *)
Lemma loop_step_cumsum_step (prev cur : Bar) (q1 q2 c : Q) :
  q1 == q2 + c → loop_step prev cur q1 == cumsum_step prev cur q2 + c.
Proof.
  intros H. unfold loop_step, cumsum_step.
  destruct (Qltb (close prev) (close cur)) eqn:E1;
    [apply Qltb_lt in E1 | apply Qltb_ge in E1];
    (destruct (Qltb (close cur) (close prev)) eqn:E2;
       [apply Qltb_lt in E2 | apply Qltb_ge in E2]);
    (destruct (Qltb 0 (close cur + - close prev)) eqn:E3;
       [apply Qltb_lt in E3 | apply Qltb_ge in E3]);
    (destruct (Qltb (close cur + - close prev) 0) eqn:E4;
       [apply Qltb_lt in E4 | apply Qltb_ge in E4]);
    lra.
Qed.

Section ObvColumns.
Variable sqrt : xnum → xnum.

(** X8: At every bar the OBV of [_calculate_obv] is the OBV column of
    [calculate_technical_indicators] plus the volume of the first bar. *)
Theorem obv_columns_differ_by_first_volume (df : DataFrame) (bars : list Bar)
  (b0 b : Bar) (i : nat) :
  ohlcv df bars → bars !! 0%nat = Some b0 → bars !! i = Some b →
  ∃ obv df' o1 o2,
    _calculate_obv df = Ok obv
    ∧ calculate_technical_indicators sqrt (Some df) = Ok (Some df')
    ∧ obv !! i = Some (Fin o1)
    ∧ cell df' "OBV" i = Some (Fin o2)
    ∧ o1 == o2 + volume b0.
Proof.
  intros Hdf H0 Hi.
  pose proof (ohlcv_not_empty df bars b0 Hdf H0) as Hne.
  destruct (calculate_obv_steps df bars b0 Hdf H0) as (obv & Hrun & Hfirst & Hstep).
  destruct Hdf as (Hn & _ & Hh & Hl & Hc & Hv).
  destruct (calculate_body_columns sqrt df _ _ _ _ Hc Hh Hl Hv)
    as (df' & Hrun' & _ & _ & _ & _ & _ & Hobv & _).
  fold (obv_terms (column close bars) (column volume bars)) in Hobv.
  destruct (obv_terms_steps bars b0 H0) as [Hfirst' Hstep'].
  set (obv' := cumsum (obv_terms (column close bars) (column volume bars))) in *.
  assert (Hall : ∀ j bj, bars !! j = Some bj →
            ∃ o1 o2, obv !! j = Some (Fin o1) ∧ obv' !! j = Some (Fin o2)
                     ∧ o1 == o2 + volume b0).
  { induction j as [| j IH]; intros bj Hj.
    - eexists _, _. split; [exact Hfirst |]. split; [exact Hfirst' |]. ring.
    - destruct (lookup_lt_is_Some_2 bars j) as [prev Hprev];
        [apply lookup_lt_Some in Hj; lia |].
      destruct (IH prev Hprev) as (o1 & o2 & Ho1 & Ho2 & Heq).
      eexists _, _.
      split; [exact (Hstep j prev bj o1 Hprev Hj Ho1) |].
      split; [exact (Hstep' j prev bj o2 Hprev Hj Ho2) |].
      apply loop_step_cumsum_step. exact Heq. }
  destruct (Hall i b Hi) as (o1 & o2 & Ho1 & Ho2 & Heq).
  exists obv, df', o1, o2.
  split; [exact Hrun |].
  split; [unfold calculate_technical_indicators; rewrite Hne, Hrun'; reflexivity |].
  split; [exact Ho1 |].
  split; [unfold cell; rewrite Hobv; exact Ho2 | exact Heq].
Qed.

End ObvColumns.

Lemma obv_columns_differ_by_first_volume_witness :
  let b0 := {| open := 1; high := 2; low := 1; close := 2; volume := 100 |} in
  let b1 := {| open := 2; high := 4; low := 2; close := 3; volume := 50 |} in
  let b2 := {| open := 3; high := 3; low := 1; close := 1; volume := 70 |} in
  ∃ obv df' o1 o2,
    _calculate_obv (frame_of [b0; b1; b2]) = Ok obv
    ∧ calculate_technical_indicators no_sqrt (Some (frame_of [b0; b1; b2]))
      = Ok (Some df')
    ∧ obv !! 2%nat = Some (Fin o1)
    ∧ cell df' "OBV" 2 = Some (Fin o2)
    ∧ o1 == o2 + volume b0.
Proof.
  intros b0 b1 b2.
  apply (obv_columns_differ_by_first_volume no_sqrt (frame_of [b0; b1; b2]) [b0; b1; b2]
           b0 b2 2).
  - apply ohlcv_frame_of.
  - reflexivity.
  - reflexivity.
Defined.

(** ** Volume-weighted average price *)


Lemma typical_price_column (bars : list Bar) :
  sdivc (sadd (sadd (column high bars) (column low bars)) (column close bars)) 3
  = column typical_price bars.
Proof.
  apply list_eq. intros i. unfold column. series_lookup.
  destruct (bars !! i) as [b |]; [| reflexivity]. cbn -[xdiv].
  rewrite xdiv_pos by lra. reflexivity.
Qed.

Lemma traded_column (bars : list Bar) :
  smul (column typical_price bars) (column volume bars) = Fin <$> (traded <$> bars).
Proof.
  apply list_eq. intros i. unfold column, smul.
  rewrite lookup_zip_with, !list_lookup_fmap.
  destruct (bars !! i) as [b |]; reflexivity.
Qed.




(** ** Pivot points: the first row and the order of the levels *)



(** ** Stochastic %K and Williams %R *)



(** ** Average true range *)

Lemma larger_ge_r (x y : Q) : y <= larger x y.
Proof.
  unfold larger. destruct (Qltb x y) eqn:E; [lra |].
  apply Qltb_ge in E. exact E.
Qed.

Lemma true_range_at_nonneg (bars : list Bar) (k : nat) : 0 <= true_range_at bars k.
Proof.
  destruct k as [| j]; cbn [true_range_at]; [lra |]. cbv zeta.
  eapply Qle_trans; [| apply larger_ge_r].
  eapply Qle_trans; [| apply larger_ge_r].
  apply Qabs_nonneg.
Qed.

(** The series the rolling mean of [_calculate_atr] runs over: its first
    row is [NaN], for want of a close before it. *)
Lemma true_range_lookup_0 (bars : list Bar) (b : Bar) :
  bars !! 0%nat = Some b →
  np_maximum (ssub (column high bars) (column low bars))
    (np_maximum (sabs (ssub (column high bars) (shift (column close bars))))
                (sabs (ssub (column low bars) (shift (column close bars)))))
  !! 0%nat = Some NaN.
Proof.
  intros Hb. destruct bars as [| b0 bars]; [discriminate Hb |]. reflexivity.
Qed.

Lemma true_range_lookup_S (bars : list Bar) (j : nat) (p b : Bar) :
  bars !! j = Some p → bars !! S j = Some b →
  np_maximum (ssub (column high bars) (column low bars))
    (np_maximum (sabs (ssub (column high bars) (shift (column close bars))))
                (sabs (ssub (column low bars) (shift (column close bars)))))
  !! S j = Some (Fin (true_range_at bars (S j))).
Proof.
  intros Hp Hb.
  assert (Hh : nth (S j) (high <$> bars) 0 = high b)
    by (apply nth_lookup_Some with (d := 0); rewrite list_lookup_fmap, Hb; reflexivity).
  assert (Hl : nth (S j) (low <$> bars) 0 = low b)
    by (apply nth_lookup_Some with (d := 0); rewrite list_lookup_fmap, Hb; reflexivity).
  assert (Hc : nth j (close <$> bars) 0 = close p)
    by (apply nth_lookup_Some with (d := 0); rewrite list_lookup_fmap, Hp; reflexivity).
  unfold np_maximum, sabs, ssub.
  rewrite !lookup_zip_with, !list_lookup_fmap, !lookup_zip_with.
  rewrite (shift_column_lookup close bars j p b Hp Hb).
  rewrite !column_lookup, Hb.
  cbn [fmap option_fmap option_map mbind option_bind xsub xneg xadd xabs isnan orb].
  unfold xmax, xltb. cbn [true_range_at]. cbv zeta. rewrite Hh, Hl, Hc.
  unfold larger. change (high b - low b) with (high b + - low b).
  change (high b - close p) with (high b + - close p).
  change (low b - close p) with (low b + - close p).
  destruct (Qltb (Qabs (high b + - close p)) (Qabs (low b + - close p)));
    destruct (Qltb (high b + - low b) _); reflexivity.
Qed.

(** X12: [_calculate_atr] on finite bars, for a window of [w] rows: the first
    [w] rows are [NaN], one more than the window would leave, since the
    first true range has no close before it; every later row holds the
    mean of the last [w] true ranges, which is not negative. *)
Theorem atr_warm_up_and_sign (df : DataFrame) (bars : list Bar) (w i : nat) (b : Bar) :
  ohlcv df bars → (0 < w)%nat → bars !! i = Some b →
  ∃ atr, _calculate_atr df w = Ok atr
    ∧ ((i < w)%nat → atr !! i = Some NaN)
    ∧ ((w ≤ i)%nat →
         atr !! i = Some (Fin (trailing_mean w (true_range_at bars) i))
         ∧ 0 <= trailing_mean w (true_range_at bars) i).
Proof.
  intros (Hn & _ & Hh & Hl & Hc & Hv) Hw Hi.
  unfold _calculate_atr.
  rewrite !(getitem_ok df _ _ Hh), !(getitem_ok df _ _ Hl), !(getitem_ok df _ _ Hc).
  cbn [mbind result_bind].
  eexists. split; [reflexivity |].
  set (tr := np_maximum _ _).
  assert (Hrow : ∀ k, (1 ≤ k ≤ i)%nat → tr !! k = Some (Fin (true_range_at bars k))).
  { intros k Hk. destruct k as [| j]; [lia |].
    apply lookup_lt_Some in Hi.
    destruct (lookup_lt_is_Some_2 bars j) as [p Hp]; [lia |].
    destruct (lookup_lt_is_Some_2 bars (S j)) as [c Hcur]; [lia |].
    exact (true_range_lookup_S bars j p c Hp Hcur). }
  assert (H0 : tr !! 0%nat = Some NaN).
  { destruct bars as [| b0 bars]; [discriminate Hi |]. reflexivity. }
  assert (Hx : ∃ x, tr !! i = Some x).
  { destruct i as [| j]; [eexists; exact H0 |]. eexists. apply Hrow. lia. }
  destruct Hx as [x Hx].
  split.
  - intros Hlt. unfold rolling_mean.
    apply (rolling_nan_in_window w xmean tr i 0 x Hx H0). lia.
  - intros Hge. split.
    + apply rolling_mean_finite; [exact Hw | lia | |].
      * apply lookup_lt_Some in Hx. exact Hx.
      * intros k Hk. apply Hrow. lia.
    + apply trailing_mean_nonneg; [exact Hw |]. apply true_range_at_nonneg.
Qed.

Lemma atr_warm_up_and_sign_witness :
  ∃ atr, _calculate_atr (frame_of three_bars) 2 = Ok atr
    ∧ ((2 < 2)%nat → atr !! 2%nat = Some NaN)
    ∧ ((2 ≤ 2)%nat →
         atr !! 2%nat = Some (Fin (trailing_mean 2 (true_range_at three_bars) 2))
         ∧ 0 <= trailing_mean 2 (true_range_at three_bars) 2).
Proof.
  apply (atr_warm_up_and_sign (frame_of three_bars) three_bars 2 2
           {| open := 3; high := 3; low := 1; close := 1; volume := 70 |}).
  - apply ohlcv_frame_of.
  - lia.
  - reflexivity.
Defined.

(** ** Money flow index *)

(** A rolling sum over a window of finite values. *)
Lemma rolling_sum_finite (s : Series) (f : nat → Q) (w i : nat) :
  (w ≤ i + 1)%nat → (i < length s)%nat →
  (∀ k, (i + 1 - w ≤ k ≤ i)%nat → s !! k = Some (Fin (f k))) →
  rolling_sum w s !! i = Some (Fin (trailing_sum w f i)).
Proof.
  intros Hwi Hi Hs.
  unfold rolling_sum, rolling. rewrite list_lookup_imap.
  destruct (lookup_lt_is_Some_2 s i Hi) as [x Hx]. rewrite Hx.
  cbn [fmap option_fmap option_map].
  replace (w <=? i + 1)%nat with true by (symmetry; apply Nat.leb_le; lia).
  assert (Hwin : window w i s = Fin <$> (f <$> seq (i + 1 - w) w)).
  { unfold window. apply list_eq. intros k.
    rewrite !list_lookup_fmap.
    destruct (decide (k < w)%nat) as [Hk | Hk].
    - rewrite lookup_take_lt by exact Hk. rewrite lookup_drop.
      rewrite lookup_seq_lt by exact Hk. cbn. apply Hs. lia.
    - rewrite lookup_take_ge by lia. rewrite lookup_seq_ge by lia. reflexivity. }
  rewrite Hwin, existsb_isnan_finite.
  unfold xsum. rewrite xsum_finite. reflexivity.
Qed.

Lemma trailing_sum_nonneg (w : nat) (f : nat → Q) (i : nat) :
  (∀ k, 0 <= f k) → 0 <= trailing_sum w f i.
Proof.
  intros Hf. unfold trailing_sum, Py.sum. apply sum_nonneg; [lra |].
  intros x Hx. apply list_elem_of_fmap in Hx as (k & -> & _). apply Hf.
Qed.

(** The rows of the two series the rolling sums of [_calculate_mfi] run
    over. *)
Lemma positive_flow_lookup (bars : list Bar) (k : nat) :
  (k < length bars)%nat →
  let tp := column typical_price bars in
  where_ (smul tp (column volume bars)) (sgt tp (shift tp)) (Fin 0) !! k
  = Some (Fin (positive_flow_at bars k)).
Proof.
  intros Hk tp. subst tp. rewrite traded_column.
  unfold where_, sgt. rewrite !lookup_zip_with, !list_lookup_fmap.
  destruct (lookup_lt_is_Some_2 bars k Hk) as [b Hb].
  destruct k as [| j].
  - rewrite column_lookup, Hb.
    rewrite (shift_lookup_0 (column typical_price bars) (Fin (typical_price b)))
      by (rewrite column_lookup, Hb; reflexivity).
    reflexivity.
  - destruct (lookup_lt_is_Some_2 bars j) as [p Hp]; [lia |].
    rewrite column_lookup, Hb, (shift_column_lookup typical_price bars j p b Hp Hb).
    cbn [fmap option_fmap option_map mbind option_bind positive_flow_at].
    rewrite (nth_lookup_Some (typical_price <$> bars) j 0 (typical_price p))
      by (rewrite list_lookup_fmap, Hp; reflexivity).
    rewrite (nth_lookup_Some (typical_price <$> bars) (S j) 0 (typical_price b))
      by (rewrite list_lookup_fmap, Hb; reflexivity).
    rewrite (nth_lookup_Some (traded <$> bars) (S j) 0 (traded b))
      by (rewrite list_lookup_fmap, Hb; reflexivity).
    unfold xgtb, xltb.
    destruct (Qltb (typical_price p) (typical_price b)); reflexivity.
Qed.

Lemma negative_flow_lookup (bars : list Bar) (k : nat) :
  (k < length bars)%nat →
  let tp := column typical_price bars in
  where_ (smul tp (column volume bars)) (slt tp (shift tp)) (Fin 0) !! k
  = Some (Fin (negative_flow_at bars k)).
Proof.
  intros Hk tp. subst tp. rewrite traded_column.
  unfold where_, slt. rewrite !lookup_zip_with, !list_lookup_fmap.
  destruct (lookup_lt_is_Some_2 bars k Hk) as [b Hb].
  destruct k as [| j].
  - rewrite column_lookup, Hb.
    rewrite (shift_lookup_0 (column typical_price bars) (Fin (typical_price b)))
      by (rewrite column_lookup, Hb; reflexivity).
    reflexivity.
  - destruct (lookup_lt_is_Some_2 bars j) as [p Hp]; [lia |].
    rewrite column_lookup, Hb, (shift_column_lookup typical_price bars j p b Hp Hb).
    cbn [fmap option_fmap option_map mbind option_bind negative_flow_at].
    rewrite (nth_lookup_Some (typical_price <$> bars) j 0 (typical_price p))
      by (rewrite list_lookup_fmap, Hp; reflexivity).
    rewrite (nth_lookup_Some (typical_price <$> bars) (S j) 0 (typical_price b))
      by (rewrite list_lookup_fmap, Hb; reflexivity).
    rewrite (nth_lookup_Some (traded <$> bars) (S j) 0 (traded b))
      by (rewrite list_lookup_fmap, Hb; reflexivity).
    unfold xltb.
    destruct (Qltb (typical_price b) (typical_price p)); reflexivity.
Qed.

Lemma flow_at_nonneg (bars : list Bar) (k : nat) :
  (∀ b, b ∈ bars → 0 <= traded b) →
  0 <= positive_flow_at bars k ∧ 0 <= negative_flow_at bars k.
Proof.
  intros Hb.
  assert (Hn : ∀ n, 0 <= nth n (traded <$> bars) 0).
  { intros n. destruct (nth_in_or_default n (traded <$> bars) 0) as [Hin | ->]; [| lra].
    apply list_elem_of_In in Hin. apply list_elem_of_fmap in Hin as (b & -> & Hin).
    apply Hb. exact Hin. }
  destruct k as [| j]; cbn [positive_flow_at negative_flow_at]; [split; lra |].
  split; match goal with |- context [if ?c then _ else _] => destruct c end;
    first [apply Hn | lra].
Qed.

(** X13: [_calculate_mfi] on finite bars whose traded values are not negative,
    at a row [i] with a full window of [period] rows: the two flows are
    the sums of what the bars of the window add; when the negative flow
    is positive the index lies in [0, 100]; when it is zero and the
    positive flow is not, the division by zero gives an infinite ratio
    and the index is 100; when no typical price moved in the window both
    flows are zero and the index is [NaN]. *)
Theorem mfi_bounded_or_100 (df : DataFrame) (bars : list Bar) (period i : nat) :
  ohlcv df bars → (period ≤ i + 1)%nat → (i < length bars)%nat →
  (∀ b, b ∈ bars → 0 <= traded b) →
  let pos := trailing_sum period (positive_flow_at bars) i in
  let neg := trailing_sum period (negative_flow_at bars) i in
  ∃ mfi, _calculate_mfi df period = Ok mfi
    ∧ (0 < neg →
         ∃ r, mfi !! i = Some (Fin r) ∧ 0 <= r ∧ r <= 100
              ∧ r == 100 - 100 / (1 + pos / neg))
    ∧ (neg == 0 → 0 < pos → ∃ r, mfi !! i = Some (Fin r) ∧ r == 100)
    ∧ (neg == 0 → pos == 0 → mfi !! i = Some NaN).
Proof.
  intros (Hn & _ & Hh & Hl & Hc & Hv) Hw Hi Htraded pos neg.
  unfold _calculate_mfi.
  rewrite !(getitem_ok df _ _ Hh), !(getitem_ok df _ _ Hl), !(getitem_ok df _ _ Hc),
    !(getitem_ok df _ _ Hv).
  cbn [mbind result_bind].
  eexists. split; [reflexivity |].
  rewrite typical_price_column.
  assert (Hpos : rolling_sum period
                   (where_ (smul (column typical_price bars) (column volume bars))
                      (sgt (column typical_price bars)
                         (shift (column typical_price bars))) (Fin 0)) !! i
                 = Some (Fin pos)).
  { apply rolling_sum_finite; [exact Hw | |].
    - apply lookup_lt_is_Some_1. rewrite (positive_flow_lookup bars i Hi). eauto.
    - intros k Hk. apply positive_flow_lookup. lia. }
  assert (Hneg : rolling_sum period
                   (where_ (smul (column typical_price bars) (column volume bars))
                      (slt (column typical_price bars)
                         (shift (column typical_price bars))) (Fin 0)) !! i
                 = Some (Fin neg)).
  { apply rolling_sum_finite; [exact Hw | |].
    - apply lookup_lt_is_Some_1. rewrite (negative_flow_lookup bars i Hi). eauto.
    - intros k Hk. apply negative_flow_lookup. lia. }
  assert (Hmfi : ∀ s, s = index_of_ratio
                          (sdiv (rolling_sum period
                                   (where_ (smul (column typical_price bars)
                                              (column volume bars))
                                      (sgt (column typical_price bars)
                                         (shift (column typical_price bars))) (Fin 0)))
                                (rolling_sum period
                                   (where_ (smul (column typical_price bars)
                                              (column volume bars))
                                      (slt (column typical_price bars)
                                         (shift (column typical_price bars))) (Fin 0)))) →
            s !! i = Some (xsub (Fin 100)
                             (xdiv (Fin 100) (xadd (Fin 1) (xdiv (Fin pos) (Fin neg)))))).
  { intros s ->. unfold index_of_ratio, sdiv.
    rewrite list_lookup_fmap, lookup_zip_with, Hpos, Hneg. reflexivity. }
  rewrite (Hmfi _ eq_refl).
  assert (Hp0 : 0 <= pos)
    by (apply trailing_sum_nonneg; intros k; apply flow_at_nonneg; exact Htraded).
  assert (Hn0 : 0 <= neg)
    by (apply trailing_sum_nonneg; intros k; apply flow_at_nonneg; exact Htraded).
  destruct (rsi_of_means pos neg Hp0 Hn0) as [Hbounded Hhundred].
  split; [| split].
  - intros Hlt. destruct (Hbounded Hlt) as (r & Hr & Hrest).
    exists r. rewrite Hr. split; [reflexivity | exact Hrest].
  - intros Hz Hlt. destruct (Hhundred Hz Hlt) as (r & Hr & Hrest).
    exists r. rewrite Hr. split; [reflexivity | exact Hrest].
  - intros Hz Hz'. unfold xdiv at 2.
    rewrite (sign_zero neg Hz), (sign_zero pos Hz'). reflexivity.
Qed.

Lemma mfi_bounded_or_100_witness :
  let pos := trailing_sum 2 (positive_flow_at three_bars) 2 in
  let neg := trailing_sum 2 (negative_flow_at three_bars) 2 in
  ∃ mfi, _calculate_mfi (frame_of three_bars) 2 = Ok mfi
    ∧ (0 < neg →
         ∃ r, mfi !! 2%nat = Some (Fin r) ∧ 0 <= r ∧ r <= 100
              ∧ r == 100 - 100 / (1 + pos / neg))
    ∧ (neg == 0 → 0 < pos → ∃ r, mfi !! 2%nat = Some (Fin r) ∧ r == 100)
    ∧ (neg == 0 → pos == 0 → mfi !! 2%nat = Some NaN).
Proof.
  apply (mfi_bounded_or_100 (frame_of three_bars) three_bars 2 2).
  - apply ohlcv_frame_of.
  - lia.
  - cbn. lia.
  - intros b Hb. unfold three_bars in Hb.
    repeat (apply elem_of_cons in Hb as [-> | Hb]; [vm_compute; discriminate |]).
    apply elem_of_nil in Hb. contradiction.
Defined.

(** ** The pipeline of [get_enhanced_stock_data] *)

(** [_calculate_obv] reads the number of rows and the columns [Close] and
    [Volume]. *)
Lemma obv_body_ext (d d' : DataFrame) (i : nat) (obv : Series) :
  cols d !! "Close" = cols d' !! "Close" →
  cols d !! "Volume" = cols d' !! "Volume" →
  obv_body d i obv = obv_body d' i obv.
Proof. intros Hc Hv. unfold obv_body, getitem. rewrite Hc, Hv. reflexivity. Qed.

Lemma obv_loop_ext (d d' : DataFrame) (range : list nat) :
  cols d !! "Close" = cols d' !! "Close" →
  cols d !! "Volume" = cols d' !! "Volume" →
  ∀ obv, obv_loop d range obv = obv_loop d' range obv.
Proof.
  intros Hc Hv. induction range as [| i range IH]; intros obv; [reflexivity |].
  cbn [obv_loop]. rewrite (obv_body_ext d d' i obv Hc Hv).
  destruct (obv_body d' i obv); cbn [mbind result_bind]; [apply IH | reflexivity].
Qed.

Lemma calculate_obv_ext (d d' : DataFrame) :
  nrows d = nrows d' →
  cols d !! "Close" = cols d' !! "Close" →
  cols d !! "Volume" = cols d' !! "Volume" →
  _calculate_obv d = _calculate_obv d'.
Proof.
  intros Hn Hc Hv. unfold _calculate_obv, getitem. rewrite Hn, Hv.
  destruct (cols d' !! "Volume") as [v |] eqn:Hv'; [| reflexivity].
  cbn [mbind result_bind]. destruct (iloc v 0); [| reflexivity].
  cbn [mbind result_bind]. apply obv_loop_ext; [exact Hc | congruence].
Qed.

(** Runs a helper of [enhanced_finance_data.py] that reads columns of the
    frame and returns what it computes from them. *)
Ltac run_reader :=
  unfold _calculate_kdj, _calculate_atr, _calculate_stochastic,
    _calculate_williams_r, _calculate_cci, _calculate_mfi, _calculate_vwap,
    _calculate_pivot_points;
  repeat (erewrite getitem_ok by eassumption; cbn [mbind result_bind]);
  reflexivity.

Lemma M_bind_assoc {A B C} (m : M A) (k : A → M B) (k' : B → M C) (df : DataFrame) :
  ((m ≫= k) ≫= k') df = (m ≫= λ a, k a ≫= k') df.
Proof. unfold mbind, M_bind. destruct (m df) as [[a | e] df1]; reflexivity. Qed.

Lemma run_ret {A B} (a : A) (k : A → M B) (df : DataFrame) :
  (mret a ≫= k) df = k a df.
Proof. reflexivity. Qed.

Ltac run_stage_step :=
  first
    [ rewrite M_bind_assoc
    | rewrite run_ret
    | rewrite run_assign; assigned
    | rewrite run_last_assign; assigned
    | erewrite run_col by eassumption
    | erewrite run_call by run_reader
    | match goal with
      | Hobv : ∀ d, _ → _ → _ → _calculate_obv d = Ok ?obv |- _ =>
          rewrite (run_call _calculate_obv obv) by (apply Hobv; assumption)
      end ].

Lemma run_then {A B} (m : M A) (k : M B) (df df1 : DataFrame) (a : A) :
  m df = (Ok a, df1) → (m;; k) df = k df1.
Proof. intros H. unfold mbind, M_bind. rewrite H. reflexivity. Qed.

Section Pipeline.
Variable sqrt : xnum → xnum.

(** The three stages on a frame with the four columns they read, when
    [_calculate_obv] returns [obv] on it: nothing is raised, the four
    columns stay as they were and the columns of [indicator_columns] are
    there; [OBV] holds [obv]. *)
Lemma stages_columns (advanced : bool) (df : DataFrame) (c h l v obv : Series) :
  cols df !! "Close" = Some c →
  cols df !! "High" = Some h →
  cols df !! "Low" = Some l →
  cols df !! "Volume" = Some v →
  _calculate_obv df = Ok obv →
  ∃ df', (_add_technical_indicators sqrt advanced;;
          _add_volume_indicators;;
          _add_support_resistance) df = (Ok tt, df')
    ∧ nrows df' = nrows df
    ∧ cols df' !! "Open" = cols df !! "Open"
    ∧ cols df' !! "Close" = Some c
    ∧ cols df' !! "High" = Some h
    ∧ cols df' !! "Low" = Some l
    ∧ cols df' !! "Volume" = Some v
    ∧ cols df' !! "OBV" = Some obv
    ∧ cols df' !! "RSI" = Some (_calculate_rsi c 14)
    ∧ cols df' !! "MACD" = Some (MACD (_calculate_macd c 12 26 9))
    ∧ Forall (λ name, is_Some (cols df' !! name)) (indicator_columns advanced).
Proof.
  intros Hc Hh Hl Hv Hrun.
  assert (Hobv : ∀ d, nrows d = nrows df → cols d !! "Close" = Some c →
                   cols d !! "Volume" = Some v → _calculate_obv d = Ok obv).
  { intros d Hn Hdc Hdv. rewrite <- Hrun.
    apply calculate_obv_ext; [exact Hn | congruence | congruence]. }
  clear Hrun.
  remember (nrows df) as n eqn:Hn. symmetry in Hn.
  remember (cols df !! "Open") as o eqn:Ho. symmetry in Ho.
  unfold _add_technical_indicators, _add_volume_indicators, _add_support_resistance.
  destruct advanced; cbn [indicator_columns app].
  - repeat run_stage_step.
    exists df. split; [reflexivity |].
    repeat (split; [assumption |]).
    repeat (apply Forall_cons; split; [eexists; eassumption |]). apply Forall_nil. exact I.
  - repeat run_stage_step.
    exists df. split; [reflexivity |].
    repeat (split; [assumption |]).
    repeat (apply Forall_cons; split; [eexists; eassumption |]). apply Forall_nil. exact I.
Qed.
End Pipeline.

Lemma run_call_raises {A B} (f : DataFrame → result A) (e : exn) (k : A → M B)
  (df : DataFrame) :
  f df = Raise e → (call f ≫= k) df = (Raise e, df).
Proof. intros H. unfold mbind, M_bind, call. rewrite H. reflexivity. Qed.

Lemma getitem_missing (df : DataFrame) (c : string) :
  cols df !! c = None → getitem df c = Raise (KeyError c).
Proof. intros H. unfold getitem. rewrite H. reflexivity. Qed.

(** A helper that reads a column the frame does not hold raises. *)
Ltac reader_raises :=
  cbv beta;
  unfold _calculate_kdj, _calculate_atr, _calculate_stochastic,
    _calculate_williams_r, _calculate_cci, _calculate_mfi, _calculate_vwap,
    _calculate_pivot_points;
  repeat match goal with
         | H : cols ?df !! ?c = Some ?s |- context [getitem ?df ?c] =>
             rewrite (getitem_ok df c s H)
         | H : cols ?df !! ?c = None |- context [getitem ?df ?c] =>
             rewrite (getitem_missing df c H)
         end;
  reflexivity.

Ltac run_stages_until_raise :=
  repeat run_stage_step;
  first [ rewrite run_col_missing by assumption
        | erewrite run_call_raises by reader_raises ];
  eexists _, _; reflexivity.

Section Stages.
Variable sqrt : xnum → xnum.

(** Without a [Volume] column the three stages raise. *)
Lemma stages_without_volume (advanced : bool) (df : DataFrame) :
  cols df !! "Volume" = None →
  ∃ e df', (_add_technical_indicators sqrt advanced;;
            _add_volume_indicators;;
            _add_support_resistance) df = (Raise e, df').
Proof.
  intros Hv.
  unfold _add_technical_indicators, _add_volume_indicators, _add_support_resistance.
  destruct (cols df !! "Close") as [c |] eqn:Hc;
    [| rewrite !M_bind_assoc, run_col_missing by assumption;
       eexists _, _; reflexivity].
  destruct advanced; [| run_stages_until_raise].
  destruct (cols df !! "Low") as [l |] eqn:Hl; [| run_stages_until_raise].
  destruct (cols df !! "High") as [h |] eqn:Hh; [| run_stages_until_raise].
  run_stages_until_raise.
Qed.

End Stages.

(** ** The cache *)

Section CacheLaws.
Context {A W : Type}.
Implicit Types (cache : gmap string (CacheEntry A)).
Implicit Types (fetch_func : W → result (option A) * W).

(** A miss followed by a fetch that returns data stores the data with
    the time of the store. *)
Lemma store_on_miss cache (now stored_at : Q) (key : string) fetch_func
  (w w1 : W) (data : A) :
  _is_cache_valid cache now key = false →
  fetch_func w = (Ok (Some data), w1) →
  _get_cached_or_fetch cache now stored_at key fetch_func w
  = (Ok (Some data),
     <[key := {| entry_data := data; entry_timestamp := stored_at |}]> cache, w1).
Proof.
  intros Hmiss Hfetch. unfold _get_cached_or_fetch. rewrite Hmiss, Hfetch.
  reflexivity.
Qed.

(** An entry stored less than [cache_ttl] seconds ago is served. *)
Lemma serve_stored cache (now stored_at stored_at' : Q) (key : string) fetch_func
  (w : W) (data : A) :
  now - stored_at < cache_ttl →
  _get_cached_or_fetch
    (<[key := {| entry_data := data; entry_timestamp := stored_at |}]> cache)
    now stored_at' key fetch_func w
  = (Ok (Some data),
     <[key := {| entry_data := data; entry_timestamp := stored_at |}]> cache, w).
Proof.
  intros Hnew. unfold _get_cached_or_fetch, _is_cache_valid.
  rewrite lookup_insert_eq. cbn [entry_timestamp entry_data].
  apply Qltb_lt in Hnew. rewrite Hnew. reflexivity.
Qed.

(** X14: An entry younger than [cache_ttl] is returned as it is: the fetch
    function is not called (the world stays as it was) and the cache is
    not touched. *)
Theorem cache_hit_skips_fetch cache (now stored_at : Q) (key : string) fetch_func
  (w : W) (e : CacheEntry A) :
  cache !! key = Some e → now - entry_timestamp e < cache_ttl →
  _get_cached_or_fetch cache now stored_at key fetch_func w
  = (Ok (Some (entry_data e)), cache, w).
Proof.
  intros He Hnew. unfold _get_cached_or_fetch, _is_cache_valid. rewrite He.
  apply Qltb_lt in Hnew. rewrite Hnew. reflexivity.
Qed.

(** X15: What a fetch returned is stored under the key, with the time of the
    store, and no other key changes; from then on, and until [cache_ttl]
    seconds after the store, a call for the key returns it without
    fetching; after that the entry is no longer valid. *)
Theorem cache_store_then_hit cache (now stored_at : Q) (key : string) fetch_func
  (w w1 : W) (data : A) :
  _is_cache_valid cache now key = false →
  fetch_func w = (Ok (Some data), w1) →
  ∃ cache1,
    _get_cached_or_fetch cache now stored_at key fetch_func w
    = (Ok (Some data), cache1, w1)
    ∧ (∀ k, k ≠ key → cache1 !! k = cache !! k)
    ∧ (∀ now' stored_at' fetch_func' (w' : W),
         now' - stored_at < cache_ttl →
         _get_cached_or_fetch cache1 now' stored_at' key fetch_func' w'
         = (Ok (Some data), cache1, w'))
    ∧ (∀ now', cache_ttl <= now' - stored_at →
         _is_cache_valid cache1 now' key = false).
Proof.
  intros Hmiss Hfetch.
  rewrite (store_on_miss cache now stored_at key fetch_func w w1 data Hmiss Hfetch).
  eexists. split; [reflexivity |]. split; [| split].
  - intros k Hk. apply lookup_insert_ne. congruence.
  - intros now' stored_at' fetch_func' w' Hnew. apply serve_stored. exact Hnew.
  - intros now' Hold. unfold _is_cache_valid. rewrite lookup_insert_eq.
    cbn [entry_timestamp]. apply Qltb_ge. exact Hold.
Qed.

(** X16: When the fetch function returns [None] or raises, nothing is
    stored. *)
Theorem cache_keeps_no_failure cache (now stored_at : Q) (key : string) fetch_func
  (w w1 : W) (r : result (option A)) :
  _is_cache_valid cache now key = false →
  fetch_func w = (r, w1) → (∀ data, r ≠ Ok (Some data)) →
  _get_cached_or_fetch cache now stored_at key fetch_func w = (r, cache, w1).
Proof.
  intros Hmiss Hfetch Hr. unfold _get_cached_or_fetch. rewrite Hmiss, Hfetch.
  destruct r as [[data |] | e]; [| reflexivity | reflexivity].
  exfalso. exact (Hr data eq_refl).
Qed.

End CacheLaws.

Lemma cache_hit_skips_fetch_witness :
  _get_cached_or_fetch
    ({[ "k" := {| entry_data := 7%nat; entry_timestamp := 1000 |} ]})
    1299 1300 "k" (λ w : nat, (Ok (Some 8%nat), S w)) 0%nat
  = (Ok (Some 7%nat),
     {[ "k" := {| entry_data := 7%nat; entry_timestamp := 1000 |} ]}, 0%nat).
Proof.
  apply (cache_hit_skips_fetch
           ({[ "k" := {| entry_data := 7%nat; entry_timestamp := 1000 |} ]})
           1299 1300 "k" (λ w : nat, (Ok (Some 8%nat), S w)) 0%nat
           {| entry_data := 7%nat; entry_timestamp := 1000 |}).
  - reflexivity.
  - reflexivity.
Defined.

Lemma cache_store_then_hit_witness :
  ∃ cache1,
    _get_cached_or_fetch
      ({[ "k" := {| entry_data := 7%nat; entry_timestamp := 1000 |} ]})
      1300 1301 "k" (λ w : nat, (Ok (Some 8%nat), S w)) 0%nat
    = (Ok (Some 8%nat), cache1, 1%nat)
    ∧ (∀ k, k ≠ "k" →
         cache1 !! k
         = ({[ "k" := {| entry_data := 7%nat; entry_timestamp := 1000 |} ]}
              : gmap string (CacheEntry nat)) !! k)
    ∧ (∀ now' stored_at' fetch_func' (w' : nat),
         now' - 1301 < cache_ttl →
         _get_cached_or_fetch cache1 now' stored_at' "k" fetch_func' w'
         = (Ok (Some 8%nat), cache1, w'))
    ∧ (∀ now', cache_ttl <= now' - 1301 →
         _is_cache_valid cache1 now' "k" = false).
Proof.
  apply (cache_store_then_hit
           ({[ "k" := {| entry_data := 7%nat; entry_timestamp := 1000 |} ]})
           1300 1301 "k" (λ w : nat, (Ok (Some 8%nat), S w)) 0%nat 1%nat 8%nat).
  - reflexivity.
  - reflexivity.
Defined.

Lemma cache_keeps_no_failure_witness :
  _get_cached_or_fetch (∅ : gmap string (CacheEntry nat)) 1300 1301 "k"
    (λ w : nat, (Ok None, S w)) 0%nat
  = (Ok None, ∅, 1%nat).
Proof.
  apply (cache_keeps_no_failure (∅ : gmap string (CacheEntry nat)) 1300 1301 "k"
           (λ w : nat, (Ok None, S w)) 0%nat 1%nat (Ok None)).
  - reflexivity.
  - reflexivity.
  - intros data. discriminate.
Defined.

(** ** [get_enhanced_stock_data] *)

Section FetchLaws.
Variable sqrt : xnum → xnum.
Variable repr : value → string.
Context {Info W : Type}.
Variable yfinance : string → string → W → result (DataFrame * Info) * W.

(** [fetch_data] returns a pair in every case, never [None]. *)
Lemma fetch_data_returns_pair (symbol period : string) (advanced : bool) (w : W) :
  ∃ found w1,
    fetch_data sqrt yfinance symbol period advanced w = (Ok (Some found), w1).
Proof.
  unfold fetch_data.
  destruct (yfinance symbol period w) as [[[data info] | e] w1];
    [| eexists _, _; reflexivity].
  destruct (empty data); [eexists _, _; reflexivity |].
  destruct ((_add_technical_indicators sqrt advanced;; _add_volume_indicators;;
             _add_support_resistance) data) as [[[] | e] data'];
    eexists _, _; reflexivity.
Qed.

(** X17: [fetch_data] gives [(None, None)] when yfinance raises, when the
    history is empty and when the history has no [Volume] column. *)
Theorem fetch_data_failures (symbol period : string) (advanced : bool) (w w1 : W) :
  (∀ e, yfinance symbol period w = (Raise e, w1) →
     fetch_data sqrt yfinance symbol period advanced w
     = (Ok (Some (None, None)), w1))
  ∧ (∀ data info, yfinance symbol period w = (Ok (data, info), w1) →
       empty data = true →
       fetch_data sqrt yfinance symbol period advanced w
       = (Ok (Some (None, None)), w1))
  ∧ (∀ data info, yfinance symbol period w = (Ok (data, info), w1) →
       cols data !! "Volume" = None →
       fetch_data sqrt yfinance symbol period advanced w
       = (Ok (Some (None, None)), w1)).
Proof.
  unfold fetch_data. split; [| split].
  - intros e ->. reflexivity.
  - intros data info -> ->. reflexivity.
  - intros data info -> Hv. destruct (empty data); [reflexivity |].
    destruct (stages_without_volume sqrt advanced data Hv) as (e & df' & ->).
    reflexivity.
Qed.

(** X18: On a history of finite bars, one at least, [fetch_data] returns the
    frame with its five columns as they were and with the columns of
    [indicator_columns]; the [OBV] column is what [_calculate_obv] returns
    on the history. *)
Theorem fetch_data_on_ohlcv (symbol period : string) (advanced : bool) (w w1 : W)
  (df : DataFrame) (info : Info) (bars : list Bar) (b0 : Bar) :
  yfinance symbol period w = (Ok (df, info), w1) →
  ohlcv df bars → bars !! 0%nat = Some b0 →
  ∃ df' obv,
    fetch_data sqrt yfinance symbol period advanced w
    = (Ok (Some (Some df', Some info)), w1)
    ∧ ohlcv df' bars
    ∧ _calculate_obv df = Ok obv
    ∧ cols df' !! "OBV" = Some obv
    ∧ Forall (λ name, is_Some (cols df' !! name)) (indicator_columns advanced).
Proof.
  intros Hyf Hdf H0.
  pose proof (ohlcv_not_empty df bars b0 Hdf H0) as Hne.
  destruct (calculate_obv_steps df bars b0 Hdf H0) as (obv & Hobv & _).
  destruct Hdf as (Hn & Ho & Hh & Hl & Hc & Hv).
  destruct (stages_columns sqrt advanced df _ _ _ _ obv Hc Hh Hl Hv Hobv)
    as (df' & Hrun & Hn' & Ho' & Hc' & Hh' & Hl' & Hv' & Hobv' & _ & _ & Hall).
  exists df', obv. unfold fetch_data. rewrite Hyf, Hne, Hrun.
  split; [reflexivity |].
  split; [repeat split; congruence |].
  split; [exact Hobv |]. split; [exact Hobv' | exact Hall].
Qed.

(** X19: What the first call for a symbol and a period returns is what every
    call for them returns during the [cache_ttl] seconds after it,
    whatever its flag [include_advanced_indicators] and whatever yfinance
    would return by then, and yfinance is not called; this holds for the
    pair [(None, None)] of a failed fetch as for a frame. *)
Theorem first_result_is_served_again
  (cache : gmap string (CacheEntry (option DataFrame * option Info)))
  (now stored_at : Q) (symbol period : string) (advanced : bool) (w : W) :
  _is_cache_valid cache now (enhanced_stock_key repr symbol period) = false →
  ∃ found cache1 w1,
    get_enhanced_stock_data sqrt repr yfinance cache now stored_at symbol period
      advanced w
    = (Ok found, cache1, w1)
    ∧ fetch_data sqrt yfinance symbol period advanced w = (Ok (Some found), w1)
    ∧ (∀ e, yfinance symbol period w = (Raise e, w1) → found = (None, None))
    ∧ ∀ now' stored_at' advanced' (w' : W),
        now' - stored_at < cache_ttl →
        get_enhanced_stock_data sqrt repr yfinance cache1 now' stored_at' symbol
          period advanced' w'
        = (Ok found, cache1, w').
Proof.
  intros Hmiss.
  destruct (fetch_data_returns_pair symbol period advanced w) as (found & w1 & Hfetch).
  pose proof (store_on_miss cache now stored_at
                (enhanced_stock_key repr symbol period)
                (fetch_data sqrt yfinance symbol period advanced) w w1 found
                Hmiss Hfetch) as Hrun.
  eexists found, _, w1.
  split; [unfold get_enhanced_stock_data; fold (enhanced_stock_key repr symbol period);
          rewrite Hrun; reflexivity |].
  split; [exact Hfetch |]. split.
  - intros e Hyf. unfold fetch_data in Hfetch. rewrite Hyf in Hfetch.
    congruence.
  - intros now' stored_at' advanced' w' Hnew.
    unfold get_enhanced_stock_data. fold (enhanced_stock_key repr symbol period).
    rewrite (serve_stored _ now' stored_at stored_at' _ _ w' found Hnew).
    reflexivity.
Qed.

End FetchLaws.

(** ** The columns the three implementations share *)

Section SharedColumns.
Variable sqrt : xnum → xnum.

(** The moving averages, the MACD, the RSI and the bands
    [_add_technical_indicators] leaves. *)
Lemma add_technical_indicators_basic_columns (advanced : bool) (df : DataFrame)
  (c h l v : Series) :
  cols df !! "Close" = Some c →
  cols df !! "High" = Some h →
  cols df !! "Low" = Some l →
  cols df !! "Volume" = Some v →
  ∃ df', _add_technical_indicators sqrt advanced df = (Ok tt, df')
    ∧ cols df' !! "SMA_5" = Some (rolling_mean 5 c)
    ∧ cols df' !! "SMA_10" = Some (rolling_mean 10 c)
    ∧ cols df' !! "SMA_20" = Some (rolling_mean 20 c)
    ∧ cols df' !! "SMA_50" = Some (rolling_mean 50 c)
    ∧ cols df' !! "SMA_200" = Some (rolling_mean 200 c)
    ∧ cols df' !! "EMA_12" = Some (ewm_mean (alpha_of_span 12) true c)
    ∧ cols df' !! "EMA_26" = Some (ewm_mean (alpha_of_span 26) true c)
    ∧ cols df' !! "MACD" = Some (MACD (_calculate_macd c 12 26 9))
    ∧ cols df' !! "MACD_Signal" = Some (Signal (_calculate_macd c 12 26 9))
    ∧ cols df' !! "MACD_Histogram" = Some (Histogram (_calculate_macd c 12 26 9))
    ∧ cols df' !! "RSI" = Some (_calculate_rsi c 14)
    ∧ cols df' !! "BOLL" = Some (Middle (_calculate_bollinger_bands sqrt c 20 2))
    ∧ cols df' !! "BOLL_Upper" = Some (Upper (_calculate_bollinger_bands sqrt c 20 2))
    ∧ cols df' !! "BOLL_Lower" = Some (Lower (_calculate_bollinger_bands sqrt c 20 2)).
Proof.
  intros Hc Hh Hl Hv.
  unfold _add_technical_indicators. destruct advanced; run_all_statements.
Qed.


(** The columns of [calculate_technical_indicators] that
    [generate_trade_signals] reads, and the moving averages and bands
    beside them. *)
Lemma calculate_body_signal_columns (df : DataFrame) (c h l v : Series) :
  cols df !! "Close" = Some c →
  cols df !! "High" = Some h →
  cols df !! "Low" = Some l →
  cols df !! "Volume" = Some v →
  ∃ df', calculate_body sqrt df = (Ok tt, df')
    ∧ cols df' !! "Close" = Some c
    ∧ cols df' !! "SMA_20" = Some (rolling_mean 20 c)
    ∧ cols df' !! "SMA_50" = Some (rolling_mean 50 c)
    ∧ cols df' !! "SMA_200" = Some (rolling_mean 200 c)
    ∧ cols df' !! "RSI" = Some (_calculate_rsi c 14)
    ∧ cols df' !! "MACD"
      = Some (ssub (ewm_mean (alpha_of_span 12) false c)
                   (ewm_mean (alpha_of_span 26) false c))
    ∧ cols df' !! "MACD_Signal"
      = Some (ewm_mean (alpha_of_span 9) false
                (ssub (ewm_mean (alpha_of_span 12) false c)
                      (ewm_mean (alpha_of_span 26) false c)))
    ∧ cols df' !! "BB_Middle" = Some (Middle (_calculate_bollinger_bands sqrt c 20 2))
    ∧ cols df' !! "BB_Upper" = Some (Upper (_calculate_bollinger_bands sqrt c 20 2))
    ∧ cols df' !! "BB_Lower" = Some (Lower (_calculate_bollinger_bands sqrt c 20 2))
    ∧ cols df' !! "Stoch_K"
      = Some (scale 100 (sdiv (ssub c (rolling_min 14 l))
                              (ssub (rolling_max 14 h) (rolling_min 14 l))))
    ∧ cols df' !! "ATR"
      = Some (rolling_mean 14
                (row_max3 (ssub h l) (sabs (ssub h (shift c)))
                   (sabs (ssub l (shift c))))).
Proof.
  intros Hc Hh Hl Hv.
  unfold calculate_body. run_all_statements.
Qed.

End SharedColumns.

Section Agreement.
Variable sqrt : xnum → xnum.


(** X21: The simple moving averages of [_add_technical_indicators] on finite
    bars: a row with fewer than [w] rows up to it is [NaN]; any other row
    holds the mean of the last [w] closes.  The three Bollinger columns
    are [NaN] on the rows with fewer than 20 rows up to them. *)
Theorem moving_average_rows (advanced : bool) (df : DataFrame) (bars : list Bar)
  (i : nat) (b : Bar) :
  ohlcv df bars → bars !! i = Some b →
  ∃ df', _add_technical_indicators sqrt advanced df = (Ok tt, df')
    ∧ Forall (λ column : string * nat,
                let w := column.2 in
                cell df' column.1 i
                = Some (if (w <=? i + 1)%nat
                        then Fin (trailing_mean w (λ k, nth k (close <$> bars) 0) i)
                        else NaN)) sma_columns
    ∧ ((i + 1 < 20)%nat →
         Forall (λ name, cell df' name i = Some NaN) bollinger_columns).
Proof.
  intros (Hn & _ & Hh & Hl & Hc & Hv) Hi.
  destruct (add_technical_indicators_basic_columns sqrt advanced df _ _ _ _ Hc Hh Hl Hv)
    as (df' & Hrun & A5 & A10 & A20 & A50 & A200 & _ & _ & _ & _ & _
        & _ & AB & ABU & ABL).
  exists df'. split; [exact Hrun |].
  assert (Hx : column close bars !! i = Some (Fin (close b)))
    by (rewrite column_lookup, Hi; reflexivity).
  assert (Hlen : (i < length (column close bars))%nat)
    by (apply lookup_lt_Some in Hx; exact Hx).
  assert (Hsma : ∀ w, (0 < w)%nat →
            rolling_mean w (column close bars) !! i
            = Some (if (w <=? i + 1)%nat
                    then Fin (trailing_mean w (λ k, nth k (close <$> bars) 0) i)
                    else NaN)).
  { intros w Hw. destruct (w <=? i + 1)%nat eqn:E.
    - apply Nat.leb_le in E. apply rolling_mean_finite; [exact Hw | exact E | exact Hlen |].
      intros k Hk. rewrite column_lookup.
      destruct (lookup_lt_is_Some_2 bars k) as [bk Hbk];
        [apply lookup_lt_Some in Hi; lia |].
      rewrite Hbk. cbn. f_equal. f_equal.
      symmetry. apply nth_lookup_Some with (d := 0).
      rewrite list_lookup_fmap, Hbk. reflexivity.
    - apply Nat.leb_gt in E. exact (rolling_warm_up w _ _ i _ Hx E). }
  split.
  - unfold sma_columns, cell.
    repeat (apply Forall_cons; split;
            [cbn [fst snd];
             first [rewrite A5 | rewrite A10 | rewrite A20 | rewrite A50 | rewrite A200];
             cbn [mbind option_bind]; apply Hsma; lia |]).
    apply Forall_nil. exact I.
  - intros Hwarm. unfold bollinger_columns, cell.
    pose proof (rolling_warm_up 20 xmean _ i _ Hx Hwarm) as Hm.
    pose proof (rolling_warm_up 20 (λ win, sqrt (xvar win)) _ i _ Hx Hwarm) as Hs.
    repeat (apply Forall_cons; split;
            [first [rewrite AB | rewrite ABU | rewrite ABL];
             cbn [mbind option_bind Middle Upper Lower _calculate_bollinger_bands];
             unfold rolling_mean, rolling_std; series_lookup;
             rewrite ?Hm, ?Hs; reflexivity |]).
    apply Forall_nil. exact I.
Qed.

End Agreement.

(** ** The technical score on a history of one row *)

Lemma last_or_zero_nan (data : DataFrame) (c : string) (s : Series) (i : nat) :
  cols data !! c = Some s → length s = S i → s !! i = Some NaN →
  Metrics.last_or_zero data c = Ok (Fin 0).
Proof.
  intros Hc Hlen Hx. unfold Metrics.last_or_zero.
  rewrite bool_decide_eq_true_2 by (rewrite Hc; eauto).
  rewrite (getitem_ok data c s Hc). cbn [mbind result_bind].
  rewrite (iloc_last_lookup (isna s) i true);
    [| unfold isna; rewrite length_fmap; exact Hlen
     | unfold isna; rewrite list_lookup_fmap, Hx; reflexivity].
  reflexivity.
Qed.

Lemma last_or_zero_finite (data : DataFrame) (c : string) (s : Series) (i : nat)
  (q : Q) :
  cols data !! c = Some s → length s = S i → s !! i = Some (Fin q) →
  Metrics.last_or_zero data c = Ok (Fin q).
Proof.
  intros Hc Hlen Hx. unfold Metrics.last_or_zero.
  rewrite bool_decide_eq_true_2 by (rewrite Hc; eauto).
  rewrite (getitem_ok data c s Hc). cbn [mbind result_bind].
  rewrite (iloc_last_lookup (isna s) i false);
    [| unfold isna; rewrite length_fmap; exact Hlen
     | unfold isna; rewrite list_lookup_fmap, Hx; reflexivity].
  cbn [mbind result_bind negb]. exact (iloc_last_lookup s i (Fin q) Hlen Hx).
Qed.

Section OneRow.
Variable sqrt : xnum → xnum.
Context {Info W : Type}.
Variable yfinance : string → string → W → result (DataFrame * Info) * W.

(** X22: When the history has a single bar, as a history of one day has,
    [fetch_data] returns a frame on which
    [_get_enhanced_financial_metrics] reads an RSI of 0 (the only row is
    [NaN]) and a MACD of zero, whatever the prices: the RSI counts as
    oversold (+1) and the MACD as bearish (-0.5), and the technical score
    is 1, 0.5 or 0.2 according to the volume ratio alone. *)
Theorem one_row_technical_score (symbol period : string) (advanced : bool)
  (w w1 : W) (df : DataFrame) (info0 : Info) (b : Bar) :
  yfinance symbol period w = (Ok (df, info0), w1) → ohlcv df [b] →
  ∃ df',
    fetch_data sqrt yfinance symbol period advanced w
    = (Ok (Some (Some df', Some info0)), w1)
    ∧ ∀ info current_price r,
        Metrics._get_enhanced_financial_metrics info df' current_price = Ok r →
        Metrics.rsi r = Fin 0
        ∧ (∃ m, Metrics.macd r = Fin m ∧ m == 0)
        ∧ (Metrics.technical_score r == 1
           ∨ Metrics.technical_score r == 0.5
           ∨ Metrics.technical_score r == 0.2).
Proof.
  intros Hyf Hdf.
  pose proof (ohlcv_not_empty df [b] b Hdf eq_refl) as Hne.
  destruct (calculate_obv_steps df [b] b Hdf eq_refl) as (obv & Hobv & _).
  destruct Hdf as (Hn & Ho & Hh & Hl & Hc & Hv).
  destruct (stages_columns sqrt advanced df _ _ _ _ obv Hc Hh Hl Hv Hobv)
    as (df' & Hrun & _ & _ & _ & _ & _ & _ & _ & HR & HM & _).
  exists df'. unfold fetch_data. rewrite Hyf, Hne, Hrun.
  split; [reflexivity |].
  intros info current_price r H.
  unfold Metrics._get_enhanced_financial_metrics in H.
  rewrite (last_or_zero_nan df' "RSI" _ 0 HR eq_refl eq_refl) in H.
  rewrite (last_or_zero_finite df' "MACD" _ 0 (close b + - close b) HM eq_refl eq_refl)
    in H.
  repeat match type of H with
         | (mbind _ ?m) = _ =>
             destruct m; cbn [mbind result_bind] in H; [| discriminate H]
         end.
  injection H as <-.
  cbn [Metrics.technical_score Metrics.rsi Metrics.macd].
  split; [reflexivity |]. split; [eexists; split; [reflexivity | ring] |].
  assert (Hm : Qltb 0 (close b + - close b) = false) by (apply Qltb_ge; lra).
  rewrite Hm.
  repeat match goal with
         | |- context [if ?b then _ else _] => destruct b
         end;
    [left | right; right | right; left]; lra.
Qed.

End OneRow.

Lemma one_row_technical_score_witness :
  ∃ df',
    fetch_data no_sqrt
      (λ (symbol period : string) (w : nat),
         (Ok (frame_of [flat_bar 7], "info"), S w)) "EXM" "1d" true 0%nat
    = (Ok (Some (Some df', Some "info")), 1%nat)
    ∧ ∀ info current_price r,
        Metrics._get_enhanced_financial_metrics info df' current_price = Ok r →
        Metrics.rsi r = Fin 0
        ∧ (∃ m, Metrics.macd r = Fin m ∧ m == 0)
        ∧ (Metrics.technical_score r == 1
           ∨ Metrics.technical_score r == 0.5
           ∨ Metrics.technical_score r == 0.2).
Proof.
  apply (one_row_technical_score no_sqrt
           (λ (symbol period : string) (w : nat),
              (Ok (frame_of [flat_bar 7], "info"), S w))
           "EXM" "1d" true 0%nat 1%nat (frame_of [flat_bar 7]) "info" (flat_bar 7)).
  - reflexivity.
  - apply ohlcv_frame_of.
Defined.

(** ** Trade signals *)

Lemma count_tag_app (tag : string) (l : list (string * string)) (name tag' : string) :
  count_tag tag (l ++ [(name, tag')])
  = (count_tag tag l + if decide (tag' = tag) then 1 else 0)%nat.
Proof.
  unfold count_tag. rewrite filter_app, length_app. f_equal.
  rewrite filter_cons, filter_nil. cbn [snd].
  destruct (decide (tag' = tag)); reflexivity.
Qed.

Lemma counted_weaken (n : nat) (st : Counts) : counted n st → counted (S n) st.
Proof. destruct st as [[signals b] be]. cbn. intros (? & ? & ?). repeat split; [lia | assumption ..]. Qed.

Lemma counted_bullish (n : nat) (name : string) (st : Counts) :
  counted n st → counted (S n) (bullish name st).
Proof.
  destruct st as [[signals b] be]. cbn. intros (Hlen & -> & ->).
  rewrite length_app, !count_tag_app. cbn [length].
  repeat case_decide; try congruence; repeat split; lia.
Qed.

Lemma counted_bearish (n : nat) (name : string) (st : Counts) :
  counted n st → counted (S n) (bearish name st).
Proof.
  destruct st as [[signals b] be]. cbn. intros (Hlen & -> & ->).
  rewrite length_app, !count_tag_app. cbn [length].
  repeat case_decide; try congruence; repeat split; lia.
Qed.

Lemma counted_neutral (n : nat) (name : string) (st : Counts) :
  counted n st → counted (S n) (neutral name st).
Proof.
  destruct st as [[signals b] be]. cbn. intros (Hlen & -> & ->).
  rewrite length_app, !count_tag_app. cbn [length].
  repeat case_decide; try congruence; repeat split; lia.
Qed.

(** Each of the four blocks adds one signal at most and keeps the
    counters right. *)
Ltac block_counted H :=
  unfold mbind, result_bind in H;
  repeat (case_match; try discriminate);
  injection H as <-;
  first [ apply counted_bullish; assumption
        | apply counted_bearish; assumption
        | apply counted_neutral; assumption
        | apply counted_weaken; assumption ].

Lemma rsi_signal_counted (df : DataFrame) (n : nat) (st st' : Counts) :
  counted n st → rsi_signal df st = Ok st' → counted (S n) st'.
Proof. intros Hst H. unfold rsi_signal in H. block_counted H. Qed.

Lemma macd_signal_counted (df : DataFrame) (n : nat) (st st' : Counts) :
  counted n st → macd_signal df st = Ok st' → counted (S n) st'.
Proof. intros Hst H. unfold macd_signal in H. block_counted H. Qed.

Lemma moving_average_signal_counted (df : DataFrame) (n : nat) (st st' : Counts) :
  counted n st → moving_average_signal df st = Ok st' → counted (S n) st'.
Proof. intros Hst H. unfold moving_average_signal in H. block_counted H. Qed.

Lemma bollinger_signal_counted (df : DataFrame) (n : nat) (st st' : Counts) :
  counted n st → bollinger_signal df st = Ok st' → counted (S n) st'.
Proof. intros Hst H. unfold bollinger_signal in H. block_counted H. Qed.

Lemma signals_of_majority (df : DataFrame) (ts : TradeSignals) :
  signals_of df = Ok ts → majority ts.
Proof.
  unfold signals_of. intros H.
  assert (H0 : counted 0 ([], 0%nat, 0%nat)) by (cbn; repeat split; lia).
  destruct (rsi_signal df _) as [st1 |] eqn:H1; [| discriminate H].
  apply (rsi_signal_counted df 0 _ st1 H0) in H1. cbn [mbind result_bind] in H.
  destruct (macd_signal df _) as [st2 |] eqn:H2; [| discriminate H].
  apply (macd_signal_counted df 1 _ st2 H1) in H2. cbn [mbind result_bind] in H.
  destruct (moving_average_signal df _) as [st3 |] eqn:H3; [| discriminate H].
  apply (moving_average_signal_counted df 2 _ st3 H2) in H3.
  cbn [mbind result_bind] in H.
  destruct (bollinger_signal df _) as [st4 |] eqn:H4; [| discriminate H].
  apply (bollinger_signal_counted df 3 _ st4 H3) in H4.
  cbn [mbind result_bind] in H.
  destruct st4 as [[sigs b] be]. injection H as <-.
  destruct H4 as (Hlen & -> & ->). unfold majority. cbn [signals overall].
  split; [exact Hlen |].
  destruct (Nat.ltb_spec (count_tag "BEARISH" sigs) (count_tag "BULLISH" sigs));
    [| destruct (Nat.ltb_spec (count_tag "BULLISH" sigs) (count_tag "BEARISH" sigs))];
    repeat split; intros; first [lia | discriminate | reflexivity].
Qed.

Section Signals.
Variable sqrt : xnum → xnum.

(** X23: Whenever [generate_trade_signals] returns, there are four signals at
    most and the verdict is BULLISH when more signals are BULLISH than
    BEARISH, BEARISH when more are BEARISH, NEUTRAL when they are as
    many; without a frame, or on an empty one, it is NEUTRAL with no
    signal. *)
Theorem trade_signals_majority (df : option DataFrame) (ts : TradeSignals) :
  generate_trade_signals sqrt df = Ok ts →
  majority ts
  ∧ (match df with None => True | Some df => empty df = true end →
     ts = {| overall := "NEUTRAL"; signals := [] |}).
Proof.
  unfold generate_trade_signals. intros H. split.
  - destruct df as [df |];
      [| injection H as <-; unfold majority; cbn; repeat split; intros; first [lia | discriminate | reflexivity]].
    destruct (empty df);
      [injection H as <-; unfold majority; cbn; repeat split; intros; first [lia | discriminate | reflexivity] |].
    destruct (calculate_technical_indicators sqrt (Some df)) as [[df' |] |];
      cbn [mbind result_bind] in H; try discriminate H.
    exact (signals_of_majority df' ts H).
  - destruct df as [df |]; [intros He; rewrite He in H |];
      injection H as <-; reflexivity.
Qed.

End Signals.

Lemma trade_signals_majority_witness :
  ∃ ts, generate_trade_signals no_sqrt (Some (frame_of [flat_bar 1; flat_bar 2])) = Ok ts
  ∧ majority ts
  ∧ (empty (frame_of [flat_bar 1; flat_bar 2]) = true →
     ts = {| overall := "NEUTRAL"; signals := [] |}).
Proof.
  eexists. split; [vm_compute; reflexivity |].
  apply (trade_signals_majority no_sqrt (Some (frame_of [flat_bar 1; flat_bar 2]))).
  vm_compute. reflexivity.
Defined.

(** ** Trade signals on a short history *)

Ltac series_length :=
  unfold _calculate_rsi, index_of_ratio, diff, where_, sgtc, sltc, sneg, sabs,
    sdiv, ssub, sadd, smul, scale, sdivc, rolling_mean, rolling_std, rolling_sum,
    rolling_min, rolling_max;
  repeat first [ rewrite length_zip_with | rewrite length_fmap
               | rewrite rolling_length | rewrite ewm_mean_length
               | rewrite shift_length | rewrite column_length ];
  try lia.

Lemma in_columns_true (df : DataFrame) (c : string) (s : Series) :
  cols df !! c = Some s → in_columns c df = true.
Proof. intros H. unfold in_columns. rewrite H. apply bool_decide_eq_true. eauto. Qed.

(** Before fourteen rows exist the RSI is [NaN]. *)
Lemma rsi_warm_up (c : Series) (i : nat) (x : xnum) :
  c !! i = Some x → (i + 1 < 14)%nat → _calculate_rsi c 14 !! i = Some NaN.
Proof.
  intros Hx Hi. apply lookup_lt_Some in Hx as Hlen.
  unfold _calculate_rsi. set (delta := diff c).
  destruct (lookup_lt_is_Some_2 (where_ delta (sgtc delta 0) (Fin 0)) i) as [g Hg];
    [subst delta; series_length |].
  destruct (lookup_lt_is_Some_2 (sneg (where_ delta (sltc delta 0) (Fin 0))) i)
    as [lo Hlo]; [subst delta; series_length |].
  unfold index_of_ratio, sdiv, rolling_mean.
  rewrite list_lookup_fmap, lookup_zip_with.
  rewrite (rolling_warm_up 14 xmean _ i g Hg Hi).
  rewrite (rolling_warm_up 14 xmean _ i lo Hlo Hi). reflexivity.
Qed.

(** A series of finite values is the image of a list of rationals. *)
Lemma finite_series (s : Series) :
  (∀ i x, s !! i = Some x → ∃ q, x = Fin q) → ∃ qs, s = Fin <$> qs.
Proof.
  induction s as [| x s IH]; intros H; [exists []; reflexivity |].
  destruct (H 0%nat x eq_refl) as [q ->].
  destruct IH as [qs ->]; [intros i y Hy; exact (H (S i) y Hy) |].
  exists (q :: qs). reflexivity.
Qed.

(** The MACD line and its signal line of [calculate_technical_indicators]
    are finite on finite closes. *)
Lemma macd_lines_finite (xs : list Q) (i : nat) (x : Q) :
  xs !! i = Some x →
  let macd := ssub (ewm_mean (alpha_of_span 12) false (Fin <$> xs))
                   (ewm_mean (alpha_of_span 26) false (Fin <$> xs)) in
  ∃ m sg, macd !! i = Some (Fin m)
          ∧ ewm_mean (alpha_of_span 9) false macd !! i = Some (Fin sg).
Proof.
  intros Hx macd.
  assert (Hcell : ∀ j y, xs !! j = Some y → ∃ m, macd !! j = Some (Fin m)).
  { intros j y Hy.
    destruct (ewm_noadjust_spec (alpha_of_span 12) xs j y Hy) as (y12 & H12 & _).
    destruct (ewm_noadjust_spec (alpha_of_span 26) xs j y Hy) as (y26 & H26 & _).
    subst macd. unfold ssub. rewrite lookup_zip_with, H12, H26. eexists. reflexivity. }
  destruct (finite_series macd) as [ms Hms].
  { intros j y Hy.
    destruct (lookup_lt_is_Some_2 xs j) as [z Hz].
    { apply lookup_lt_Some in Hy. revert Hy. subst macd. series_length. }
    destruct (Hcell j z Hz) as [m Hm]. rewrite Hm in Hy. injection Hy as <-. eauto. }
  destruct (Hcell i x Hx) as [m Hm]. exists m.
  rewrite Hms in Hm |- *. rewrite list_lookup_fmap in Hm.
  destruct (ms !! i) as [m' |] eqn:Hm'; [| discriminate Hm].
  destruct (ewm_noadjust_spec (alpha_of_span 9) ms i m' Hm') as (sg & Hsg & _).
  exists sg. split; [rewrite list_lookup_fmap, Hm'; exact Hm | exact Hsg].
Qed.

Section ShortHistory.
Variable sqrt : xnum → xnum.

(** X24: On a history of one to thirteen finite bars
    [generate_trade_signals] gives exactly one signal, the MACD cross, and
    its verdict is the tag of that signal, never NEUTRAL; on a single bar
    it is BEARISH. *)
Theorem short_history_has_one_signal (df : DataFrame) (bars : list Bar) :
  ohlcv df bars → (1 ≤ length bars ≤ 13)%nat →
  ∃ name tag,
    generate_trade_signals sqrt (Some df)
    = Ok {| overall := tag; signals := [(name, tag)] |}
    ∧ ((name, tag) = ("MACD Bullish Cross", "BULLISH")
       ∨ (name, tag) = ("MACD Bearish Cross", "BEARISH"))
    ∧ (length bars = 1%nat → tag = "BEARISH").
Proof.
  intros Hdf Hlen.
  destruct (lookup_lt_is_Some_2 bars 0) as [b0 H0]; [lia |].
  pose proof (ohlcv_not_empty df bars b0 Hdf H0) as Hne.
  destruct Hdf as (Hn & _ & Hh & Hl & Hc & Hv).
  destruct (calculate_body_signal_columns sqrt df _ _ _ _ Hc Hh Hl Hv)
    as (df' & Hrun & Cc & _ & C50 & C200 & CR & CM & CMS & _ & CBU & CBL & _).
  set (i := (length bars - 1)%nat).
  destruct (lookup_lt_is_Some_2 bars i) as [b Hb]; [lia |].
  assert (Hx : column close bars !! i = Some (Fin (close b)))
    by (rewrite column_lookup, Hb; reflexivity).
  assert (HS : ∀ A (l : list A), length l = length bars → length l = S i)
    by (intros; lia).
  unfold generate_trade_signals, calculate_technical_indicators.
  rewrite Hne, Hrun. cbn [mbind result_bind]. unfold signals_of.
  (* RSI *)
  unfold rsi_signal. rewrite (in_columns_true df' _ _ CR), (getitem_ok df' _ _ CR).
  cbn [mbind result_bind].
  rewrite (iloc_last_lookup (_calculate_rsi (column close bars) 14) i NaN);
    [| apply HS; series_length | apply (rsi_warm_up _ i _ Hx); lia].
  cbn [mbind result_bind notna isnan negb].
  (* MACD *)
  unfold macd_signal.
  rewrite (in_columns_true df' _ _ CM), (in_columns_true df' _ _ CMS),
    (getitem_ok df' _ _ CM), (getitem_ok df' _ _ CMS).
  cbn [andb mbind result_bind].
  destruct (macd_lines_finite (close <$> bars) i (close b)) as (m & sg & Hm & Hsg);
    [rewrite list_lookup_fmap, Hb; reflexivity |].
  cbn zeta in Hm, Hsg. rewrite <- !(column_as_fmap close bars) in Hm, Hsg.
  set (macd := ssub (ewm_mean (alpha_of_span 12) false (column close bars))
                    (ewm_mean (alpha_of_span 26) false (column close bars))) in *.
  rewrite (iloc_last_lookup macd i (Fin m));
    [| apply HS; subst macd; series_length | exact Hm].
  cbn [mbind result_bind].
  rewrite (iloc_last_lookup (ewm_mean (alpha_of_span 9) false macd) i (Fin sg));
    [| apply HS; subst macd; series_length | exact Hsg].
  cbn [mbind result_bind notna isnan negb andb].
  (* Moving averages *)
  assert (Hafter : ∀ st : Counts,
            (moving_average_signal df' st ≫= bollinger_signal df') = Ok st).
  { intros st. unfold moving_average_signal.
    rewrite (in_columns_true df' _ _ C50), (in_columns_true df' _ _ C200),
      (getitem_ok df' _ _ C50), (getitem_ok df' _ _ C200), (getitem_ok df' _ _ Cc).
    cbn [andb mbind result_bind].
    rewrite (iloc_last_lookup (rolling_mean 50 (column close bars)) i NaN);
      [| apply HS; series_length
       | apply (rolling_warm_up 50 xmean _ i _ Hx); lia].
    cbn [mbind result_bind].
    rewrite (iloc_last_lookup (rolling_mean 200 (column close bars)) i NaN);
      [| apply HS; series_length
       | apply (rolling_warm_up 200 xmean _ i _ Hx); lia].
    cbn [mbind result_bind].
    rewrite (iloc_last_lookup (column close bars) i (Fin (close b)));
      [| apply HS; series_length | exact Hx].
    cbn [mbind result_bind notna isnan negb andb].
    unfold bollinger_signal.
    rewrite (in_columns_true df' _ _ CBU), (in_columns_true df' _ _ CBL),
      (getitem_ok df' _ _ CBU), (getitem_ok df' _ _ CBL), (getitem_ok df' _ _ Cc).
    cbn [andb mbind result_bind].
    rewrite (iloc_last_lookup (column close bars) i (Fin (close b)));
      [| apply HS; series_length | exact Hx].
    cbn [mbind result_bind].
    pose proof (rolling_warm_up 20 xmean _ i _ Hx ltac:(lia)) as Hmid.
    pose proof (rolling_warm_up 20 (λ win, sqrt (xvar win)) _ i _ Hx ltac:(lia)) as Hstd.
    rewrite (iloc_last_lookup
               (Upper (_calculate_bollinger_bands sqrt (column close bars) 20 2))
               i NaN);
      [| apply HS; cbn [Upper _calculate_bollinger_bands]; series_length
       | cbn [Upper _calculate_bollinger_bands];
         unfold rolling_mean, rolling_std; series_lookup; rewrite Hmid, Hstd;
         reflexivity].
    cbn [mbind result_bind].
    rewrite (iloc_last_lookup
               (Lower (_calculate_bollinger_bands sqrt (column close bars) 20 2))
               i NaN);
      [| apply HS; cbn [Lower _calculate_bollinger_bands]; series_length
       | cbn [Lower _calculate_bollinger_bands];
         unfold rolling_mean, rolling_std; series_lookup; rewrite Hmid, Hstd;
         reflexivity].
    reflexivity. }
  assert (Hone : length bars = 1%nat → xgtb (Fin m) (Fin sg) = false).
  { intros H1. destruct bars as [| b1 [| ? ?]]; try discriminate H1.
    subst macd i. cbn in Hm, Hsg. injection Hm as <-. injection Hsg as <-.
    unfold xgtb, xltb. apply Qltb_ge. apply Qle_refl. }
  destruct (xgtb (Fin m) (Fin sg)) eqn:Hcross.
  - cbn [mbind result_bind].
    pose proof (Hafter (bullish "MACD Bullish Cross" ([], 0%nat, 0%nat))) as Ha.
    destruct (moving_average_signal df' _) as [st3 |]; [| discriminate Ha].
    cbn [mbind result_bind] in Ha |- *. rewrite Ha. cbn.
    eexists _, _. split; [reflexivity |]. split; [left; reflexivity |].
    intros H1. discriminate (Hone H1).
  - cbn [mbind result_bind].
    pose proof (Hafter (bearish "MACD Bearish Cross" ([], 0%nat, 0%nat))) as Ha.
    destruct (moving_average_signal df' _) as [st3 |]; [| discriminate Ha].
    cbn [mbind result_bind] in Ha |- *. rewrite Ha. cbn.
    eexists _, _. split; [reflexivity |]. split; [right; reflexivity |].
    intros _. reflexivity.
Qed.

End ShortHistory.

Lemma short_history_has_one_signal_witness :
  ∃ name tag,
    generate_trade_signals no_sqrt (Some (frame_of [flat_bar 1; flat_bar 2]))
    = Ok {| overall := tag; signals := [(name, tag)] |}
    ∧ ((name, tag) = ("MACD Bullish Cross", "BULLISH")
       ∨ (name, tag) = ("MACD Bearish Cross", "BEARISH"))
    ∧ (length [flat_bar 1; flat_bar 2] = 1%nat → tag = "BEARISH").
Proof.
  apply (short_history_has_one_signal no_sqrt (frame_of [flat_bar 1; flat_bar 2])
           [flat_bar 1; flat_bar 2]).
  - apply ohlcv_frame_of.
  - cbn. lia.
Defined.

(** ** Portfolio metrics *)

Lemma portfolio_loop (portfolio : list (string * Holding)) :
  ∀ tv tc perfs,
    fold_left portfolio_step portfolio (tv, tc, perfs)
    = (fold_left Qplus (holding_value <$> portfolio) tv,
       fold_left Qplus (holding_cost <$> portfolio) tc,
       perfs ++ (performance <$> portfolio)).
Proof.
  induction portfolio as [| [symbol data] portfolio IH]; intros tv tc perfs.
  - cbn. rewrite app_nil_r. reflexivity.
  - cbn [fold_left portfolio_step fmap list_fmap]. rewrite IH.
    rewrite <- app_assoc. reflexivity.
Qed.

Lemma insert_performance_elem (p q : string * Q) (l : list (string * Q)) :
  q ∈ insert_performance p l ↔ q = p ∨ q ∈ l.
Proof.
  induction l as [| p' l IH]; cbn [insert_performance].
  - rewrite elem_of_cons. reflexivity.
  - destruct (Qltb p.2 p'.2).
    + rewrite !elem_of_cons, IH. tauto.
    + rewrite !elem_of_cons. tauto.
Qed.

Lemma sort_performances_elem (q : string * Q) (l : list (string * Q)) :
  q ∈ sort_performances l ↔ q ∈ l.
Proof.
  induction l as [| p l IH]; [reflexivity |].
  unfold sort_performances in *. cbn [foldr].
  rewrite insert_performance_elem, elem_of_cons, IH. reflexivity.
Qed.

Lemma insert_performance_falling (p : string * Q) (l : list (string * Q)) :
  falling l → falling (insert_performance p l).
Proof.
  induction l as [| p' l IH]; intros Hl; cbn [insert_performance].
  - split; [intros q Hq; apply elem_of_nil in Hq; contradiction | exact I].
  - destruct Hl as [Htop Hl].
    destruct (Qltb p.2 p'.2) eqn:E; [apply Qltb_lt in E | apply Qltb_ge in E].
    + split; [| exact (IH Hl)].
      intros q Hq. apply insert_performance_elem in Hq as [-> | Hq];
        [lra | exact (Htop q Hq)].
    + split; [| split; assumption].
      intros q Hq. apply elem_of_cons in Hq as [-> | Hq]; [exact E |].
      pose proof (Htop q Hq). lra.
Qed.

Lemma sort_performances_falling (l : list (string * Q)) :
  falling (sort_performances l).
Proof.
  induction l as [| p l IH]; [exact I |].
  unfold sort_performances in *. cbn [foldr].
  apply insert_performance_falling. exact IH.
Qed.

Lemma falling_last (l : list (string * Q)) (z : string * Q) :
  falling l → last l = Some z → bottoms z l.
Proof.
  induction l as [| p l IH]; intros Hl Hz; [discriminate Hz |].
  destruct Hl as [Htop Hl]. destruct l as [| p' l].
  - injection Hz as <-. intros q Hq. apply elem_of_cons in Hq as [-> | Hq]; [lra |].
    apply elem_of_nil in Hq. contradiction.
  - change (last (p :: p' :: l)) with (last (p' :: l)) in Hz.
    intros q Hq. apply elem_of_cons in Hq as [-> | Hq]; [| exact (IH Hl Hz q Hq)].
    apply Htop. apply last_Some_elem_of. exact Hz.
Qed.

Lemma calculate_portfolio_metrics_cons (item : string * Holding)
  (portfolio : list (string * Holding)) :
  let items := item :: portfolio in
  let tv := Py.sum (holding_value <$> items) in
  let tc := Py.sum (holding_cost <$> items) in
  calculate_portfolio_metrics items
  = {| total_value := tv; total_cost := tc; total_pl := tv - tc;
       total_pl_pct := if Qltb 0 tc then (tv - tc) / tc * 100 else 0;
       best_performer := head (sort_performances (performance <$> items));
       worst_performer := last (sort_performances (performance <$> items)) |}.
Proof.
  cbv zeta. unfold calculate_portfolio_metrics.
  rewrite (portfolio_loop (item :: portfolio) 0 0 []). reflexivity.
Qed.

(** X25: [calculate_portfolio_metrics]: the totals are the sums over the
    holdings and the P&L is their difference; the percentage is taken only
    of a positive cost; the best performer is an entry that no entry
    exceeds and the worst one that none undercuts; an empty portfolio has
    neither. *)
Theorem portfolio_metrics (portfolio : list (string * Holding)) :
  let m := calculate_portfolio_metrics portfolio in
  total_value m == Py.sum (holding_value <$> portfolio)
  ∧ total_cost m == Py.sum (holding_cost <$> portfolio)
  ∧ total_pl m == total_value m - total_cost m
  ∧ (0 < total_cost m → total_pl_pct m == total_pl m / total_cost m * 100)
  ∧ (total_cost m <= 0 → total_pl_pct m == 0)
  ∧ match portfolio with
    | [] => best_performer m = None ∧ worst_performer m = None
    | _ =>
        ∃ best worst,
          best_performer m = Some best ∧ worst_performer m = Some worst
          ∧ best ∈ performance <$> portfolio
          ∧ worst ∈ performance <$> portfolio
          ∧ tops best (performance <$> portfolio)
          ∧ bottoms worst (performance <$> portfolio)
    end.
Proof.
  destruct portfolio as [| item portfolio];
    [cbn; repeat split; first [reflexivity | intros; lra] |].
  rewrite calculate_portfolio_metrics_cons.
  set (items := item :: portfolio).
  cbn [total_value total_cost total_pl total_pl_pct best_performer worst_performer].
  set (tv := Py.sum (holding_value <$> items)).
  set (tc := Py.sum (holding_cost <$> items)).
  cbv zeta.
  split; [reflexivity |]. split; [reflexivity |]. split; [reflexivity |].
  split; [intros Hpos; apply Qltb_lt in Hpos; rewrite Hpos; reflexivity |].
  split; [intros Hneg; apply Qltb_ge in Hneg; rewrite Hneg; reflexivity |].
  set (perfs := performance <$> items).
  pose proof (sort_performances_falling perfs) as Hfall.
  assert (Hin : performance item ∈ sort_performances perfs)
    by (apply sort_performances_elem; apply list_elem_of_here).
  destruct (sort_performances perfs) as [| best sorted] eqn:Hsort;
    [apply elem_of_nil in Hin; contradiction |].
  destruct (last (best :: sorted)) as [worst |] eqn:Hlast;
    [| apply last_None in Hlast; discriminate Hlast].
  exists best, worst. cbn [head].
  split; [reflexivity |]. split; [reflexivity |].
  assert (Hmem : ∀ q, q ∈ best :: sorted ↔ q ∈ perfs)
    by (intros q; rewrite <- Hsort; apply sort_performances_elem).
  split; [apply Hmem; apply list_elem_of_here |].
  split; [apply Hmem; apply last_Some_elem_of; exact Hlast |].
  split.
  - intros q Hq. apply Hmem in Hq. apply elem_of_cons in Hq as [-> | Hq]; [lra |].
    destruct Hfall as [Htop _]. exact (Htop q Hq).
  - intros q Hq. apply Hmem in Hq. exact (falling_last _ worst Hfall Hlast q Hq).
Qed.

(** ** [get_enhanced_stock_info] *)

(** X26: When the market capitalisation is a number (0 when the key is absent)
    and the P/E figures can be subtracted, the dictionary returned holds
    the symbol, the time, the band of the capitalisation and, when both
    P/E figures are there, their difference; every other key is as in
    [basic_info]. *)
Theorem enhanced_stock_info_adds (now symbol : string)
  (basic_info : gmap string value) (cap : Q) :
  get_default basic_info "marketCap" (VNum 0) = VNum cap →
  pe_comparable basic_info →
  let enhanced := get_enhanced_stock_info now symbol basic_info in
  enhanced !! "symbol" = Some (VStr symbol)
  ∧ enhanced !! "last_updated" = Some (VStr now)
  ∧ (∃ category, enhanced !! "market_cap_category" = Some (VStr category)
                 ∧ cap_bands cap category)
  ∧ (∀ t f, basic_info !! "trailingPE" = Some (VNum t) →
       basic_info !! "forwardPE" = Some (VNum f) →
       enhanced !! "pe_comparison" = Some (VNum (t - f)))
  ∧ (∀ k, k ∉ added_keys → enhanced !! k = basic_info !! k).
Proof.
  intros Hcap Hpe enhanced. subst enhanced.
  unfold get_enhanced_stock_info, enhanced_info, has_key.
  rewrite Hcap. unfold pe_comparable in Hpe. unfold get_default.
  assert (Hother : ∀ (k : string) (m : gmap string value) (key : string) (v : value),
            k ∉ added_keys → key ∈ added_keys → <[key := v]> m !! k = m !! k).
  { intros k m key v Hk Hkey. apply lookup_insert_ne. intros <-. exact (Hk Hkey). }
  assert (Hkeys : Forall (λ key, key ∈ added_keys) added_keys)
    by (apply Forall_forall; auto).
  unfold added_keys in Hkeys.
  apply Forall_cons in Hkeys as [K1 Hkeys]. apply Forall_cons in Hkeys as [K2 Hkeys].
  apply Forall_cons in Hkeys as [K3 Hkeys]. apply Forall_cons in Hkeys as [K4 _].
  destruct (basic_info !! "trailingPE") as [[| t | ?] |] eqn:Ht;
    destruct (basic_info !! "forwardPE") as [[| f | ?] |] eqn:Hf;
    try contradiction;
    repeat (rewrite bool_decide_eq_true_2 by eauto);
    repeat (rewrite bool_decide_eq_false_2 by (intros [? ?]; discriminate));
    cbn [andb from_option id sub gt lt mbind result_bind];
    (destruct (Qltb 200000000000 cap) eqn:E1;
       [apply Qltb_lt in E1 | apply Qltb_ge in E1; cbn [mbind result_bind];
        destruct (Qltb 10000000000 cap) eqn:E2;
          [apply Qltb_lt in E2 | apply Qltb_ge in E2; cbn [mbind result_bind];
           destruct (Qltb 2000000000 cap) eqn:E3;
             [apply Qltb_lt in E3 | apply Qltb_ge in E3; cbn [mbind result_bind];
              destruct (Qltb 300000000 cap) eqn:E4;
                [apply Qltb_lt in E4 | apply Qltb_ge in E4]]]]);
    cbn [mbind result_bind];
    (split; [repeat (rewrite lookup_insert_ne by discriminate);
             apply lookup_insert_eq |]);
    (split; [repeat (rewrite lookup_insert_ne by discriminate);
             apply lookup_insert_eq |]);
    (split; [eexists; split; [apply lookup_insert_eq |];
             unfold cap_bands; repeat split; intros;
             first [discriminate | reflexivity | lra
                   | match goal with H : _ ∧ _ |- _ => destruct H; lra end] |]);
    (split; [intros t' f' Ht' Hf'; try discriminate;
             injection Ht' as <-; injection Hf' as <-;
             repeat (rewrite lookup_insert_ne by discriminate);
             apply lookup_insert_eq |]);
    intros k Hk; rewrite ?Hother by assumption; reflexivity.
Qed.

Lemma enhanced_stock_info_adds_witness :
  let basic_info : gmap string value :=
    {[ "marketCap" := VNum 3000000000; "trailingPE" := VNum 30;
       "forwardPE" := VNum 25; "longName" := VStr "Example Inc." ]} in
  let enhanced := get_enhanced_stock_info "2024-01-02 03:04:05" "EXM" basic_info in
  enhanced !! "symbol" = Some (VStr "EXM")
  ∧ enhanced !! "last_updated" = Some (VStr "2024-01-02 03:04:05")
  ∧ (∃ category, enhanced !! "market_cap_category" = Some (VStr category)
                 ∧ cap_bands 3000000000 category)
  ∧ (∀ t f, basic_info !! "trailingPE" = Some (VNum t) →
       basic_info !! "forwardPE" = Some (VNum f) →
       enhanced !! "pe_comparison" = Some (VNum (t - f)))
  ∧ (∀ k, k ∉ added_keys → enhanced !! k = basic_info !! k).
Proof.
  intros basic_info.
  apply (enhanced_stock_info_adds "2024-01-02 03:04:05" "EXM" basic_info 3000000000).
  - reflexivity.
  - vm_compute. exact I.
Defined.

(** X27: When the market capitalisation is there but is [None] or a string, or
    when both P/E figures are there and one of them is not a number, the
    comparison raises and [basic_info] comes back as it was, without the
    symbol and the time. *)
Theorem enhanced_stock_info_gives_up (now symbol : string)
  (basic_info : gmap string value) :
  ((∃ v, basic_info !! "marketCap" = Some v ∧ ∀ cap, v ≠ VNum cap)
   ∨ ¬ pe_comparable basic_info) →
  get_enhanced_stock_info now symbol basic_info = basic_info.
Proof.
  intros Hbad.
  unfold get_enhanced_stock_info, enhanced_info, has_key, get_default.
  unfold pe_comparable in Hbad.
  destruct (basic_info !! "trailingPE") as [[| t | ?] |] eqn:Ht;
    destruct (basic_info !! "forwardPE") as [[| f | ?] |] eqn:Hf;
    repeat (rewrite bool_decide_eq_true_2 by eauto);
    repeat (rewrite bool_decide_eq_false_2 by (intros [? ?]; discriminate));
    cbn [andb from_option id sub mbind result_bind]; try reflexivity;
    (destruct Hbad as [(v & Hv & Hnum) | Hbad]; [| exfalso; apply Hbad; exact I]);
    rewrite Hv; cbn [from_option id];
    (destruct v as [| cap | ?];
       [reflexivity | exfalso; exact (Hnum cap eq_refl) | reflexivity]).
Qed.

Lemma enhanced_stock_info_gives_up_witness :
  get_enhanced_stock_info "2024-01-02 03:04:05" "EXM"
    {[ "marketCap" := VNone; "longName" := VStr "Example Inc." ]}
  = {[ "marketCap" := VNone; "longName" := VStr "Example Inc." ]}.
Proof.
  apply (enhanced_stock_info_gives_up "2024-01-02 03:04:05" "EXM"
           {[ "marketCap" := VNone; "longName" := VStr "Example Inc." ]}).
  left. exists VNone. split; [reflexivity | discriminate].
Defined.

(** ** The scores of [_get_enhanced_financial_metrics] *)

(** X28: Whenever [_get_enhanced_financial_metrics] returns, the technical
    score lies in [-1.8, 2], the analyst part of the sentiment score (the
    score less the technical score) in [-3, 3], and so the sentiment score
    in [-4.8, 5]. *)
Theorem enhanced_metrics_score_bounds (info : gmap string value) (data : DataFrame)
  (current_price : xnum) (r : Metrics.EnhancedMetrics) :
  Metrics._get_enhanced_financial_metrics info data current_price = Ok r →
  -1.8 <= Metrics.technical_score r ∧ Metrics.technical_score r <= 2
  ∧ -3 <= Metrics.sentiment_score r - Metrics.technical_score r
  ∧ Metrics.sentiment_score r - Metrics.technical_score r <= 3
  ∧ -4.8 <= Metrics.sentiment_score r ∧ Metrics.sentiment_score r <= 5.
Proof.
  unfold Metrics._get_enhanced_financial_metrics. intros H.
  repeat match type of H with
         | (mbind _ ?m) = _ =>
             destruct m; cbn [mbind result_bind] in H; [| discriminate H]
         end.
  injection H as <-. cbn [Metrics.technical_score Metrics.sentiment_score].
  repeat match goal with
         | |- context [if ?b then _ else _] => destruct b
         end;
    repeat split; lra.
Qed.

Lemma enhanced_metrics_score_bounds_witness :
  ∃ r, Metrics._get_enhanced_financial_metrics
         {[ "recommendationKey" := VStr "buy"; "averageVolume" := VNum 100 ]}
         (mkDF 1 {[ "Volume" := [Fin 200] ]}) (Fin 10) = Ok r
    ∧ -1.8 <= Metrics.technical_score r ∧ Metrics.technical_score r <= 2
    ∧ -3 <= Metrics.sentiment_score r - Metrics.technical_score r
    ∧ Metrics.sentiment_score r - Metrics.technical_score r <= 3
    ∧ -4.8 <= Metrics.sentiment_score r ∧ Metrics.sentiment_score r <= 5.
Proof.
  eexists. split; [vm_compute; reflexivity |].
  apply (enhanced_metrics_score_bounds
           {[ "recommendationKey" := VStr "buy"; "averageVolume" := VNum 100 ]}
           (mkDF 1 {[ "Volume" := [Fin 200] ]}) (Fin 10)).
  vm_compute. reflexivity.
Defined.

(** ** Closed examples of the pipeline *)

Lemma fetch_data_on_ohlcv_witness :
  ∃ df' obv,
    fetch_data no_sqrt yfinance_three_bars "EXM" "1y" true 0%nat
    = (Ok (Some (Some df', Some "info")), 1%nat)
    ∧ ohlcv df' three_bars
    ∧ _calculate_obv (frame_of three_bars) = Ok obv
    ∧ cols df' !! "OBV" = Some obv
    ∧ Forall (λ name, is_Some (cols df' !! name)) (indicator_columns true).
Proof.
  apply (fetch_data_on_ohlcv no_sqrt yfinance_three_bars "EXM" "1y" true 0%nat 1%nat
           (frame_of three_bars) "info" three_bars
           {| open := 1; high := 2; low := 1; close := 2; volume := 100 |}).
  - reflexivity.
  - apply ohlcv_frame_of.
  - reflexivity.
Defined.

Lemma first_result_is_served_again_witness :
  ∃ found cache1 w1,
    get_enhanced_stock_data no_sqrt repr_text yfinance_down ∅ 1000 1001 "EXM" "1y"
      true 0%nat
    = (Ok found, cache1, w1)
    ∧ fetch_data no_sqrt yfinance_down "EXM" "1y" true 0%nat = (Ok (Some found), w1)
    ∧ (∀ e, yfinance_down "EXM" "1y" 0%nat = (Raise e, w1) → found = (None, None))
    ∧ ∀ now' stored_at' advanced' (w' : nat),
        now' - 1001 < cache_ttl →
        get_enhanced_stock_data no_sqrt repr_text yfinance_down cache1 now' stored_at'
          "EXM" "1y" advanced' w'
        = (Ok found, cache1, w').
Proof.
  apply (first_result_is_served_again no_sqrt repr_text yfinance_down ∅ 1000 1001
           "EXM" "1y" true 0%nat).
  reflexivity.
Defined.


Lemma moving_average_rows_witness :
  ∃ df', _add_technical_indicators no_sqrt true (frame_of six_bars) = (Ok tt, df')
    ∧ Forall (λ column : string * nat,
                let w := column.2 in
                cell df' column.1 5
                = Some (if (w <=? 5 + 1)%nat
                        then Fin (trailing_mean w
                                    (λ k, nth k (close <$> six_bars) 0) 5)
                        else NaN)) sma_columns
    ∧ ((5 + 1 < 20)%nat →
         Forall (λ name, cell df' name 5 = Some NaN) bollinger_columns).
Proof.
  apply (moving_average_rows no_sqrt true (frame_of six_bars) six_bars 5 (flat_bar 6)).
  - apply ohlcv_frame_of.
  - reflexivity.
Defined.

